(** * MyEldom cloud client: session, transport and heater synchronisation

    A shallow embedding of [MyEldom.py] (the [MyEldom] client class and the
    [Heater] record) together with the properties of the session and
    device-synchronisation core.

    Layout:
    - [Py]: the Python values the client handles (what [json.loads] yields),
      binary64 floats, and the dynamic operations the client applies to
      them ([v.get(k)], [v[k]], [k in v], [float(v)], truthiness, [==]);
    - [Json]: [json.loads] on response texts;
    - [Clock]: [datetime.strptime] at the client's one format string;
    - [Eff]: a state-and-exception monad; a raised exception keeps the
      mutations made before it, as in Python;
    - the client itself, one definition per method, under the method's name;
    - the climate entity of [climate.py] and the configuration step of
      [config_flow.py], as far as they drive the client;
    - the properties.

    Characters are the 256 values of [ascii], read as the code points
    U+0000..U+00FF; texts that name a character beyond them are not
    covered. *)

From Stdlib Require Import ZArith List String Ascii Bool Lia.
From Stdlib Require Import Floats.SpecFloat.
From Equations Require Import Equations.
Import ListNotations.

Set Warnings "-register-all".
Open Scope string_scope.
Open Scope list_scope.
Open Scope Z_scope.

(* ===================================================================== *)
(** * Python values *)
(* ===================================================================== *)

Module Py.

(** The built-in exceptions the client can meet.  [JSONDecodeError] is a
    subclass of [ValueError] in Python; the client only ever catches it
    under its own name, so the two are kept apart. *)
Inductive exn : Set :=
| KeyError | TypeError | ValueError | AttributeError
| OverflowError | JSONDecodeError.

(** Outcome of evaluating a Python expression or call. *)
Inductive result (A : Type) : Type :=
| Return (a : A)
| Raise (e : exn).
Arguments Return {A} a.
Arguments Raise {A} e.

(** Python's [float] is IEEE 754 binary64. *)
Definition float : Set := spec_float.
Definition prec : Z := 53.
Definition emax : Z := 1024.
Definition fadd : float -> float -> float := SFadd prec emax.
Definition feqb : float -> float -> bool := SFeqb.

(** The values [json.loads] produces.  A [dict] keeps its keys in
    insertion order; JSON keys are strings. *)
Inductive value : Type :=
| PyNone
| PyBool (b : bool)
| PyInt (z : Z)
| PyFloat (f : float)
| PyStr (s : string)
| PyList (l : list value)
| PyDict (d : list (string * value)).

(** ** Floats from integers and from decimal literals *)

(** [float(z)] for an integer in range: round to nearest, ties to even. *)
Definition float_of_Z (z : Z) : float := binary_normalize prec emax z 0 false.

(** [(-1)^neg * m * 10^e10] correctly rounded, for [0 <= m].  For a negative
    exponent the quotient is computed with more than [prec + 2] bits and
    a sticky last bit, which rounds as the exact value does. *)
Definition float_of_decimal (neg : bool) (m : Z) (e10 : Z) : float :=
  let sgn (x : Z) := if neg then - x else x in
  if m =? 0 then S754_zero neg
  else if 0 <=? e10 then binary_normalize prec emax (sgn (m * 10 ^ e10)) 0 neg
  else
    let n := 10 ^ (- e10) in
    let k := 64 + Z.log2 n + 1 in
    let q := (m * 2 ^ k) / n in
    let r := (m * 2 ^ k) mod n in
    let mant := 2 * q + (if r =? 0 then 0 else 1) in
    binary_normalize prec emax (sgn mant) (- k - 1) neg.

(** The integer a float denotes, when it denotes one. *)
Definition float_integral (f : float) : option Z :=
  match f with
  | S754_zero _ => Some 0
  | S754_finite s m e =>
      let sgn (x : Z) := if s then - x else x in
      if 0 <=? e then Some (sgn (Z.pos m * 2 ^ e))
      else if (Z.pos m) mod (2 ^ (- e)) =? 0
           then Some (sgn (Z.pos m / 2 ^ (- e))) else None
  | S754_infinity _ | S754_nan => None
  end.

Definition is_infinite (f : float) : bool :=
  match f with S754_infinity _ => true | _ => false end.

Definition is_zero (f : float) : bool :=
  match f with S754_zero _ => true | _ => false end.

(** ** Characters and strings *)

Definition code (c : ascii) : Z := Z.of_N (N_of_ascii c).

Definition digit_of (c : ascii) : option Z :=
  let n := code c in
  if (48 <=? n) && (n <=? 57) then Some (n - 48) else None.

Definition is_digit (c : ascii) : bool :=
  match digit_of c with Some _ => true | None => false end.

Definition lower (c : ascii) : ascii :=
  let n := code c in
  if (65 <=? n) && (n <=? 90) then ascii_of_N (Z.to_N (n + 32)) else c.

Fixpoint lower_string (s : string) : string :=
  match s with
  | EmptyString => EmptyString
  | String c r => String (lower c) (lower_string r)
  end.

(** [needle in hay] on two [str]. *)
Fixpoint substring_of (needle hay : string) : bool :=
  prefix needle hay ||
  match hay with
  | EmptyString => false
  | String _ r => substring_of needle r
  end.

(** [s[:n]] on a [str]. *)
Fixpoint take (n : nat) (s : string) : string :=
  match n, s with
  | S k, String c r => String c (take k r)
  | _, _ => EmptyString
  end.

(** Reads a run of decimal digits: the number read so far, how many
    digits were read, and what follows. *)
Fixpoint scan_digits (s : string) (acc : Z) (n : Z) : Z * Z * string :=
  match s with
  | String c r =>
      match digit_of c with
      | Some d => scan_digits r (10 * acc + d) (n + 1)
      | None => (acc, n, s)
      end
  | EmptyString => (acc, n, s)
  end.

(** An optional sign: [true] for [-]. *)
Definition scan_sign (plus : bool) (s : string) : bool * string :=
  match s with
  | String "-" r => (true, r)
  | String "+" r => if plus then (false, r) else (false, s)
  | _ => (false, s)
  end.

(** An exponent part [e[+-]ddd], when there is one with digits. *)
Definition scan_exponent (s : string) : option (Z * string) :=
  match s with
  | String c r =>
      if (code (lower c) =? 101) then
        let '(neg, r1) := scan_sign true r in
        let '(e, n, r2) := scan_digits r1 0 0 in
        if n =? 0 then None else Some ((if neg then - e else e), r2)
      else None
  | EmptyString => None
  end.

(** ** [float(s)] on a [str]

    Surrounding whitespace is dropped, single underscores between digits
    are allowed, and the rest is an optional sign followed by [inf],
    [infinity], [nan] (in any case) or a decimal literal with an optional
    fraction and exponent.  Too large a literal gives an infinity. *)

Definition float_space (c : ascii) : bool :=
  let n := code c in
  ((9 <=? n) && (n <=? 13)) || (n =? 32) || (n =? 133) || (n =? 160).

Fixpoint lstrip (s : string) : string :=
  match s with
  | String c r => if float_space c then lstrip r else s
  | EmptyString => s
  end.

Fixpoint rstrip (s : string) : string :=
  match s with
  | String c r =>
      match rstrip r with
      | EmptyString => if float_space c then EmptyString else String c EmptyString
      | r' => String c r'
      end
  | EmptyString => s
  end.

(** Underscores may only stand between two digits; they are removed. *)
Fixpoint drop_underscores (prev : option ascii) (s : string) : option string :=
  let digit_before :=
    match prev with Some p => is_digit p | None => false end in
  match s with
  | EmptyString =>
      match prev with
      | Some "_"%char => None
      | _ => Some EmptyString
      end
  | String "_" r =>
      if digit_before then drop_underscores (Some "_"%char) r else None
  | String c r =>
      match prev with
      | Some "_"%char => if is_digit c then
                           option_map (String c) (drop_underscores (Some c) r)
                         else None
      | _ => option_map (String c) (drop_underscores (Some c) r)
      end
  end.

Definition float_of_string (s : string) : option float :=
  match drop_underscores None (rstrip (lstrip s)) with
  | None => None
  | Some t =>
      let '(neg, body) := scan_sign true t in
      let word := lower_string body in
      if (word =? "inf")%string || (word =? "infinity")%string
      then Some (S754_infinity neg)
      else if (word =? "nan")%string then Some S754_nan
      else
        let '(ip, ni, r1) := scan_digits body 0 0 in
        let '(m, nf, r2) :=
          match r1 with
          | String "." r => let '(m, nf, r2) := scan_digits r ip 0 in (m, nf, r2)
          | _ => (ip, 0, r1)
          end in
        if ni + nf =? 0 then None
        else
          let '(e, r3) :=
            match scan_exponent r2 with Some x => x | None => (0, r2) end in
          match r3 with
          | EmptyString => Some (float_of_decimal neg m (e - nf))
          | _ => None
          end
  end.

(** ** The dynamic operations the client applies *)

(** [bool(v)], as taken by [if v:]. *)
Definition truthy (v : value) : bool :=
  match v with
  | PyNone => false
  | PyBool b => b
  | PyInt z => negb (z =? 0)
  | PyFloat f => negb (is_zero f)
  | PyStr s => negb (s =? "")%string
  | PyList l => match l with [] => false | _ => true end
  | PyDict d => match d with [] => false | _ => true end
  end.

Fixpoint lookup (k : string) (d : list (string * value)) : option value :=
  match d with
  | [] => None
  | (k', v) :: r => if (k =? k')%string then Some v else lookup k r
  end.

(** [d[k] = v]: an existing key keeps its place. *)
Fixpoint store (k : string) (v : value) (d : list (string * value))
  : list (string * value) :=
  match d with
  | [] => [(k, v)]
  | (k', v') :: r =>
      if (k =? k')%string then (k, v) :: r else (k', v') :: store k v r
  end.

(** [v.get(k)]: only a [dict] has the method. *)
Definition get (v : value) (k : string) : result value :=
  match v with
  | PyDict d => Return (match lookup k d with Some x => x | None => PyNone end)
  | _ => Raise AttributeError
  end.

(** [v[k]] for a [str] key [k]. *)
Definition getitem (v : value) (k : string) : result value :=
  match v with
  | PyDict d =>
      match lookup k d with Some x => Return x | None => Raise KeyError end
  | _ => Raise TypeError
  end.

(** [k in v] for a [str] [k]: key of a [dict], element of a [list],
    substring of a [str]; the other values are not containers. *)
Definition contains (k : string) (v : value) : result bool :=
  match v with
  | PyDict d => Return (match lookup k d with Some _ => true | None => false end)
  | PyList l =>
      Return (existsb (fun x => match x with
                                | PyStr s => (s =? k)%string
                                | _ => false
                                end) l)
  | PyStr s => Return (substring_of k s)
  | _ => Raise TypeError
  end.

(** [float(v)]. *)
Definition to_float (v : value) : result float :=
  match v with
  | PyFloat f => Return f
  | PyInt z =>
      let f := float_of_Z z in
      if is_infinite f then Raise OverflowError else Return f
  | PyBool b => Return (float_of_Z (if b then 1 else 0))
  | PyStr s =>
      match float_of_string s with
      | Some f => Return f
      | None => Raise ValueError
      end
  | PyNone | PyList _ | PyDict _ => Raise TypeError
  end.

(** [v[:19]]: a prefix of a [str] or of a [list]; a [dict] refuses the
    slice as a key and the other values cannot be subscripted. *)
Definition slice19 (v : value) : result value :=
  match v with
  | PyStr s => Return (PyStr (take 19 s))
  | PyList l => Return (PyList (firstn 19 l))
  | _ => Raise TypeError
  end.

(** [for x in v]: the items the loop visits. *)
Definition iter (v : value) : result (list value) :=
  match v with
  | PyList l => Return l
  | PyDict d => Return (map (fun kv => PyStr (fst kv)) d)
  | PyStr s =>
      Return (map (fun c => PyStr (String c EmptyString)) (list_ascii_of_string s))
  | _ => Raise TypeError
  end.

(** [==] between the values that can be [dict] keys.  [bool], [int] and
    [float] compare by the number they denote; a NaN equals nothing. *)
Definition number_of (v : value) : option (Z + float) :=
  match v with
  | PyBool b => Some (inl (if b then 1 else 0))
  | PyInt z => Some (inl z)
  | PyFloat f => Some (inr f)
  | _ => None
  end.

Definition number_eqb (a b : Z + float) : bool :=
  match a, b with
  | inl x, inl y => x =? y
  | inl x, inr f | inr f, inl x =>
      match float_integral f with Some y => x =? y | None => false end
  | inr f, inr g => feqb f g
  end.

Definition scalar_eqb (a b : value) : bool :=
  match a, b with
  | PyNone, PyNone => true
  | PyStr s, PyStr t => (s =? t)%string
  | _, _ =>
      match number_of a, number_of b with
      | Some x, Some y => number_eqb x y
      | _, _ => false
      end
  end.

(** Lists and dicts cannot be hashed. *)
Definition hashable (v : value) : bool :=
  match v with
  | PyList _ | PyDict _ => false
  | _ => true
  end.

End Py.

(* ===================================================================== *)
(** * [json.loads] *)
(* ===================================================================== *)

Module Json.
Import Py.

Definition is_ws (c : ascii) : bool :=
  let n := code c in (n =? 32) || (n =? 9) || (n =? 10) || (n =? 13).

Fixpoint skip_ws (s : string) : string :=
  match s with
  | String c r => if is_ws c then skip_ws r else s
  | EmptyString => s
  end.

Definition hex_of (c : ascii) : option Z :=
  let n := code c in
  if (48 <=? n) && (n <=? 57) then Some (n - 48)
  else if (97 <=? n) && (n <=? 102) then Some (n - 87)
  else if (65 <=? n) && (n <=? 70) then Some (n - 55)
  else None.

Definition chr (n : Z) : ascii := ascii_of_N (Z.to_N n).

(** The code point of a [\uXXXX] escape, when it lies in the alphabet.
    The alphabet ends at U+00FF: an escape beyond it, which Python
    decodes, has no string here, and a text that holds one is outside
    this development, where it reads like a text that does not decode.
    What is proved of a response is proved of the responses written in
    the alphabet. *)
Definition unicode_escape (a b c d : ascii) : option ascii :=
  match hex_of a, hex_of b, hex_of c, hex_of d with
  | Some x, Some y, Some z, Some w =>
      let n := ((x * 16 + y) * 16 + z) * 16 + w in
      if n <? 256 then Some (chr n) else None
  | _, _, _, _ => None
  end.

(** The body of a string literal, after its opening quote: the decoded
    string and what follows the closing quote.  Control characters must
    be escaped. *)
Fixpoint scan_string (s : string) : option (string * string) :=
  let push (c : ascii) (r : option (string * string)) :=
    match r with
    | Some (t, rest) => Some (String c t, rest)
    | None => None
    end in
  match s with
  | EmptyString => None
  | String c r =>
      if code c =? 34 then Some (EmptyString, r)
      else if code c =? 92 then
        match r with
        | EmptyString => None
        | String e r' =>
            let n := code e in
            if n =? 34 then push (chr 34) (scan_string r')
            else if n =? 92 then push (chr 92) (scan_string r')
            else if n =? 47 then push (chr 47) (scan_string r')
            else if n =? 98 then push (chr 8) (scan_string r')
            else if n =? 102 then push (chr 12) (scan_string r')
            else if n =? 110 then push (chr 10) (scan_string r')
            else if n =? 114 then push (chr 13) (scan_string r')
            else if n =? 116 then push (chr 9) (scan_string r')
            else if n =? 117 then
              match r' with
              | String h1 (String h2 (String h3 (String h4 r''))) =>
                  match unicode_escape h1 h2 h3 h4 with
                  | Some u => push u (scan_string r'')
                  | None => None
                  end
              | _ => None
              end
            else None
        end
      else if code c <? 32 then None
      else push c (scan_string r)
  end.

(** A number: an optional minus sign, an integer part without leading
    zeros, an optional fraction of at least one digit and an optional
    exponent.  Without fraction and exponent it is an [int], otherwise a
    [float]. *)
Definition scan_number (s : string) : option (value * string) :=
  let '(neg, r0) := scan_sign false s in
  let int_part :=
    match r0 with
    | String c r =>
        match digit_of c with
        | Some d => if d =? 0 then Some (0, r) else
                      let '(ip, _, r1) := scan_digits r0 0 0 in Some (ip, r1)
        | None => None
        end
    | EmptyString => None
    end in
  match int_part with
  | None => None
  | Some (ip, r1) =>
      let '(m, nf, r2) :=
        match r1 with
        | String "." r =>
            let '(m, nf, r2) := scan_digits r ip 0 in
            if nf =? 0 then (ip, 0, r1) else (m, nf, r2)
        | _ => (ip, 0, r1)
        end in
      match scan_exponent r2 with
      | Some (e, r3) => Some (PyFloat (float_of_decimal neg m (e - nf)), r3)
      | None =>
          if nf =? 0 then Some (PyInt (if neg then - ip else ip), r2)
          else Some (PyFloat (float_of_decimal neg m (- nf)), r2)
      end
  end.

Fixpoint drop (n : nat) (s : string) : string :=
  match n, s with
  | S k, String _ r => drop k r
  | _, _ => s
  end.

(** One JSON value at the head of [s].  [fuel] bounds the nesting depth
    and the number of members of each container; one more than the length
    of the text is always enough. *)
Fixpoint scan_value (fuel : nat) (s : string) {struct fuel}
  : option (value * string) :=
  match fuel with
  | O => None
  | S f =>
      let members :=
        fix members (n : nat) (s : string) (acc : list (string * value))
            {struct n} : option (value * string) :=
          match n, s with
          | S n', String q r =>
              if code q =? 34 then
                match scan_string r with
                | None => None
                | Some (key, r1) =>
                    match skip_ws r1 with
                    | String ":" r2 =>
                        match scan_value f (skip_ws r2) with
                        | None => None
                        | Some (v, r3) =>
                            match skip_ws r3 with
                            | String "}" r4 => Some (PyDict (store key v acc), r4)
                            | String "," r4 => members n' (skip_ws r4) (store key v acc)
                            | _ => None
                            end
                        end
                    | _ => None
                    end
                end
              else None
          | _, _ => None
          end in
      let elements :=
        fix elements (n : nat) (s : string) (acc : list value)
            {struct n} : option (value * string) :=
          match n with
          | S n' =>
              match scan_value f s with
              | None => None
              | Some (v, r1) =>
                  match skip_ws r1 with
                  | String "]" r2 => Some (PyList (rev (v :: acc)), r2)
                  | String "," r2 => elements n' (skip_ws r2) (v :: acc)
                  | _ => None
                  end
              end
          | O => None
          end in
      match s with
      | EmptyString => None
      | String c r =>
          let n := code c in
          if n =? 34 then
            match scan_string r with
            | Some (t, rest) => Some (PyStr t, rest)
            | None => None
            end
          else if n =? 123 then
            match skip_ws r with
            | String "}" r1 => Some (PyDict [], r1)
            | r1 => members f r1 []
            end
          else if n =? 91 then
            match skip_ws r with
            | String "]" r1 => Some (PyList [], r1)
            | r1 => elements f r1 []
            end
          else if prefix "null" s then Some (PyNone, drop 4 s)
          else if prefix "true" s then Some (PyBool true, drop 4 s)
          else if prefix "false" s then Some (PyBool false, drop 5 s)
          else
            match scan_number s with
            | Some x => Some x
            | None =>
                if prefix "NaN" s then Some (PyFloat S754_nan, drop 3 s)
                else if prefix "Infinity" s
                     then Some (PyFloat (S754_infinity false), drop 8 s)
                else if prefix "-Infinity" s
                     then Some (PyFloat (S754_infinity true), drop 9 s)
                else None
            end
      end
  end.

(** [json.loads(s)] on a [str]: [None] stands for [JSONDecodeError]. *)
Definition loads (s : string) : option value :=
  match scan_value (S (String.length s)) (skip_ws s) with
  | Some (v, rest) =>
      match skip_ws rest with
      | EmptyString => Some v
      | _ => None
      end
  | None => None
  end.

(** [json.loads(v)] on a value the client holds: only a [str] is a
    JSON text. *)
Definition loads_value (v : value) : result value :=
  match v with
  | PyStr s =>
      match loads s with
      | Some x => Return x
      | None => Raise JSONDecodeError
      end
  | _ => Raise TypeError
  end.

(** ** Writing texts

    String literals as JSON writes them, used to build response texts. *)

Definition dq : string := String (chr 34) EmptyString.

Fixpoint escape (s : string) : string :=
  match s with
  | EmptyString => EmptyString
  | String c r =>
      if (code c =? 34) || (code c =? 92)
      then String (chr 92) (String c (escape r))
      else String c (escape r)
  end.

Definition quote (s : string) : string :=
  (dq ++ escape s ++ dq)%string.

End Json.

(* ===================================================================== *)
(** * [datetime.strptime(s, "%Y-%m-%dT%H:%M:%S")] *)
(* ===================================================================== *)

Module Clock.
Import Py.

Record datetime : Set := mkDatetime {
  year : Z; month : Z; day : Z;
  hour : Z; minute : Z; second : Z
}.

(** The directives are regular expressions tried alternative by
    alternative, in order, the input being matched without regard to
    case. *)
Definition alternative : Type := string -> option (Z * string).

Definition in_range (lo hi : Z) (c : ascii) : option Z :=
  match digit_of c with
  | Some d => if (lo <=? d) && (d <=? hi) then Some d else None
  | None => None
  end.

Definition two (lo1 hi1 lo2 hi2 : Z) : alternative := fun s =>
  match s with
  | String a (String b r) =>
      match in_range lo1 hi1 a, in_range lo2 hi2 b with
      | Some x, Some y => Some (10 * x + y, r)
      | _, _ => None
      end
  | _ => None
  end.

Definition one (lo hi : Z) : alternative := fun s =>
  match s with
  | String a r =>
      match in_range lo hi a with
      | Some x => Some (x, r)
      | None => None
      end
  | _ => None
  end.

Definition padded (lo hi : Z) : alternative := fun s =>
  match s with
  | String " " r => one lo hi r
  | _ => None
  end.

Definition four_digits : alternative := fun s =>
  match s with
  | String a (String b (String c (String d r))) =>
      match digit_of a, digit_of b, digit_of c, digit_of d with
      | Some x, Some y, Some z, Some w =>
          Some (((x * 10 + y) * 10 + z) * 10 + w, r)
      | _, _, _, _ => None
      end
  | _ => None
  end.

Definition directive_Y : list alternative := [four_digits].
Definition directive_m : list alternative := [two 1 1 0 2; two 0 0 1 9; one 1 9].
Definition directive_d : list alternative :=
  [two 3 3 0 1; two 1 2 0 9; two 0 0 1 9; one 1 9; padded 1 9].
Definition directive_H : list alternative := [two 2 2 0 3; two 0 1 0 9; one 0 9].
Definition directive_M : list alternative := [two 0 5 0 9; one 0 9].
Definition directive_S : list alternative := [two 6 6 0 1; two 0 5 0 9; one 0 9].

(** Every way a directive matches at the head of [s], best first. *)
Definition matches (d : list alternative) (s : string) : list (Z * string) :=
  flat_map (fun a => match a s with Some x => [x] | None => [] end) d.

Definition literal (c : ascii) (s : string) : list string :=
  match s with
  | String a r => if (code (lower a) =? code (lower c)) then [r] else []
  | EmptyString => []
  end.

(** The matches of the whole format at the head of [s], in the order a
    backtracking matcher finds them. *)
Definition format_matches (s : string) : list (datetime * string) :=
  flat_map (fun '(y, r1) =>
  flat_map (fun r2 =>
  flat_map (fun '(mo, r3) =>
  flat_map (fun r4 =>
  flat_map (fun '(d, r5) =>
  flat_map (fun r6 =>
  flat_map (fun '(h, r7) =>
  flat_map (fun r8 =>
  flat_map (fun '(mi, r9) =>
  flat_map (fun r10 =>
  map (fun '(sec, r11) => (mkDatetime y mo d h mi sec, r11))
    (matches directive_S r10))
    (literal ":" r9))
    (matches directive_M r8))
    (literal ":" r7))
    (matches directive_H r6))
    (literal "T" r5))
    (matches directive_d r4))
    (literal "-" r3))
    (matches directive_m r2))
    (literal "-" r1))
    (matches directive_Y s).

Definition is_leap (y : Z) : bool :=
  ((y mod 4 =? 0) && negb (y mod 100 =? 0)) || (y mod 400 =? 0).

Definition days_in_month (y m : Z) : Z :=
  if m =? 2 then (if is_leap y then 29 else 28)
  else if (m =? 4) || (m =? 6) || (m =? 9) || (m =? 11) then 30
  else 31.

(** What the [datetime] constructor accepts. *)
Definition valid (t : datetime) : bool :=
  (1 <=? year t) && (year t <=? 9999) &&
  (1 <=? month t) && (month t <=? 12) &&
  (1 <=? day t) && (day t <=? days_in_month (year t) (month t)) &&
  (0 <=? hour t) && (hour t <=? 23) &&
  (0 <=? minute t) && (minute t <=? 59) &&
  (0 <=? second t) && (second t <=? 59).

(** [None] stands for [ValueError]: no match, text left over after the
    match, or fields that are no date. *)
Definition parse (s : string) : option datetime :=
  match format_matches s with
  | (t, EmptyString) :: _ => if valid t then Some t else None
  | _ => None
  end.

(** [datetime.strptime(v, "%Y-%m-%dT%H:%M:%S")]. *)
Definition strptime (v : value) : result datetime :=
  match v with
  | PyStr s =>
      match parse s with
      | Some t => Return t
      | None => Raise ValueError
      end
  | _ => Raise TypeError
  end.

End Clock.

(* ===================================================================== *)
(** * State and exceptions *)
(* ===================================================================== *)

Module Eff.
Import Py.

(** A computation over a mutable state [S].  When it raises, the state
    is the one reached at the raise: nothing is rolled back. *)
Definition M (S A : Type) : Type := S -> result A * S.

Definition ret {S A : Type} (a : A) : M S A := fun s => (Return a, s).

Definition raise {S A : Type} (e : exn) : M S A := fun s => (Raise e, s).

Definition bind {S A B : Type} (m : M S A) (k : A -> M S B) : M S B :=
  fun s =>
    match m s with
    | (Return a, s') => k a s'
    | (Raise e, s') => (Raise e, s')
    end.

(** An expression that touches no state. *)
Definition eval {S A : Type} (r : result A) : M S A := fun s => (r, s).

Definition modify {S : Type} (f : S -> S) : M S unit :=
  fun s => (Return tt, f s).

Definition gets {S A : Type} (f : S -> A) : M S A :=
  fun s => (Return (f s), s).

(** Runs a computation on one component of a pair. *)
Definition on_fst {S T A : Type} (m : M S A) : M (S * T) A :=
  fun st => let '(r, s') := m (fst st) in (r, (s', snd st)).

Definition on_snd {S T A : Type} (m : M T A) : M (S * T) A :=
  fun st => let '(r, t') := m (snd st) in (r, (fst st, t')).

Declare Scope eff_scope.
Delimit Scope eff_scope with eff.
Notation "x <- m ;; k" := (bind m (fun x => k))
  (at level 61, m at next level, right associativity) : eff_scope.
Notation "m ;; k" := (bind m (fun _ => k))
  (at level 61, right associativity) : eff_scope.

End Eff.

(* ===================================================================== *)
(** * The device records *)
(* ===================================================================== *)

Import Py Eff.
Import Clock(datetime).

(** A [str] the client builds and never inspects: a literal, an f-string
    [prefix + str(v)] or a [json.dumps(v)].  It is kept as its
    ingredients. *)
Inductive text : Type :=
| Lit (s : string)
| Format (prefix : string) (v : value)
| Dumps (v : value).

(** [EldomDevice] and its subclass [Heater], as one record.  Every declared
    field defaults to [None].  The fields the client fills straight from a
    decoded payload hold whatever value the payload had.  [swVersion] is
    not declared by the dataclass: it is the instance attribute that
    discovery creates by assignment, absent ([None] here) until then. *)
Record Heater : Type := mkHeater {

  hw_version : option text;
  sw_version : value;
  id : value;
  last_updated : option datetime;
  name : value;
  real_device_id : value;
  available : option bool;
  raw_data : option text;
  state : value;
  power : value;
  current_temp : value;
  set_temp : option float;
  pcb_temp : option float;
  open_window : value;
  energy_day : option float;
  energy_night : option float;
  energy_total : option float;
  swVersion : option value

}.

(** [Heater()]. *)
Definition new_Heater : Heater :=
  mkHeater None PyNone PyNone None PyNone PyNone None None PyNone PyNone
    PyNone None None PyNone None None None None.

(** Attribute assignment, [heater.field = v]. *)

Definition with_hw_version (v : option text) (h : Heater) : Heater :=
  mkHeater v (sw_version h) (id h) (last_updated h) (name h)
    (real_device_id h) (available h) (raw_data h) (state h) (power h)
    (current_temp h) (set_temp h) (pcb_temp h) (open_window h) (energy_day h)
    (energy_night h) (energy_total h) (swVersion h).

Definition with_sw_version (v : value) (h : Heater) : Heater :=
  mkHeater (hw_version h) v (id h) (last_updated h) (name h)
    (real_device_id h) (available h) (raw_data h) (state h) (power h)
    (current_temp h) (set_temp h) (pcb_temp h) (open_window h) (energy_day h)
    (energy_night h) (energy_total h) (swVersion h).

Definition with_id (v : value) (h : Heater) : Heater :=
  mkHeater (hw_version h) (sw_version h) v (last_updated h) (name h)
    (real_device_id h) (available h) (raw_data h) (state h) (power h)
    (current_temp h) (set_temp h) (pcb_temp h) (open_window h) (energy_day h)
    (energy_night h) (energy_total h) (swVersion h).

Definition with_last_updated (v : option datetime) (h : Heater) : Heater :=
  mkHeater (hw_version h) (sw_version h) (id h) v (name h) (real_device_id h)
    (available h) (raw_data h) (state h) (power h) (current_temp h)
    (set_temp h) (pcb_temp h) (open_window h) (energy_day h) (energy_night h)
    (energy_total h) (swVersion h).

Definition with_name (v : value) (h : Heater) : Heater :=
  mkHeater (hw_version h) (sw_version h) (id h) (last_updated h) v
    (real_device_id h) (available h) (raw_data h) (state h) (power h)
    (current_temp h) (set_temp h) (pcb_temp h) (open_window h) (energy_day h)
    (energy_night h) (energy_total h) (swVersion h).

Definition with_real_device_id (v : value) (h : Heater) : Heater :=
  mkHeater (hw_version h) (sw_version h) (id h) (last_updated h) (name h) v
    (available h) (raw_data h) (state h) (power h) (current_temp h)
    (set_temp h) (pcb_temp h) (open_window h) (energy_day h) (energy_night h)
    (energy_total h) (swVersion h).

Definition with_available (v : option bool) (h : Heater) : Heater :=
  mkHeater (hw_version h) (sw_version h) (id h) (last_updated h) (name h)
    (real_device_id h) v (raw_data h) (state h) (power h) (current_temp h)
    (set_temp h) (pcb_temp h) (open_window h) (energy_day h) (energy_night h)
    (energy_total h) (swVersion h).

Definition with_raw_data (v : option text) (h : Heater) : Heater :=
  mkHeater (hw_version h) (sw_version h) (id h) (last_updated h) (name h)
    (real_device_id h) (available h) v (state h) (power h) (current_temp h)
    (set_temp h) (pcb_temp h) (open_window h) (energy_day h) (energy_night h)
    (energy_total h) (swVersion h).

Definition with_state (v : value) (h : Heater) : Heater :=
  mkHeater (hw_version h) (sw_version h) (id h) (last_updated h) (name h)
    (real_device_id h) (available h) (raw_data h) v (power h)
    (current_temp h) (set_temp h) (pcb_temp h) (open_window h) (energy_day h)
    (energy_night h) (energy_total h) (swVersion h).

Definition with_power (v : value) (h : Heater) : Heater :=
  mkHeater (hw_version h) (sw_version h) (id h) (last_updated h) (name h)
    (real_device_id h) (available h) (raw_data h) (state h) v
    (current_temp h) (set_temp h) (pcb_temp h) (open_window h) (energy_day h)
    (energy_night h) (energy_total h) (swVersion h).

Definition with_current_temp (v : value) (h : Heater) : Heater :=
  mkHeater (hw_version h) (sw_version h) (id h) (last_updated h) (name h)
    (real_device_id h) (available h) (raw_data h) (state h) (power h) v
    (set_temp h) (pcb_temp h) (open_window h) (energy_day h) (energy_night h)
    (energy_total h) (swVersion h).

Definition with_set_temp (v : option float) (h : Heater) : Heater :=
  mkHeater (hw_version h) (sw_version h) (id h) (last_updated h) (name h)
    (real_device_id h) (available h) (raw_data h) (state h) (power h)
    (current_temp h) v (pcb_temp h) (open_window h) (energy_day h)
    (energy_night h) (energy_total h) (swVersion h).

Definition with_pcb_temp (v : option float) (h : Heater) : Heater :=
  mkHeater (hw_version h) (sw_version h) (id h) (last_updated h) (name h)
    (real_device_id h) (available h) (raw_data h) (state h) (power h)
    (current_temp h) (set_temp h) v (open_window h) (energy_day h)
    (energy_night h) (energy_total h) (swVersion h).

Definition with_open_window (v : value) (h : Heater) : Heater :=
  mkHeater (hw_version h) (sw_version h) (id h) (last_updated h) (name h)
    (real_device_id h) (available h) (raw_data h) (state h) (power h)
    (current_temp h) (set_temp h) (pcb_temp h) v (energy_day h)
    (energy_night h) (energy_total h) (swVersion h).

Definition with_energy_day (v : option float) (h : Heater) : Heater :=
  mkHeater (hw_version h) (sw_version h) (id h) (last_updated h) (name h)
    (real_device_id h) (available h) (raw_data h) (state h) (power h)
    (current_temp h) (set_temp h) (pcb_temp h) (open_window h) v
    (energy_night h) (energy_total h) (swVersion h).

Definition with_energy_night (v : option float) (h : Heater) : Heater :=
  mkHeater (hw_version h) (sw_version h) (id h) (last_updated h) (name h)
    (real_device_id h) (available h) (raw_data h) (state h) (power h)
    (current_temp h) (set_temp h) (pcb_temp h) (open_window h) (energy_day h)
    v (energy_total h) (swVersion h).

Definition with_energy_total (v : option float) (h : Heater) : Heater :=
  mkHeater (hw_version h) (sw_version h) (id h) (last_updated h) (name h)
    (real_device_id h) (available h) (raw_data h) (state h) (power h)
    (current_temp h) (set_temp h) (pcb_temp h) (open_window h) (energy_day h)
    (energy_night h) v (swVersion h).

Definition with_swVersion (v : option value) (h : Heater) : Heater :=
  mkHeater (hw_version h) (sw_version h) (id h) (last_updated h) (name h)
    (real_device_id h) (available h) (raw_data h) (state h) (power h)
    (current_temp h) (set_temp h) (pcb_temp h) (open_window h) (energy_day h)
    (energy_night h) (energy_total h) v.

(* ===================================================================== *)
(** * The cloud service, as the client sees it *)
(* ===================================================================== *)

(** What the client sends.  The URL is [API_ENDPOINT_1 + command]; the
    body of a GET or POST is [json.dumps(payload)]; the headers are
    constants.  A login is the form-encoded POST to [/Account/Login]. *)
Inductive request : Type :=
| Login (email password : string)
| GET (command : text) (payload : value)
| POST (command : text) (payload : value).

(** What comes back from one attempt: [asyncio.TimeoutError] when the
    bounded wait expires, [aiohttp.ClientError] for a connection-level
    failure, or a response whose body has been read. *)
Inductive reply : Type :=
| Timeout
| ClientError
| Response (status : Z) (body : string).

(** The service answers a request knowing the requests sent before it. *)
Definition network : Type := list request -> request -> reply.

Definition ELDOM_DEVICE_TYPE_HEATER : Z := 4.

(** The [MyEldom] object: credentials, the registry [heaters] (a [dict]
    in insertion order, each key bound to its own [Heater] object) and the
    time of the last login attempt.  Time is counted in requests sent.
    The HTTP session is taken to be open, as it is between [connect] and
    [disconnect], and [debug] to be off, as the integration sets it: the
    log lines have no counterpart here. *)
Record MyEldom : Type := mkMyEldom {
  _email : string;
  _password : string;
  heaters : list (value * Heater);
  last_login_attempt : nat
}.

Definition with_heaters (v : list (value * Heater)) (self : MyEldom) : MyEldom :=
  mkMyEldom (_email self) (_password self) v (last_login_attempt self).

Definition with_last_login_attempt (v : nat) (self : MyEldom) : MyEldom :=
  mkMyEldom (_email self) (_password self) (heaters self) v.

(** [MyEldom(email, password)]. *)
Definition new_MyEldom (email password : string) (now : nat) : MyEldom :=
  mkMyEldom email password [] now.

(** ** The registry as a [dict] *)

Fixpoint registry_get (k : value) (d : list (value * Heater)) : option Heater :=
  match d with
  | [] => None
  | (k', h) :: r => if scalar_eqb k' k then Some h else registry_get k r
  end.

(** [d[k] = h]: a key already present keeps its place and its own key
    object. *)
Fixpoint registry_set (k : value) (h : Heater) (d : list (value * Heater))
  : list (value * Heater) :=
  match d with
  | [] => [(k, h)]
  | (k', h') :: r =>
      if scalar_eqb k' k then (k', h) :: r else (k', h') :: registry_set k h r
  end.

(** [for x in l: body(x)]. *)
Fixpoint for_each {S A : Type} (body : A -> M S unit) (l : list A) : M S unit :=
  match l with
  | [] => ret tt
  | x :: r => bind (body x) (fun _ => for_each body r)
  end.

Section Client.

(** The service the client talks to. *)
Variable net : network.

Local Open Scope eff_scope.

(** The data of a response body: nothing for an empty body or one that is
    not JSON. *)
Definition body_data (result : string) : value :=
  if (result =? "")%string then PyNone
  else match Json.loads result with
       | Some data => data
       | None => PyNone
       end.

(** *** [_do_login] and [connect] *)

Definition login_request (self : MyEldom) : request :=
  Login (_email self) (_password self).

Equations? _do_login (retry : Z) (st : MyEldom * list request)
  : result bool * (MyEldom * list request) by wf (Z.to_nat retry) lt :=
  _do_login retry (self, wire)
    with net wire (login_request self) := {
    | Timeout with Z_lt_dec retry 1 := {
        | left _ => (Return false,
                     (with_last_login_attempt (List.length wire) self,
                      wire ++ [login_request self]));
        | right _ => _do_login (retry - 1)
                     (with_last_login_attempt (List.length wire) self,
                      wire ++ [login_request self]) };
    | ClientError with Z_lt_dec retry 1 := {
        | left _ => (Return false,
                     (with_last_login_attempt (List.length wire) self,
                      wire ++ [login_request self]));
        | right _ => _do_login (retry - 1)
                     (with_last_login_attempt (List.length wire) self,
                      wire ++ [login_request self]) };
    | Response status _ =>
        (Return (status =? 302),
         (with_last_login_attempt (List.length wire) self,
          wire ++ [login_request self])) }.
Proof. all: lia. Qed.

Definition connect (retry : Z) : M (MyEldom * list request) bool :=
  ok <- _do_login retry ;;
  if ok : bool then ret true else ret false.

(** *** [_get_request] and [_post_request] *)

Equations? _get_request (command : text) (payload : value) (retry : Z)
  (wire : list request) : result value * list request
  by wf (Z.to_nat retry) lt :=
  _get_request command payload retry wire
    with net wire (GET command payload) := {
    | Timeout with Z_lt_dec retry 1 := {
        | left _ => (Return PyNone, wire ++ [GET command payload]);
        | right _ => _get_request command payload (retry - 1)
                       (wire ++ [GET command payload]) };
    | ClientError => (Return PyNone, wire ++ [GET command payload]);
    | Response _ result =>
        (Return (body_data result), wire ++ [GET command payload]) }.
Proof. lia. Qed.

Definition _post_request (command : text) (payload : value) (retry : Z)
  : M (list request) value := fun wire =>
  match net wire (POST command payload) with
  | Timeout =>
      if retry <? 1 then (Return PyNone, wire ++ [POST command payload])
      else _get_request command payload (retry - 1)
             (wire ++ [POST command payload])
  | ClientError => (Return PyNone, wire ++ [POST command payload])
  | Response _ result =>
      (Return (body_data result), wire ++ [POST command payload])
  end.

Definition get_user_info : M (list request) value :=
  _get_request (Lit "/api/user/get") (PyDict []) 3.

Definition get_device_groups : M (list request) value :=
  _get_request (Lit "/api/device/getmygroups") (PyDict []) 3.

Definition get_device_list : M (list request) value :=
  _get_request (Lit "/api/device/getmy") (PyDict []) 3.

(** *** [fetch_heater_data]

    The state is the [heater] object passed in and the requests sent. *)

Definition assign (f : Heater -> Heater) : M (Heater * list request) unit :=
  on_fst (modify f).

Definition is_None (v : value) : bool :=
  match v with PyNone => true | _ => false end.

Definition fetch_heater_data : M (Heater * list request) bool :=
  heater_id <- gets (fun st => id (fst st)) ;;
  heater_data <- on_snd (_get_request (Format "/api/panelconvector/" heater_id)
                           (PyDict []) 3) ;;
  if negb (is_None heater_data) then
    objectJson <- eval (getitem heater_data "objectJson") ;;
    heater_status_json <- eval (Json.loads_value objectJson) ;;
    assign (with_raw_data (Some (Dumps heater_status_json))) ;;
    State <- eval (get heater_status_json "State") ;;
    assign (with_state State) ;;
    Power <- eval (get heater_status_json "Power") ;;
    assign (with_power Power) ;;
    AmbientTemp <- eval (get heater_status_json "AmbientTemp") ;;
    assign (with_current_temp AmbientTemp) ;;
    objectJson' <- eval (getitem heater_data "objectJson") ;;
    timer <- eval (contains "TimerSTempA" objectJson') ;;
    (if timer : bool then
       TimerSTempA <- eval (get heater_status_json "TimerSTempA") ;;
       t <- eval (to_float TimerSTempA) ;;
       assign (with_set_temp (Some t))
     else
       SetTemp <- eval (get heater_status_json "SetTemp") ;;
       t <- eval (to_float SetTemp) ;;
       assign (with_set_temp (Some t))) ;;
    PCBTemp <- eval (get heater_status_json "PCBTemp") ;;
    pcb <- eval (to_float PCBTemp) ;;
    assign (with_pcb_temp (Some pcb)) ;;
    OpenWindow <- eval (get heater_status_json "OpenWindow") ;;
    assign (with_open_window OpenWindow) ;;
    EnergyD <- eval (get heater_status_json "EnergyD") ;;
    d <- eval (to_float EnergyD) ;;
    assign (with_energy_day (Some d)) ;;
    EnergyN <- eval (get heater_status_json "EnergyN") ;;
    n <- eval (to_float EnergyN) ;;
    assign (with_energy_night (Some n)) ;;
    assign (with_energy_total (Some (fadd d n))) ;;
    LastRefreshDate <- eval (get heater_status_json "LastRefreshDate") ;;
    (if truthy LastRefreshDate then
       LastRefreshDate' <- eval (get heater_status_json "LastRefreshDate") ;;
       prefix19 <- eval (slice19 LastRefreshDate') ;;
       stamp <- eval (Clock.strptime prefix19) ;;
       assign (with_last_updated (Some stamp)) ;;
       assign (with_available (Some true))
     else
       assign (with_available (Some false))) ;;
    ret true
  else
    assign (with_available (Some false)) ;;
    ret false.

(** *** [set_temperature] and [set_state] *)

Definition is_True (v : value) : bool :=
  match v with PyBool true => true | _ => false end.

(** [resp and "status" in resp and resp["status"] is True]. *)
Definition acknowledged (resp : value) : result bool :=
  if truthy resp then
    match contains "status" resp with
    | Return true =>
        match getitem resp "status" with
        | Return v => Return (is_True v)
        | Raise e => Raise e
        end
    | Return false => Return false
    | Raise e => Raise e
    end
  else Return false.

Definition set_temperature (temperature : float)
  : M (Heater * list request) bool :=
  device_id <- gets (fun st => real_device_id (fst st)) ;;
  resp <- on_snd (_post_request (Lit "/api/panelconvector/setTemperature")
                    (PyDict [("deviceId", device_id);
                             ("temperature", PyFloat temperature)]) 3) ;;
  ok <- eval (acknowledged resp) ;;
  if ok : bool then
    assign (with_set_temp (Some temperature)) ;;
    ret true
  else ret false.

Definition set_state (state : Z) : M (Heater * list request) bool :=
  device_id <- gets (fun st => real_device_id (fst st)) ;;
  resp <- on_snd (_post_request (Lit "/api/panelconvector/setState")
                    (PyDict [("deviceId", device_id);
                             ("state", PyInt state)]) 3) ;;
  ok <- eval (acknowledged resp) ;;
  if ok : bool then ret true else ret false.

(** *** [fetch_all_heaters] *)

(** The assignments discovery makes to the record of one listed device. *)
Definition describe (device : value) : M Heater unit :=
  hwVersion <- eval (get device "hwVersion") ;;
  modify (with_hw_version (Some (Format "" hwVersion))) ;;
  device_id <- eval (get device "id") ;;
  modify (with_id device_id) ;;
  lastDataRefreshDate <- eval (get device "lastDataRefreshDate") ;;
  (if truthy lastDataRefreshDate then
     lastDataRefreshDate' <- eval (get device "lastDataRefreshDate") ;;
     prefix19 <- eval (slice19 lastDataRefreshDate') ;;
     stamp <- eval (Clock.strptime prefix19) ;;
     modify (with_last_updated (Some stamp)) ;;
     modify (with_available (Some true))
   else
     modify (with_available (Some false))) ;;
  device_name <- eval (get device "name") ;;
  modify (with_name device_name) ;;
  realDeviceId <- eval (get device "realDeviceId") ;;
  modify (with_real_device_id realDeviceId) ;;
  swVersion' <- eval (get device "swVersion") ;;
  modify (with_swVersion (Some swVersion')).

(** The body of the discovery loop.  [self.heaters.get(_id, Heater())]
    hands out the object already in the registry, which is then changed
    in place, or a new one, which reaches the registry only with the
    final [self.heaters[_id] = heater]. *)
Definition discover (device : value) : M (list (value * Heater)) unit :=
  deviceType <- eval (get device "deviceType") ;;
  if scalar_eqb deviceType (PyInt ELDOM_DEVICE_TYPE_HEATER) then
    _id <- eval (get device "realDeviceId") ;;
    if hashable _id then
      fun registry =>
        match registry_get _id registry with
        | Some heater =>
            let '(r, heater') := describe device heater in
            (r, registry_set _id heater' registry)
        | None =>
            match describe device new_Heater with
            | (Return _, heater') => (Return tt, registry_set _id heater' registry)
            | (Raise e, _) => (Raise e, registry)
            end
        end
    else raise TypeError
  else ret tt.

(** [asyncio.gather] over one [fetch_heater_data] per registered heater.
    Each task works on its own record and meets the others only in the
    order in which the service sees the requests.  The event loop may
    serve the tasks in any order; here they are run one after the other
    in registry order, each to completion, which is one of those orders.
    The loop hands to the caller the exception of the task that fails
    first in time and leaves the other tasks running; here that is the
    first in registry order, with the others run to their end.  What is
    proved of a call that raises in [gather] is therefore kept to what
    holds in every order: the keys, the fields no refresh assigns, the
    requests a refresh may send, and where the exception comes from. *)
Fixpoint gather (tasks : list (value * Heater)) (wire : list request)
  : option exn * list (value * Heater) * list request :=
  match tasks with
  | [] => (None, [], wire)
  | (k, heater) :: rest =>
      let '(r, (heater', wire')) := fetch_heater_data (heater, wire) in
      let '(e, rest', wire'') := gather rest wire' in
      (match r with Raise x => Some x | Return _ => e end,
       (k, heater') :: rest', wire'')
  end.

Definition refresh_registry : M (MyEldom * list request) unit :=
  fun st =>
    let '(e, heaters', wire') := gather (heaters (fst st)) (snd st) in
    (match e with Some x => Raise x | None => Return tt end,
     (with_heaters heaters' (fst st), wire')).

Definition is_empty {A : Type} (l : list A) : bool :=
  match l with [] => true | _ => false end.

Definition fetch_all_heaters
  : M (MyEldom * list request) (list (value * Heater)) :=
  registry <- gets (fun st => heaters (fst st)) ;;
  (if is_empty registry then
     on_fst (modify (with_heaters [])) ;;
     device_list <- on_snd get_device_list ;;
     if negb (is_None device_list) then
       devices <- eval (iter device_list) ;;
       on_fst (fun self =>
                 let '(r, registry') := for_each discover devices (heaters self) in
                 (r, with_heaters registry' self))
     else ret tt
   else ret tt) ;;
  refresh_registry ;;
  gets (fun st => heaters (fst st)).

End Client.

(* ===================================================================== *)
(** * Vocabulary of the properties *)
(* ===================================================================== *)

(** The request [fetch_heater_data] sends for a heater, and the data it
    gets back on a given line. *)
Definition status_command (heater : Heater) : text :=
  Format "/api/panelconvector/" (id heater).

Definition status_data (net : network) (heater : Heater) (wire : list request)
  : result value * list request :=
  _get_request net (status_command heater) (PyDict []) 3 wire.

(** The status object inside the envelope: [json.loads(data["objectJson"])]. *)
Definition status_payload (heater_data : value) : result value :=
  match getitem heater_data "objectJson" with
  | Return objectJson => Json.loads_value objectJson
  | Raise e => Raise e
  end.

(** [float(status.get(k))]. *)
Definition field_float (status : value) (k : string) : result float :=
  match get status k with
  | Return v => to_float v
  | Raise e => Raise e
  end.

(** [status.get(k)] where it cannot raise. *)
Definition field (status : value) (k : string) : value :=
  match get status k with
  | Return v => v
  | Raise _ => PyNone
  end.

(** The field the target temperature is read from. *)
Definition target_field (heater_data : value) : result string :=
  match getitem heater_data "objectJson" with
  | Return objectJson =>
      match contains "TimerSTempA" objectJson with
      | Return true => Return "TimerSTempA"
      | Return false => Return "SetTemp"
      | Raise e => Raise e
      end
  | Raise e => Raise e
  end.

(** The last-refresh timestamp of a status object: [None] when the field
    is absent, [null] or empty, the parsed first 19 characters otherwise. *)
Definition timestamp (status : value) : result (option datetime) :=
  match get status "LastRefreshDate" with
  | Return v =>
      if truthy v then
        match slice19 v with
        | Return prefix19 =>
            match Clock.strptime prefix19 with
            | Return t => Return (Some t)
            | Raise e => Raise e
            end
        | Raise e => Raise e
        end
      else Return None
  | Raise e => Raise e
  end.

(** What a refresh reads from a status envelope, conversion by conversion
    in the order [fetch_heater_data] makes them: the status object, the
    target, board and energy readings and the timestamp. *)
Record reading : Type := mkReading {
  r_status : value;
  r_target : float;
  r_pcb : float;
  r_day : float;
  r_night : float;
  r_stamp : option datetime
}.

Definition and_then {A B : Type} (r : result A) (k : A -> result B) : result B :=
  match r with
  | Return a => k a
  | Raise e => Raise e
  end.

Definition decode (heater_data : value) : result reading :=
  and_then (status_payload heater_data) (fun status =>
  and_then (get status "State") (fun _ =>
  and_then (target_field heater_data) (fun k =>
  and_then (field_float status k) (fun t =>
  and_then (field_float status "PCBTemp") (fun pcb =>
  and_then (field_float status "EnergyD") (fun d =>
  and_then (field_float status "EnergyN") (fun n =>
  and_then (timestamp status) (fun stamp =>
  Return (mkReading status t pcb d n stamp))))))))).

(** The record a completed refresh leaves. *)
Definition refreshed (rd : reading) (h : Heater) : Heater :=
  mkHeater (hw_version h) (sw_version h) (id h)
    (match r_stamp rd with Some t => Some t | None => last_updated h end)
    (name h) (real_device_id h)
    (Some (match r_stamp rd with Some _ => true | None => false end))
    (Some (Dumps (r_status rd)))
    (field (r_status rd) "State") (field (r_status rd) "Power")
    (field (r_status rd) "AmbientTemp")
    (Some (r_target rd)) (Some (r_pcb rd))
    (field (r_status rd) "OpenWindow")
    (Some (r_day rd)) (Some (r_night rd))
    (Some (fadd (r_day rd) (r_night rd)))
    (swVersion h).

(** ** Requests and responses of the other methods *)

Definition status_request (heater : Heater) : request :=
  GET (status_command heater) (PyDict []).

Definition discovery_request : request :=
  GET (Lit "/api/device/getmy") (PyDict []).

Definition temperature_payload (heater : Heater) (temperature : float) : value :=
  PyDict [("deviceId", real_device_id heater);
          ("temperature", PyFloat temperature)].

Definition state_payload (heater : Heater) (state : Z) : value :=
  PyDict [("deviceId", real_device_id heater); ("state", PyInt state)].

(** What [set_temperature] and [set_state] get back for their command. *)
Definition temperature_response (net : network) (heater : Heater)
  (temperature : float) (wire : list request) : result value * list request :=
  _post_request net (Lit "/api/panelconvector/setTemperature")
    (temperature_payload heater temperature) 3 wire.

Definition state_response (net : network) (heater : Heater)
  (state : Z) (wire : list request) : result value * list request :=
  _post_request net (Lit "/api/panelconvector/setState")
    (state_payload heater state) 3 wire.

(** A response that is a JSON object whose ["status"] is [true]. *)
Definition acknowledges (resp : result value) : Prop :=
  exists d, resp = Return (PyDict d) /\ lookup "status" d = Some (PyBool true).

(** A response on which the acknowledgement test itself fails: a value
    that is true in a condition and is no object, on which either
    ["status" in resp] cannot be evaluated (a number other than zero,
    [true]) or it holds and [resp["status"]] cannot (a string that
    contains [status], a list that contains ["status"]). *)
Definition unsubscriptable (resp : value) : bool :=
  match resp with
  | PyNone | PyDict _ => false
  | PyBool b => b
  | PyInt z => negb (z =? 0)
  | PyFloat f => negb (is_zero f)
  | PyStr s => substring_of "status" s
  | PyList l =>
      existsb (fun x => match x with
                        | PyStr s => (s =? "status")%string
                        | _ => false
                        end) l
  end.

(** A record whose declared [sw_version] was never assigned, the version
    reported by the service sitting in the undeclared [swVersion]. *)
Definition version_misplaced (heater : Heater) : Prop :=
  sw_version heater = PyNone /\ swVersion heater <> None.

(** The fields that say which device a record stands for. *)
Definition same_device (h h' : Heater) : Prop :=
  hw_version h' = hw_version h /\ sw_version h' = sw_version h /\
  id h' = id h /\ name h' = name h /\
  real_device_id h' = real_device_id h /\ swVersion h' = swVersion h.

(** ** Three sentences of the specification, as worded *)



(** "Whatever the status request brings, a boolean comes back." *)
Definition always_returns_a_boolean : Prop :=
  forall (net : network) (h : Heater) (wire : list request),
    exists b : bool, fst (fetch_heater_data net (h, wire)) = Return b.

(** "For every outcome other than an acknowledgement the call returns
    failure." *)
Definition failure_otherwise : Prop :=
  forall (net : network) (t : float) (h : Heater) (wire : list request),
    ~ acknowledges (fst (temperature_response net h t wire)) ->
    fst (set_temperature net t (h, wire)) = Return false.

(** ** The host's calls *)

(** The host keeps the heater objects the registry handed out and passes
    them back to the per-heater methods; [n] is the position in the
    registry of the object passed. *)
Inductive call : Type :=
| Connect (retry : Z)
| UserInfo
| DeviceGroups
| DeviceList
| FetchAll
| Refresh (n : nat)
| SetTemperature (n : nat) (temperature : float)
| SetState (n : nat) (state : Z).

Fixpoint set_nth {A : Type} (n : nat) (x : A) (l : list A) : list A :=
  match n, l with
  | O, _ :: r => x :: r
  | S k, y :: r => y :: set_nth k x r
  | _, [] => []
  end.

Definition on_heater {A : Type} (n : nat) (method : M (Heater * list request) A)
  (st : MyEldom * list request) : MyEldom * list request :=
  match nth_error (heaters (fst st)) n with
  | Some (k, heater) =>
      let '(_, (heater', wire')) := method (heater, snd st) in
      (with_heaters (set_nth n (k, heater') (heaters (fst st))) (fst st), wire')
  | None => st
  end.

(** The state a call leaves, whatever it returned or raised. *)
Definition perform (net : network) (st : MyEldom * list request) (c : call)
  : MyEldom * list request :=
  match c with
  | Connect retry => snd (connect net retry st)
  | UserInfo => snd (on_snd (get_user_info net) st)
  | DeviceGroups => snd (on_snd (get_device_groups net) st)
  | DeviceList => snd (on_snd (get_device_list net) st)
  | FetchAll => snd (fetch_all_heaters net st)
  | Refresh n => on_heater n (fetch_heater_data net) st
  | SetTemperature n t => on_heater n (set_temperature net t) st
  | SetState n s => on_heater n (set_state net s) st
  end.

(** ** Login attempts *)

(** The reply the [k]-th further login attempt gets. *)
Definition login_reply (net : network) (self : MyEldom) (wire : list request)
  (k : nat) : reply :=
  net (wire ++ repeat (login_request self) k) (login_request self).

Definition transport_failure (r : reply) : bool :=
  match r with
  | Timeout | ClientError => true
  | Response _ _ => false
  end.

(* ===================================================================== *)
(** * Scenarios *)
(* ===================================================================== *)

(** A service that answers the [n]-th request it receives with the [n]-th
    reply of a script, and refuses connections once the script is over. *)
Definition scripted (replies : list reply) : network :=
  fun wire _ => nth (List.length wire) replies ClientError.

(** A service that answers each request on its own. *)
Definition stateless (answer : request -> reply) : network :=
  fun _ rq => answer rq.

Definition object_text (members : list (string * string)) : string :=
  ("{" ++ String.concat ","
            (map (fun kv => Json.quote (fst kv) ++ ":" ++ snd kv) members)
       ++ "}")%string.

Definition envelope (status_text : string) : string :=
  object_text [("objectJson", Json.quote status_text)].

Definition readings : list (string * string) :=
  [("State", "1"); ("Power", "1500"); ("AmbientTemp", "20.5");
   ("SetTemp", "21.5"); ("PCBTemp", "30"); ("OpenWindow", "0");
   ("EnergyD", "1.5"); ("EnergyN", "2.25")].

(** A complete status, one with a timestamp that is no date, one without
    timestamp, one whose night counter is missing. *)
Definition status_ok : string :=
  object_text (readings ++ [("LastRefreshDate", Json.quote "2021-11-03T20:09:15.1234567Z")]).

Definition status_bad_date : string :=
  object_text (readings ++ [("LastRefreshDate", Json.quote "yesterday")]).

Definition status_no_date : string := object_text readings.

Definition status_no_night : string :=
  object_text [("SetTemp", "21.5"); ("PCBTemp", "30"); ("EnergyD", "1.5")].

Definition status_text_energy : string :=
  object_text [("SetTemp", "21.5"); ("PCBTemp", "30");
               ("EnergyD", Json.quote "a lot"); ("EnergyN", "2.25")].

(** A heater as an earlier refresh left it. *)
Definition known_heater (device_id : Z) (real_id : string) : Heater :=
  with_energy_total (Some (float_of_Z 7))
    (with_energy_night (Some (float_of_Z 3))
       (with_energy_day (Some (float_of_Z 4))
          (with_set_temp (Some (float_of_Z 19))
             (with_available (Some true)
                (with_real_device_id (PyStr real_id)
                   (with_id (PyInt device_id) new_Heater)))))).

Definition living_room : Heater := known_heater 611 "A9D6C1CEF85A".

Definition login_as : MyEldom := new_MyEldom "user@example.org" "secret" 0.

(** The device list of an account with one heater and one other device. *)
Definition device_list_text : string :=
  ("[" ++ object_text
            [("deviceType", "4"); ("realDeviceId", Json.quote "A9D6C1CEF85A");
             ("id", "611"); ("name", Json.quote "Living room");
             ("hwVersion", "14"); ("swVersion", "25");
             ("lastDataRefreshDate", Json.quote "2021-11-03T20:09:15.1234567Z")]
       ++ "," ++
       object_text
            [("deviceType", "1"); ("realDeviceId", Json.quote "B000000000B5");
             ("id", "77"); ("name", Json.quote "Boiler")]
       ++ "]")%string.

Definition status_true : string := object_text [("status", "true")].
Definition status_false : string := object_text [("status", "false")].

(** A service in good order: logins are redirected, the device list and
    every status are served, commands are acknowledged. *)
Definition healthy : network :=
  stateless (fun rq =>
               match rq with
               | Login _ _ => Response 302 ""
               | GET (Lit _) _ => Response 200 device_list_text
               | GET _ _ => Response 200 (envelope status_ok)
               | POST _ _ => Response 200 status_true
               end).

(** The same service, unable to reach the device with internal id 2. *)
Definition second_unreachable : network :=
  stateless (fun rq =>
               match rq with
               | GET (Format _ (PyInt 2)) _ => ClientError
               | other => healthy [] other
               end).

(** A client that knows three heaters, with internal ids 1, 2 and 3. *)
Definition three_heaters : MyEldom :=
  with_heaters [(PyStr "D1", known_heater 1 "D1");
                (PyStr "D2", known_heater 2 "D2");
                (PyStr "D3", known_heater 3 "D3")] login_as.

(** The service answers once, with the given body. *)
Definition answers (body : string) : network := scripted [Response 200 body].

Definition half_degree_up : float := float_of_decimal false 215 (-1).

(* ===================================================================== *)
(** * The climate entity ([climate.py]) *)
(* ===================================================================== *)

(** The two modes the entity knows, as the host names them. *)
Definition HVAC_MODE_HEAT : string := "heat".
Definition HVAC_MODE_OFF : string := "off".

(** [EldomHeater.hvac_mode]: read from the heater object the entity holds. *)
Definition hvac_mode (heater : Heater) : string :=
  if scalar_eqb (state heater) (PyInt 1) then HVAC_MODE_HEAT else HVAC_MODE_OFF.

(** [EldomHeater.target_temperature] and [current_temperature]. *)
Definition target_temperature (heater : Heater) : option float := set_temp heater.
Definition current_temperature (heater : Heater) : value := current_temp heater.

Section Entity.

Variable net : network.

Local Open Scope eff_scope.

(** [EldomHeater.async_set_hvac_mode]: the result of [set_state] is
    dropped. *)
Definition async_set_hvac_mode (mode : string) : M (Heater * list request) unit :=
  if (mode =? HVAC_MODE_HEAT)%string then
    set_state net 1 ;; ret tt
  else
    set_state net 0 ;; ret tt.

(** [EldomHeater.async_set_temperature]: [kwargs.get(ATTR_TEMPERATURE)] may
    be [None]. *)
Definition async_set_temperature (temperature : option float)
  : M (Heater * list request) unit :=
  match temperature with
  | None => ret tt
  | Some t => set_temperature net t ;; ret tt
  end.

End Entity.

(* ===================================================================== *)
(** * The configuration flow ([config_flow.py]) *)
(* ===================================================================== *)

(** [s.replace(" ", "")]. *)
Fixpoint remove_spaces (s : string) : string :=
  match s with
  | EmptyString => EmptyString
  | String c r => if (code c =? 32) then remove_spaces r else String c (remove_spaces r)
  end.

(** How [async_step_user] ends: the form is shown again with an error
    map, an entry is created, the flow is aborted because the account is
    configured already, the logout request fails and its exception
    leaves the step, or another exception does. *)
Inductive flow_result : Type :=
| ShowForm (errors : list (string * string))
| CreateEntry (title : string) (username password : string)
| AbortFlow (reason : string)
| LogoutError
| Raised (e : exn).

(** [_async_show_setup_form(errors)]: [errors or {}]. *)
Definition _async_show_setup_form (errors : option (list (string * string)))
  : flow_result :=
  match errors with
  | Some (e :: r) => ShowForm (e :: r)
  | _ => ShowForm []
  end.

Section Flow.

Variable net : network.

(** What the service answers to the logout request, which goes out
    outside [_get_request], unguarded. *)
Variable logout : reply.

(** The host's register of configured accounts, asked through
    [_abort_if_unique_id_configured]. *)
Variable configured : string -> bool.

(** [disconnect]: [True] when the logout exchange completes. *)
Definition disconnect : bool :=
  match logout with
  | Response _ _ => true
  | Timeout | ClientError => false
  end.

(** [async_step_user]: the step's result and the login requests sent.
    The logout request is outside the client's request methods and is
    stood for by its reply alone. *)
Definition async_step_user (user_input : option (string * string))
  (wire : list request) : flow_result * list request :=
  match user_input with
  | None => (_async_show_setup_form None, wire)
  | Some (typed_username, typed_password) =>
      let username := remove_spaces typed_username in
      let password := remove_spaces typed_password in
      let eldom_data_connection := new_MyEldom username password (List.length wire) in
      let '(connected, (_, wire')) := connect net 2 (eldom_data_connection, wire) in
      match connected with
      | Return true =>
          if disconnect then
            let unique_id := username in
            if configured unique_id then (AbortFlow "already_configured", wire')
            else (CreateEntry unique_id username password, wire')
          else (LogoutError, wire')
      | Return false =>
          let errors := [("cannot_connect", "cannot_connect")] in
          (_async_show_setup_form None, wire')
      | Raise e => (Raised e, wire')
      end
  end.

End Flow.

(* ===================================================================== *)
(** * Further vocabulary *)
(* ===================================================================== *)

(** The reply the [k]-th further attempt of a GET gets. *)
Definition get_reply (net : network) (c : text) (p : value)
  (wire : list request) (k : nat) : reply :=
  net (wire ++ repeat (GET c p) k) (GET c p).

(** What [_get_request] and [_post_request] make of a reply that ends
    them. *)
Definition reply_data (r : reply) : value :=
  match r with
  | Response _ body => body_data body
  | Timeout | ClientError => PyNone
  end.

(** A listed device that discovery takes for a heater. *)
Definition is_heater (device : value) : bool :=
  match get device "deviceType" with
  | Return ty => scalar_eqb ty (PyInt ELDOM_DEVICE_TYPE_HEATER)
  | Raise _ => false
  end.

(** The keys of a registry. *)
Definition keys (registry : list (value * Heater)) : list value :=
  map fst registry.

(** The availability of a record is a boolean, and an available record
    has a time of last update. *)
Definition settled (h : Heater) : Prop :=
  exists b, available h = Some b /\ (b = true -> last_updated h <> None).

(** A registry entry whose key is the [real_device_id] of its record: the
    same object, or one equal to it. *)
Definition agrees (kh : value * Heater) : Prop :=
  fst kh = real_device_id (snd kh) \/
  scalar_eqb (fst kh) (real_device_id (snd kh)) = true.

(** No key of a registry equals a later one. *)
Definition distinct_keys (registry : list (value * Heater)) : Prop :=
  ForallOrdPairs (fun a b => scalar_eqb a b = false) (keys registry).

Definition well_keyed (registry : list (value * Heater)) : Prop :=
  Forall agrees registry /\ distinct_keys registry.

(** Two registries with the same keys in the same order, whose records
    stand for the same devices. *)
Definition same_records (r r' : list (value * Heater)) : Prop :=
  Forall2 (fun a b => fst b = fst a /\ same_device (snd a) (snd b)) r r'.

(** Whether a character occurs in a string. *)
Fixpoint occurs (c : ascii) (s : string) : bool :=
  match s with
  | EmptyString => false
  | String c' r => (code c' =? code c) || occurs c r
  end.

(** The two ways a login within a budget of [budget] retries ends: an
    attempt gets a 302 response, every earlier one having failed at
    transport level; or none does. *)
Definition login_accepted (net : network) (self : MyEldom)
  (wire : list request) (budget : nat) : Prop :=
  exists k body,
    (k <= budget)%nat /\
    (forall j, (j < k)%nat ->
               transport_failure (login_reply net self wire j) = true) /\
    login_reply net self wire k = Response 302 body.

Definition login_refused (net : network) (self : MyEldom)
  (wire : list request) (budget : nat) : Prop :=
  (forall j, (j <= budget)%nat ->
             transport_failure (login_reply net self wire j) = true) \/
  exists k code body,
    (k <= budget)%nat /\
    (forall j, (j < k)%nat ->
               transport_failure (login_reply net self wire j) = true) /\
    login_reply net self wire k = Response code body /\
    code <> 302.

(** A service seen without its status codes: every response to a request
    other than the login comes as a 200. *)
Definition forget_status (r : reply) : reply :=
  match r with
  | Response _ body => Response 200 body
  | other => other
  end.

Definition blind (net : network) : network :=
  fun wire rq =>
    match rq with
    | Login _ _ => net wire rq
    | _ => forget_status (net wire rq)
    end.

(** ** Further scenarios *)

(** The status of a heater run by a timer. *)
Definition status_timer : string :=
  object_text (("TimerSTempA", "18") :: readings).

(** An account whose only device is a boiler. *)
Definition only_a_boiler : network :=
  answers ("[" ++ object_text
                    [("deviceType", "1"); ("realDeviceId", Json.quote "B000000000B5");
                     ("id", "77"); ("name", Json.quote "Boiler")]
               ++ "]")%string.

(** The healthy service, except that the status of the device with
    internal id 2 comes without [objectJson]. *)
Definition second_malformed : network :=
  stateless (fun rq =>
               match rq with
               | GET (Format _ (PyInt 2)) _ => Response 200 "{}"
               | other => healthy [] other
               end).

(** A device list of three heaters, the second with a refresh date that
    is no date. *)
Definition listed_heater (real_id : string) (device_id : string)
  (refreshed_on : string) : string :=
  object_text
    [("deviceType", "4"); ("realDeviceId", Json.quote real_id);
     ("id", device_id); ("name", Json.quote "Heater");
     ("hwVersion", "14"); ("swVersion", "25");
     ("lastDataRefreshDate", Json.quote refreshed_on)].

Definition second_undated : network :=
  stateless (fun rq =>
               match rq with
               | GET (Lit _) _ =>
                   Response 200
                     ("[" ++ listed_heater "D1" "1" "2021-11-03T20:09:15.1234567Z"
                      ++ "," ++ listed_heater "D2" "2" "yesterday"
                      ++ "," ++ listed_heater "D3" "3" "2021-11-03T20:09:15.1234567Z"
                      ++ "]")%string
               | other => healthy [] other
               end).

(** The devices a service lists to a client that has sent nothing yet. *)
Definition listed (net : network) : list value :=
  match fst (get_device_list net []) with
  | Return data => match iter data with Return l => l | Raise _ => [] end
  | Raise _ => []
  end.

(** A client of the healthy service after its first refresh. *)
Definition after_first_refresh : MyEldom * list request :=
  fold_left (perform healthy) [Connect 2; FetchAll] (login_as, []).

(** The record at a place of a registry. *)
Definition record_at (n : nat) (st : MyEldom * list request) : Heater :=
  match nth_error (heaters (fst st)) n with
  | Some (_, h) => h
  | None => new_Heater
  end.

(* ===================================================================== *)
(** * Properties of the transport *)
(* ===================================================================== *)

Section Transport.

Variable net : network.

(** A GET sends the same request once per attempt and never raises. *)
Lemma _get_request_sends (c : text) (p : value) (retry : Z) (wire : list request) :
  exists v n,
    _get_request net c p retry wire
    = (Return v, wire ++ repeat (GET c p) (S n)).
Proof.
  funelim (_get_request net c p retry wire).
  - exists PyNone, O. reflexivity.
  - exists (body_data result0), O. reflexivity.
  - exists PyNone, O. reflexivity.
  - destruct H as (v & k & E). exists v, (S k).
    rewrite E, <- app_assoc. reflexivity.
Qed.

Lemma _get_request_returns (c : text) (p : value) (retry : Z) (wire : list request) :
  exists v, fst (_get_request net c p retry wire) = Return v.
Proof.
  destruct (_get_request_sends c p retry wire) as (v & n & E).
  exists v. rewrite E. reflexivity.
Qed.

(** The first attempt of a GET decides its result unless it times out. *)
Lemma _get_request_ClientError (c : text) (p : value) (retry : Z) (wire : list request) :
  net wire (GET c p) = ClientError ->
  _get_request net c p retry wire = (Return PyNone, wire ++ [GET c p]).
Proof. intros E. simp _get_request. rewrite E. reflexivity. Qed.

Lemma _get_request_Response (c : text) (p : value) (retry : Z) (wire : list request)
      (status : Z) (body : string) :
  net wire (GET c p) = Response status body ->
  _get_request net c p retry wire = (Return (body_data body), wire ++ [GET c p]).
Proof. intros E. simp _get_request. rewrite E. reflexivity. Qed.

Lemma _get_request_Timeout_last (c : text) (p : value) (retry : Z) (wire : list request) :
  net wire (GET c p) = Timeout -> retry < 1 ->
  _get_request net c p retry wire = (Return PyNone, wire ++ [GET c p]).
Proof.
  intros E Hr. simp _get_request. rewrite E. simpl.
  destruct (Z_lt_dec retry 1); [reflexivity | lia].
Qed.

Lemma _get_request_Timeout_retry (c : text) (p : value) (retry : Z) (wire : list request) :
  net wire (GET c p) = Timeout -> 1 <= retry ->
  _get_request net c p retry wire
  = _get_request net c p (retry - 1) (wire ++ [GET c p]).
Proof.
  intros E Hr. rewrite _get_request_equation_1. rewrite E. simpl.
  destruct (Z_lt_dec retry 1); [lia | reflexivity].
Qed.

(** A GET whose every attempt within the budget times out yields
    nothing. *)
Lemma _get_request_exhausted (c : text) (p : value) (n : nat) :
  forall (retry : Z) (wire : list request),
    n = Z.to_nat retry ->
    (forall k, (k <= n)%nat -> net (wire ++ repeat (GET c p) k) (GET c p) = Timeout) ->
    _get_request net c p retry wire
    = (Return PyNone, wire ++ repeat (GET c p) (S n)).
Proof.
  induction n as [|n IH]; intros retry wire Hn Late.
  - pose proof (Late 0%nat ltac:(lia)) as L0.
    cbn [repeat] in L0. rewrite app_nil_r in L0.
    apply _get_request_Timeout_last; [exact L0 | lia].
  - pose proof (Late 0%nat ltac:(lia)) as L0.
    cbn [repeat] in L0. rewrite app_nil_r in L0.
    rewrite (_get_request_Timeout_retry c p retry wire L0) by lia.
    rewrite (IH (retry - 1) (wire ++ [GET c p])).
    + rewrite <- app_assoc. reflexivity.
    + lia.
    + intros k Hk. rewrite <- app_assoc. apply (Late (S k)). lia.
Qed.

(** A POST never raises either, and after its own request it sends
    nothing but GETs of the same command and payload. *)
Lemma _post_request_sends (c : text) (p : value) (retry : Z) (wire : list request) :
  exists v n,
    _post_request net c p retry wire
    = (Return v, wire ++ POST c p :: repeat (GET c p) n).
Proof.
  unfold _post_request.
  destruct (net wire (POST c p)) eqn:E.
  - destruct (retry <? 1).
    + exists PyNone, O. reflexivity.
    + destruct (_get_request_sends c p (retry - 1) (wire ++ [POST c p]))
        as (v & n & E').
      exists v, (S n). rewrite E', <- app_assoc. reflexivity.
  - exists PyNone, O. reflexivity.
  - exists (body_data body), O. reflexivity.
Qed.

(** An empty body, a body that is not JSON and the JSON text [null] all
    leave the caller without data. *)
Lemma body_data_empty : body_data "" = PyNone.
Proof. reflexivity. Qed.

Lemma body_data_undecodable (body : string) :
  Json.loads body = None -> body_data body = PyNone.
Proof.
  intros E. unfold body_data. rewrite E. destruct (body =? "")%string; reflexivity.
Qed.

(** C9.  A POST that times out while retry budget remains is retried
    through [_get_request]: the same command and payload are sent again
    as a GET, with the budget decremented by one, and [_post_request] is
    not entered again, so every later attempt is a GET too. *)
Theorem post_timeout_retries_through_get
        (c : text) (p : value) (retry : Z) (wire : list request) :
  net wire (POST c p) = Timeout ->
  1 <= retry ->
  _post_request net c p retry wire
  = _get_request net c p (retry - 1) (wire ++ [POST c p])
  /\ exists n,
      snd (_post_request net c p retry wire)
      = wire ++ POST c p :: GET c p :: repeat (GET c p) n.
Proof.
  intros E Hr.
  assert (Hstep : _post_request net c p retry wire
                  = _get_request net c p (retry - 1) (wire ++ [POST c p])).
  { unfold _post_request. rewrite E.
    destruct (retry <? 1) eqn:L; [apply Z.ltb_lt in L; lia | reflexivity]. }
  split; [exact Hstep |].
  rewrite Hstep.
  destruct (_get_request_sends c p (retry - 1) (wire ++ [POST c p]))
    as (v & n & E').
  exists n. rewrite E', <- app_assoc. reflexivity.
Qed.

End Transport.

(* ===================================================================== *)
(** * Properties of a refresh *)
(* ===================================================================== *)

Section Refresh.

Variable net : network.

(** The status request never raises. *)
Lemma status_data_returns (h : Heater) (wire : list request) :
  exists data w, status_data net h wire = (Return data, w).
Proof.
  unfold status_data.
  destruct (_get_request_sends net (status_command h) (PyDict []) 3 wire)
    as (v & n & E).
  rewrite E. eauto.
Qed.

(** Without data the refresh marks the heater unavailable and touches
    nothing else. *)
Lemma fetch_heater_data_no_data (h : Heater) (wire w : list request) :
  status_data net h wire = (Return PyNone, w) ->
  fetch_heater_data net (h, wire)
  = (Return false, (with_available (Some false) h, w)).
Proof.
  unfold status_data, status_command. intros E.
  unfold fetch_heater_data.
  unfold bind at 1. unfold gets at 1. cbn [fst].
  unfold bind at 1. unfold on_snd at 1. cbn [fst snd].
  rewrite E. reflexivity.
Qed.

Ltac leaf h :=
  try solve [ eexists; split; cycle 1; [reflexivity | repeat split]
            | exists h; split; [repeat split | reflexivity] ].

(** With data, the refresh completes exactly when [decode] does, and
    then leaves the [refreshed] record; otherwise it raises what
    [decode] raises, on a record that is partly updated but still
    stands for the same device. *)
Lemma fetch_heater_data_decode
      (h : Heater) (wire : list request) (data : value) (w : list request) :
  status_data net h wire = (Return data, w) ->
  is_None data = false ->
  exists partial,
    same_device h partial /\
    fetch_heater_data net (h, wire) =
    match decode data with
    | Return rd => (Return true, (refreshed rd h, w))
    | Raise e => (Raise e, (partial, w))
    end.
Proof.
  unfold status_data, status_command. intros E N.
  unfold fetch_heater_data.
  unfold bind at 1. unfold gets at 1. cbn [fst].
  unfold bind at 1. unfold on_snd at 1. cbn [fst snd].
  rewrite E. rewrite N. cbn [negb].
  unfold decode, status_payload, target_field, field_float, timestamp, and_then.
  cbv [bind eval assign on_fst modify ret fst snd].
  destruct (getitem data "objectJson") as [oj|e]; leaf h.
  destruct oj as [ | | | |s| | ]; cbn [Json.loads_value]; leaf h.
  destruct (Json.loads s) as [st|]; leaf h.
  destruct st as [ | | | | | |d]; cbn [get]; leaf h.
  cbn [contains].
  destruct (substring_of "TimerSTempA" s).
  - destruct (to_float _); leaf h.
    destruct (to_float _); leaf h.
    destruct (to_float _); leaf h.
    destruct (to_float _); leaf h.
    destruct (truthy _); leaf h.
    destruct (slice19 _); leaf h.
    destruct (Clock.strptime _); leaf h.
  - destruct (to_float _); leaf h.
    destruct (to_float _); leaf h.
    destruct (to_float _); leaf h.
    destruct (to_float _); leaf h.
    destruct (truthy _); leaf h.
    destruct (slice19 _); leaf h.
    destruct (Clock.strptime _); leaf h.
Qed.

(** What a completed [decode] has read. *)
Lemma decode_inv (data : value) (rd : reading) :
  decode data = Return rd ->
  status_payload data = Return (r_status rd) /\
  (exists k, target_field data = Return k /\
             field_float (r_status rd) k = Return (r_target rd)) /\
  field_float (r_status rd) "PCBTemp" = Return (r_pcb rd) /\
  field_float (r_status rd) "EnergyD" = Return (r_day rd) /\
  field_float (r_status rd) "EnergyN" = Return (r_night rd) /\
  timestamp (r_status rd) = Return (r_stamp rd).
Proof.
  unfold decode, and_then.
  destruct (status_payload data) as [st|] eqn:Es; [|discriminate].
  destruct (get st "State"); [|discriminate].
  destruct (target_field data) as [k|] eqn:Et; [|discriminate].
  destruct (field_float st k) eqn:Ek; [|discriminate].
  destruct (field_float st "PCBTemp") eqn:Ep; [|discriminate].
  destruct (field_float st "EnergyD") eqn:Ed; [|discriminate].
  destruct (field_float st "EnergyN") eqn:En; [|discriminate].
  destruct (timestamp st) eqn:Ets; [|discriminate].
  intros H. injection H as <-. cbn.
  split; [reflexivity |].
  split; [exists k; split; [reflexivity | exact Ek] |].
  auto.
Qed.

(** A refresh that returns [True] had data and decoded it. *)
Lemma fetch_heater_data_true_inv (h h' : Heater) (wire wire' : list request) :
  fetch_heater_data net (h, wire) = (Return true, (h', wire')) ->
  exists data rd,
    status_data net h wire = (Return data, wire') /\
    is_None data = false /\
    decode data = Return rd /\
    h' = refreshed rd h.
Proof.
  intros H.
  destruct (status_data_returns h wire) as (data & w & E).
  destruct (is_None data) eqn:N.
  - destruct data; try discriminate N.
    rewrite (fetch_heater_data_no_data _ _ _ E) in H. discriminate H.
  - destruct (fetch_heater_data_decode _ _ _ _ E N) as (partial & _ & F).
    rewrite F in H.
    destruct (decode data) as [rd|e] eqn:D; [|discriminate H].
    injection H as <- <-. exists data, rd. auto.
Qed.

(** The outcome of a refresh, case by case. *)
Lemma fetch_heater_data_result (h : Heater) (wire : list request) :
  exists data,
    fst (status_data net h wire) = Return data /\
    fst (fetch_heater_data net (h, wire))
    = if is_None data then Return false
      else match decode data with
           | Return _ => Return true
           | Raise e => Raise e
           end.
Proof.
  destruct (status_data_returns h wire) as (data & w & E).
  exists data. rewrite E. split; [reflexivity |].
  destruct (is_None data) eqn:N.
  - destruct data; try discriminate N.
    rewrite (fetch_heater_data_no_data _ _ _ E). reflexivity.
  - destruct (fetch_heater_data_decode _ _ _ _ E N) as (partial & _ & F).
    rewrite F. destruct (decode data); reflexivity.
Qed.

(** C1.  After a refresh that completes, [energy_day] and [energy_night]
    are [float] of the payload's [EnergyD] and [EnergyN], and
    [energy_total] is their floating-point sum, whatever the three fields
    held before the call. *)
Theorem energy_total_is_day_plus_night
        (h h' : Heater) (wire wire' : list request) :
  fetch_heater_data net (h, wire) = (Return true, (h', wire')) ->
  exists data status d n,
    status_data net h wire = (Return data, wire') /\
    status_payload data = Return status /\
    field_float status "EnergyD" = Return d /\
    field_float status "EnergyN" = Return n /\
    energy_day h' = Some d /\
    energy_night h' = Some n /\
    energy_total h' = Some (fadd d n).
Proof.
  intros H.
  destruct (fetch_heater_data_true_inv _ _ _ _ H) as (data & rd & E & _ & D & ->).
  destruct (decode_inv _ _ D) as (Hs & _ & _ & Hd & Hn & _).
  exists data, (r_status rd), (r_day rd), (r_night rd).
  repeat split; assumption || reflexivity.
Qed.

End Refresh.

Section Availability.

Variable net : network.



(** C3, as amended.  The outcome of a refresh is decided by the data of
    the status request.  Without data the refresh returns [False]: that
    is the case of a connection error, of time-outs beyond the retry
    budget, of an empty body, of a body that is not JSON and of the JSON
    text [null].  With data it returns [True] when every step of
    [decode] succeeds, and otherwise lets the exception of the failing
    step through. *)
Theorem fetch_heater_data_outcome (h : Heater) (wire : list request) :
  let rq := GET (status_command h) (PyDict []) in
  (exists data,
      fst (status_data net h wire) = Return data /\
      fst (fetch_heater_data net (h, wire))
      = if is_None data then Return false
        else match decode data with
             | Return _ => Return true
             | Raise e => Raise e
             end) /\
  (net wire rq = ClientError ->
   fst (fetch_heater_data net (h, wire)) = Return false) /\
  ((forall k, (k <= 3)%nat -> net (wire ++ repeat rq k) rq = Timeout) ->
   fst (fetch_heater_data net (h, wire)) = Return false) /\
  (forall code body,
      net wire rq = Response code body ->
      body = "" \/ Json.loads body = None \/ Json.loads body = Some PyNone ->
      fst (fetch_heater_data net (h, wire)) = Return false).
Proof.
  intros rq.
  split; [apply fetch_heater_data_result |].
  assert (no_data : forall w, status_data net h wire = (Return PyNone, w) ->
                              fst (fetch_heater_data net (h, wire)) = Return false).
  { intros w E. rewrite (fetch_heater_data_no_data net _ _ _ E). reflexivity. }
  split; [| split].
  - intros E. eapply no_data. unfold status_data.
    apply _get_request_ClientError. exact E.
  - intros Late. eapply no_data. unfold status_data.
    apply (_get_request_exhausted net (status_command h) (PyDict []) 3 3 wire
             eq_refl Late).
  - intros code body E B. eapply no_data. unfold status_data.
    rewrite (_get_request_Response net _ _ _ _ _ _ E).
    f_equal. f_equal.
    destruct B as [-> | [B | B]].
    + reflexivity.
    + apply body_data_undecodable. exact B.
    + unfold body_data. rewrite B. destruct (body =? "")%string; reflexivity.
Qed.

(** [gather] keeps the keys and hands each heater to its own refresh. *)
Lemma gather_refreshes (tasks : list (value * Heater)) (wire : list request) :
  Forall2 (fun before after =>
             fst after = fst before /\
             exists w, snd after
                       = fst (snd (fetch_heater_data net (snd before, w))))
          tasks (snd (fst (gather net tasks wire))).
Proof.
  revert wire. induction tasks as [|[k h] rest IH]; intros wire; cbn [gather].
  - constructor.
  - destruct (fetch_heater_data net (h, wire)) as [r [h' w']] eqn:F.
    specialize (IH w').
    destruct (gather net rest w') as [[e rest'] w''].
    cbn [fst snd] in *. constructor.
    + cbn [fst snd]. split; [reflexivity |]. exists wire. rewrite F. reflexivity.
    + exact IH.
Qed.

(** With a populated registry [fetch_all_heaters] is [gather] alone. *)
Lemma fetch_all_heaters_populated (self : MyEldom) (wire : list request) :
  heaters self <> [] ->
  fetch_all_heaters net (self, wire)
  = let '(e, heaters', wire') := gather net (heaters self) wire in
    (match e with Some x => Raise x | None => Return heaters' end,
     (with_heaters heaters' self, wire')).
Proof.
  intros NE.
  unfold fetch_all_heaters.
  cbv [bind gets ret refresh_registry fst snd].
  destruct (heaters self) as [|kh rest] eqn:R; [contradiction |].
  cbn [is_empty]. rewrite R.
  destruct (gather net (kh :: rest) wire) as [[[x|] hs'] w']; reflexivity.
Qed.

(** A refresh that returns, by the data of its status request. *)
Lemma fetch_heater_data_Return_inv
      (h h' : Heater) (b : bool) (wire wire' : list request) :
  fetch_heater_data net (h, wire) = (Return b, (h', wire')) ->
  exists data,
    fst (status_data net h wire) = Return data /\
    (is_None data = true -> h' = with_available (Some false) h) /\
    (is_None data = false ->
     exists rd, decode data = Return rd /\ h' = refreshed rd h).
Proof.
  intros F. destruct (status_data_returns net h wire) as (data & w & E).
  exists data. rewrite E. split; [reflexivity |].
  destruct (is_None data) eqn:N.
  - destruct data; try discriminate N.
    rewrite (fetch_heater_data_no_data net _ _ _ E) in F. injection F as _ <- _.
    split; [reflexivity | discriminate].
  - destruct (fetch_heater_data_decode net _ _ _ _ E N) as (partial & _ & D).
    rewrite D in F. destruct (decode data) as [rd|e]; [| discriminate F].
    injection F as _ <- _. split; [discriminate |]. intros _. exists rd. auto.
Qed.

(** When [gather] has no exception to hand on, every task returned. *)
Lemma gather_returned (tasks : list (value * Heater)) (wire : list request) :
  fst (fst (gather net tasks wire)) = None ->
  Forall2 (fun before after =>
             fst after = fst before /\
             exists w data,
               fst (status_data net (snd before) w) = Return data /\
               (is_None data = true ->
                snd after = with_available (Some false) (snd before)) /\
               (is_None data = false ->
                exists rd, decode data = Return rd /\
                           snd after = refreshed rd (snd before)))
          tasks (snd (fst (gather net tasks wire))).
Proof.
  revert wire. induction tasks as [|[k h] rest IH]; intros wire; cbn [gather].
  - constructor.
  - pose proof (fetch_heater_data_Return_inv h) as Inv.
    destruct (fetch_heater_data net (h, wire)) as [r [h' w']] eqn:F.
    specialize (IH w').
    destruct (gather net rest w') as [[e rest'] w''].
    cbn [fst snd] in *. intros Quiet.
    destruct r as [b|x]; [| discriminate Quiet].
    constructor; [| exact (IH Quiet)].
    cbn [fst snd]. split; [reflexivity |].
    destruct (Inv h' b wire w' F) as (data & S & Rest).
    exists wire, data. auto.
Qed.

End Availability.

(** Against a service that answers each request on its own, a GET brings
    what the reply to its request holds, however often it is tried. *)
Lemma _get_request_stateless (answer : request -> reply)
      (c : text) (p : value) (retry : Z) (wire : list request) :
  fst (_get_request (stateless answer) c p retry wire)
  = Return (reply_data (answer (GET c p))).
Proof.
  funelim (_get_request (stateless answer) c p retry wire);
    unfold stateless in *.
  - rewrite Heq. reflexivity.
  - rewrite Heq. reflexivity.
  - rewrite Heq0. reflexivity.
  - exact H.
Qed.

(* ===================================================================== *)
(** * Properties of the session *)
(* ===================================================================== *)

Section Session.

Variable net : network.

Lemma login_reply_shift (self : MyEldom) (wire : list request) (t : nat) (j : nat) :
  login_reply net (with_last_login_attempt t self)
              (wire ++ [login_request self]) j
  = login_reply net self wire (S j).
Proof.
  unfold login_reply, login_request. cbn [_email _password with_last_login_attempt repeat].
  rewrite <- app_assoc. reflexivity.
Qed.

Lemma login_reply_first (self : MyEldom) (wire : list request) :
  login_reply net self wire 0 = net wire (login_request self).
Proof. unfold login_reply. cbn [repeat]. rewrite app_nil_r. reflexivity. Qed.

(** One step of [_do_login], by the reply to the attempt. *)
Lemma _do_login_Response (retry : Z) (self : MyEldom) (wire : list request)
      (code : Z) (body : string) :
  net wire (login_request self) = Response code body ->
  _do_login net retry (self, wire)
  = (Return (code =? 302),
     (with_last_login_attempt (List.length wire) self,
      wire ++ [login_request self])).
Proof. intros E. simp _do_login. rewrite E. reflexivity. Qed.

Lemma _do_login_failure_last (retry : Z) (self : MyEldom) (wire : list request) :
  transport_failure (net wire (login_request self)) = true ->
  retry < 1 ->
  _do_login net retry (self, wire)
  = (Return false,
     (with_last_login_attempt (List.length wire) self,
      wire ++ [login_request self])).
Proof.
  intros E Hr. simp _do_login.
  destruct (net wire (login_request self)); try discriminate E; cbn;
    destruct (Z_lt_dec retry 1); solve [reflexivity | lia].
Qed.

Lemma _do_login_failure_retry (retry : Z) (self : MyEldom) (wire : list request) :
  transport_failure (net wire (login_request self)) = true ->
  1 <= retry ->
  _do_login net retry (self, wire)
  = _do_login net (retry - 1)
      (with_last_login_attempt (List.length wire) self,
       wire ++ [login_request self]).
Proof.
  intros E Hr. rewrite _do_login_equation_1.
  destruct (net wire (login_request self)); try discriminate E; cbn;
    destruct (Z_lt_dec retry 1); solve [reflexivity | lia].
Qed.

(** The attempt that gets a response ends the login. *)
Lemma _do_login_answered (k : nat) :
  forall (retry : Z) (self : MyEldom) (wire : list request) (code : Z) (body : string),
    (k <= Z.to_nat retry)%nat ->
    (forall j, (j < k)%nat ->
               transport_failure (login_reply net self wire j) = true) ->
    login_reply net self wire k = Response code body ->
    _do_login net retry (self, wire)
    = (Return (code =? 302),
       (with_last_login_attempt (List.length wire + k) self,
        wire ++ repeat (login_request self) (S k))).
Proof.
  induction k as [|k IH]; intros retry self wire code body Hk Hfail Hresp.
  - rewrite login_reply_first in Hresp.
    rewrite (_do_login_Response retry self wire code body Hresp).
    rewrite Nat.add_0_r. reflexivity.
  - pose proof (Hfail 0%nat ltac:(lia)) as F0.
    rewrite login_reply_first in F0.
    rewrite (_do_login_failure_retry retry self wire F0) by lia.
    rewrite (IH (retry - 1) (with_last_login_attempt (List.length wire) self)
               (wire ++ [login_request self]) code body).
    + unfold with_last_login_attempt, login_request. cbn.
      rewrite length_app. cbn [List.length].
      rewrite <- app_assoc. cbn [app].
      replace (List.length wire + 1 + k)%nat
        with (List.length wire + S k)%nat by lia.
      reflexivity.
    + lia.
    + intros j Hj. rewrite login_reply_shift. apply Hfail. lia.
    + rewrite login_reply_shift. exact Hresp.
Qed.

(** When every attempt the budget allows fails, so does the login. *)
Lemma _do_login_exhausted (n : nat) :
  forall (retry : Z) (self : MyEldom) (wire : list request),
    n = Z.to_nat retry ->
    (forall j, (j <= n)%nat ->
               transport_failure (login_reply net self wire j) = true) ->
    _do_login net retry (self, wire)
    = (Return false,
       (with_last_login_attempt (List.length wire + n) self,
        wire ++ repeat (login_request self) (S n))).
Proof.
  induction n as [|n IH]; intros retry self wire Hn Hfail.
  - pose proof (Hfail 0%nat ltac:(lia)) as F0.
    rewrite login_reply_first in F0.
    rewrite (_do_login_failure_last retry self wire F0) by lia.
    rewrite Nat.add_0_r. reflexivity.
  - pose proof (Hfail 0%nat ltac:(lia)) as F0.
    rewrite login_reply_first in F0.
    rewrite (_do_login_failure_retry retry self wire F0) by lia.
    rewrite (IH (retry - 1) (with_last_login_attempt (List.length wire) self)
               (wire ++ [login_request self])).
    + unfold with_last_login_attempt, login_request. cbn.
      rewrite length_app. cbn [List.length].
      rewrite <- app_assoc. cbn [app].
      replace (List.length wire + 1 + n)%nat
        with (List.length wire + S n)%nat by lia.
      reflexivity.
    + lia.
    + intros j Hj. rewrite login_reply_shift. apply Hfail. lia.
Qed.

(** Either every one of the first [n + 1] attempts fails, or one of them
    is the first to get a response. *)
Lemma first_response (self : MyEldom) (wire : list request) (n : nat) :
  (forall j, (j <= n)%nat ->
             transport_failure (login_reply net self wire j) = true)
  \/ exists k code body,
      (k <= n)%nat /\
      (forall j, (j < k)%nat ->
                 transport_failure (login_reply net self wire j) = true) /\
      login_reply net self wire k = Response code body.
Proof.
  induction n as [|n [All | (k & code & body & Hk & Hfail & Hresp)]].
  - destruct (login_reply net self wire 0) as [ | |code body] eqn:E.
    + left. intros j Hj. replace j with 0%nat by lia. rewrite E. reflexivity.
    + left. intros j Hj. replace j with 0%nat by lia. rewrite E. reflexivity.
    + right. exists 0%nat, code, body. repeat split; [lia | | exact E].
      intros j Hj. lia.
  - destruct (login_reply net self wire (S n)) as [ | |code body] eqn:E.
    + left. intros j Hj. destruct (Nat.eq_dec j (S n)) as [->|];
        [rewrite E; reflexivity | apply All; lia].
    + left. intros j Hj. destruct (Nat.eq_dec j (S n)) as [->|];
        [rewrite E; reflexivity | apply All; lia].
    + right. exists (S n), code, body. repeat split; [lia | | exact E].
      intros j Hj. apply All. lia.
  - right. exists k, code, body. repeat split; [lia | exact Hfail | exact Hresp].
Qed.

(** [connect] is [_do_login]. *)
Lemma connect_is_login (retry : Z) (st : MyEldom * list request) :
  connect net retry st = _do_login net retry st.
Proof.
  destruct st as [self wire].
  unfold connect, bind.
  destruct (first_response self wire (Z.to_nat retry))
    as [All | (k & code & body & Hk & Hfail & Hresp)].
  - rewrite (_do_login_exhausted (Z.to_nat retry) retry self wire eq_refl All). reflexivity.
  - rewrite (_do_login_answered k retry self wire code body Hk Hfail Hresp).
    destruct (code =? 302); reflexivity.
Qed.

(** C5.  [connect] with retry budget [retry] succeeds exactly when one of
    the first [retry + 1] attempts gets a 302 response, every attempt
    before it having failed at transport level.  The attempt that gets a
    response is the last one, whatever its status; and when every attempt
    within the budget fails at transport level, [connect] fails after
    [retry + 1] attempts. *)
Theorem connect_retry_policy (retry : Z) (self : MyEldom) (wire : list request) :
  let reply := login_reply net self wire in
  let attempts (n : nat) := wire ++ repeat (login_request self) n in
  let budget := Z.to_nat retry in
  (fst (connect net retry (self, wire)) = Return true <->
   exists k body,
     (k <= budget)%nat /\
     (forall j, (j < k)%nat -> transport_failure (reply j) = true) /\
     reply k = Response 302 body) /\
  (forall k code body,
      (k <= budget)%nat ->
      (forall j, (j < k)%nat -> transport_failure (reply j) = true) ->
      reply k = Response code body ->
      fst (connect net retry (self, wire)) = Return (code =? 302) /\
      snd (snd (connect net retry (self, wire))) = attempts (S k)) /\
  ((forall j, (j <= budget)%nat -> transport_failure (reply j) = true) ->
   fst (connect net retry (self, wire)) = Return false /\
   snd (snd (connect net retry (self, wire))) = attempts (S budget)).
Proof.
  intros reply attempts budget. subst reply attempts budget.
  rewrite connect_is_login.
  split; [| split].
  - split.
    + intros H.
      destruct (first_response self wire (Z.to_nat retry))
        as [All | (k & code & body & Hk & Hfail & Hresp)].
      * rewrite (_do_login_exhausted (Z.to_nat retry) retry self wire eq_refl All) in H. discriminate H.
      * rewrite (_do_login_answered k retry self wire code body Hk Hfail Hresp) in H.
        cbn [fst] in H. injection H as H. apply Z.eqb_eq in H. subst code.
        exists k, body. auto.
    + intros (k & body & Hk & Hfail & Hresp).
      rewrite (_do_login_answered k retry self wire 302 body Hk Hfail Hresp).
      reflexivity.
  - intros k code body Hk Hfail Hresp.
    rewrite (_do_login_answered k retry self wire code body Hk Hfail Hresp). split; reflexivity.
  - intros All.
    rewrite (_do_login_exhausted (Z.to_nat retry) retry self wire eq_refl All). split; reflexivity.
Qed.

End Session.

(* ===================================================================== *)
(** * Properties of the commands *)
(* ===================================================================== *)

Section Commands.

Variable net : network.

(** The acknowledgement test on a JSON object. *)
Lemma acknowledged_dict (d : list (string * value)) :
  acknowledged (PyDict d)
  = Return (match lookup "status" d with
            | Some (PyBool true) => true
            | _ => false
            end).
Proof.
  unfold acknowledged. cbn [truthy contains getitem].
  destruct d as [|kv d'].
  - reflexivity.
  - destruct (lookup "status" (kv :: d')) as [v|]; [|reflexivity].
    destruct v as [ |[|]| | | | | ]; reflexivity.
Qed.

(** Only such an object passes the test. *)
Lemma acknowledged_true (resp : value) :
  acknowledged resp = Return true <->
  exists d, resp = PyDict d /\ lookup "status" d = Some (PyBool true).
Proof.
  split.
  - destruct resp as [ |b|z|f|s|l|d].
    + discriminate.
    + unfold acknowledged; cbn. destruct b; discriminate.
    + unfold acknowledged; cbn. destruct (z =? 0); discriminate.
    + unfold acknowledged; cbn. destruct (is_zero f); discriminate.
    + unfold acknowledged; cbn.
      destruct (s =? "")%string; cbn; [discriminate |].
      destruct (substring_of "status" s); discriminate.
    + unfold acknowledged; cbn. destruct l; [discriminate |].
      destruct (existsb _ _); discriminate.
    + rewrite acknowledged_dict. intros H. exists d. split; [reflexivity |].
      destruct (lookup "status" d) as [[ |[|]| | | | | ]|];
        solve [reflexivity | discriminate H].
  - intros (d & -> & L). rewrite acknowledged_dict, L. reflexivity.
Qed.

Lemma acknowledged_None : acknowledged PyNone = Return false.
Proof. reflexivity. Qed.

(** The test on a response that is no such object. *)
Lemma acknowledged_otherwise (resp : value) :
  ~ acknowledges (Return resp) ->
  acknowledged resp
  = if unsubscriptable resp then Raise TypeError else Return false.
Proof.
  intros No. destruct resp as [ |b|z|f|s|l|d].
  - reflexivity.
  - unfold acknowledged; cbn. destruct b; reflexivity.
  - unfold acknowledged; cbn. destruct (z =? 0); reflexivity.
  - unfold acknowledged; cbn. destruct (is_zero f); reflexivity.
  - unfold acknowledged; cbn. destruct s as [|c r]; [reflexivity |].
    cbn [String.eqb negb].
    destruct (substring_of "status" (String c r)); reflexivity.
  - unfold acknowledged; cbn. destruct l as [|x r]; [reflexivity |].
    destruct (existsb _ (x :: r)); reflexivity.
  - rewrite acknowledged_dict. cbn [unsubscriptable].
    destruct (lookup "status" d) as [[ |[|]| | | | | ]|] eqn:L; try reflexivity.
    exfalso. apply No. exists d. auto.
Qed.

(** [set_temperature], by the response to its command. *)
Lemma set_temperature_unfold (t : float) (h : Heater) (wire : list request) :
  exists resp w,
    temperature_response net h t wire = (Return resp, w) /\
    set_temperature net t (h, wire)
    = match acknowledged resp with
      | Return true => (Return true, (with_set_temp (Some t) h, w))
      | Return false => (Return false, (h, w))
      | Raise e => (Raise e, (h, w))
      end.
Proof.
  unfold temperature_response, temperature_payload.
  destruct (_post_request_sends net (Lit "/api/panelconvector/setTemperature")
              (PyDict [("deviceId", real_device_id h);
                       ("temperature", PyFloat t)]) 3 wire) as (v & n & E).
  exists v, (wire ++ POST (Lit "/api/panelconvector/setTemperature")
               (PyDict [("deviceId", real_device_id h);
                        ("temperature", PyFloat t)])
               :: repeat (GET (Lit "/api/panelconvector/setTemperature")
                            (PyDict [("deviceId", real_device_id h);
                                     ("temperature", PyFloat t)])) n).
  split; [exact E |].
  unfold set_temperature.
  cbv [bind gets on_snd eval assign on_fst modify ret fst snd].
  rewrite E.
  destruct (acknowledged v) as [[|]|]; reflexivity.
Qed.

Lemma set_state_unfold (s : Z) (h : Heater) (wire : list request) :
  exists resp w,
    state_response net h s wire = (Return resp, w) /\
    set_state net s (h, wire)
    = match acknowledged resp with
      | Return b => (Return b, (h, w))
      | Raise e => (Raise e, (h, w))
      end.
Proof.
  unfold state_response, state_payload.
  destruct (_post_request_sends net (Lit "/api/panelconvector/setState")
              (PyDict [("deviceId", real_device_id h);
                       ("state", PyInt s)]) 3 wire) as (v & n & E).
  exists v, (wire ++ POST (Lit "/api/panelconvector/setState")
               (PyDict [("deviceId", real_device_id h); ("state", PyInt s)])
               :: repeat (GET (Lit "/api/panelconvector/setState")
                            (PyDict [("deviceId", real_device_id h);
                                     ("state", PyInt s)])) n).
  split; [exact E |].
  unfold set_state.
  cbv [bind gets on_snd eval assign on_fst modify ret fst snd].
  rewrite E.
  destruct (acknowledged v) as [[|]|]; reflexivity.
Qed.

(** A POST whose first attempt fails to connect, or brings a body that
    is empty or not JSON, yields nothing. *)
Lemma _post_request_ClientError (c : text) (p : value) (retry : Z) (wire : list request) :
  net wire (POST c p) = ClientError ->
  fst (_post_request net c p retry wire) = Return PyNone.
Proof. intros E. unfold _post_request. rewrite E. reflexivity. Qed.

Lemma _post_request_no_body (c : text) (p : value) (retry : Z) (wire : list request)
      (code : Z) (body : string) :
  net wire (POST c p) = Response code body ->
  body = "" \/ Json.loads body = None \/ Json.loads body = Some PyNone ->
  fst (_post_request net c p retry wire) = Return PyNone.
Proof.
  intros E B. unfold _post_request. rewrite E. cbn [fst]. f_equal.
  destruct B as [-> | [B | B]].
  - reflexivity.
  - apply body_data_undecodable. exact B.
  - unfold body_data. rewrite B. destruct (body =? "")%string; reflexivity.
Qed.

(** Nor does a POST that times out and whose retries, all of them GETs,
    time out as well. *)
Lemma _post_request_exhausted (c : text) (p : value) (retry : Z) (wire : list request) :
  1 <= retry ->
  net wire (POST c p) = Timeout ->
  (forall k, (k < Z.to_nat retry)%nat ->
             net (wire ++ POST c p :: repeat (GET c p) k) (GET c p) = Timeout) ->
  fst (_post_request net c p retry wire) = Return PyNone.
Proof.
  intros Hr E Late. unfold _post_request. rewrite E.
  destruct (retry <? 1) eqn:L; [apply Z.ltb_lt in L; lia |].
  rewrite (_get_request_exhausted net c p (Z.to_nat (retry - 1)) (retry - 1)
             (wire ++ [POST c p]) eq_refl).
  - reflexivity.
  - intros k Hk. rewrite <- app_assoc. apply Late. lia.
Qed.

(** C7, as amended.  [set_temperature] returns [True] exactly when the
    response to its command is a JSON object whose ["status"] is [true],
    and it then sets [set_temp] to the requested temperature.  In every
    other case the heater record is left as it was.  The call then
    returns [False], unless the acknowledgement test itself fails on the
    response, which it does on a number other than zero, on [true], on a
    string that contains [status] and on a list that contains
    ["status"]: then [TypeError] reaches the caller.  In particular the
    call returns [False] when the response is an object whose ["status"]
    is absent or not [true], when there is no response data (a null,
    empty or undecodable body) and when the transport fails: the
    connection is refused, or the command and its three retries all time
    out. *)
Theorem set_temperature_on_acknowledgement
        (t : float) (h : Heater) (wire : list request) :
  let rq := POST (Lit "/api/panelconvector/setTemperature")
              (temperature_payload h t) in
  let resp := fst (temperature_response net h t wire) in
  let r := fst (set_temperature net t (h, wire)) in
  let h' := fst (snd (set_temperature net t (h, wire))) in
  (r = Return true <-> acknowledges resp) /\
  (r = Return true -> h' = with_set_temp (Some t) h) /\
  (r <> Return true -> h' = h) /\
  (exists v,
      resp = Return v /\
      (~ acknowledges resp ->
       r = if unsubscriptable v then Raise TypeError else Return false)) /\
  (forall d, resp = Return (PyDict d) ->
             lookup "status" d <> Some (PyBool true) -> r = Return false) /\
  (resp = Return PyNone -> r = Return false) /\
  (net wire rq = ClientError -> r = Return false) /\
  (net wire rq = Timeout ->
   (forall k, (k < 3)%nat ->
              net (wire ++ rq :: repeat (GET (Lit "/api/panelconvector/setTemperature")
                                           (temperature_payload h t)) k)
                  (GET (Lit "/api/panelconvector/setTemperature")
                     (temperature_payload h t)) = Timeout) ->
   r = Return false) /\
  (forall code body,
      net wire rq = Response code body ->
      body = "" \/ Json.loads body = None \/ Json.loads body = Some PyNone ->
      r = Return false).
Proof.
  intros rq resp r h'. subst rq resp r h'.
  destruct (set_temperature_unfold t h wire) as (v & w & E & U).
  assert (no_data : fst (temperature_response net h t wire) = Return PyNone ->
                    fst (set_temperature net t (h, wire)) = Return false).
  { rewrite E. cbn [fst]. intros V. injection V as ->.
    rewrite U, acknowledged_None. reflexivity. }
  split; [| split; [| split; [| split; [| split; [| split; [| split; [| split]]]]]]].
  - rewrite U, E. cbn [fst]. unfold acknowledges. split.
    + intros H. destruct (acknowledged v) as [[|]|] eqn:A; try discriminate H.
      apply acknowledged_true in A. destruct A as (d & -> & L).
      exists d. auto.
    + intros (d & V & L). injection V as ->.
      rewrite acknowledged_dict, L. reflexivity.
  - rewrite U. destruct (acknowledged v) as [[|]|]; cbn; congruence.
  - rewrite U. destruct (acknowledged v) as [[|]|]; cbn; congruence.
  - exists v. rewrite E. split; [reflexivity |]. cbn [fst]. intros No.
    rewrite U, (acknowledged_otherwise v No).
    destruct (unsubscriptable v); reflexivity.
  - rewrite E, U. cbn [fst]. intros d V L. injection V as ->.
    rewrite acknowledged_dict.
    destruct (lookup "status" d) as [[ |[|]| | | | | ]|];
      solve [reflexivity | congruence].
  - exact no_data.
  - intros F. apply no_data.
    apply _post_request_ClientError. exact F.
  - intros F Late. apply no_data.
    apply _post_request_exhausted; [lia | exact F | exact Late].
  - intros code body F B. apply no_data.
    apply (_post_request_no_body _ _ _ _ code body F B).
Qed.

(** C8.  [set_state] never changes the heater record it is given,
    whether the command is acknowledged, refused or lost; the outcome
    shows in the result alone, which is [True] exactly when the response
    is a JSON object whose ["status"] is [true]. *)
Theorem set_state_leaves_heater (s : Z) (h : Heater) (wire : list request) :
  fst (snd (set_state net s (h, wire))) = h /\
  state (fst (snd (set_state net s (h, wire)))) = state h /\
  (fst (set_state net s (h, wire)) = Return true <->
   acknowledges (fst (state_response net h s wire))).
Proof.
  destruct (set_state_unfold s h wire) as (v & w & E & U).
  rewrite U, E.
  assert (Hh : fst (snd match acknowledged v with
                        | Return b => (Return b, (h, w))
                        | Raise e => (Raise e, (h, w))
                        end) = h)
    by (destruct (acknowledged v); reflexivity).
  rewrite Hh. split; [reflexivity |]. split; [reflexivity |].
  cbn [fst]. unfold acknowledges. split.
  - intros H. destruct (acknowledged v) as [[|]|] eqn:A; try discriminate H.
    apply acknowledged_true in A. destruct A as (d & -> & L). exists d. auto.
  - intros (d & V & L). injection V as ->.
    rewrite acknowledged_dict, L. reflexivity.
Qed.

End Commands.

(* ===================================================================== *)
(** * Properties of the registry *)
(* ===================================================================== *)

Section Registry.

Variable net : network.

(** A refresh sends its status request, once per attempt, and nothing
    else. *)
Lemma fetch_heater_data_wire (h : Heater) (wire : list request) :
  snd (snd (fetch_heater_data net (h, wire))) = snd (status_data net h wire).
Proof.
  destruct (status_data_returns net h wire) as (data & w & E).
  rewrite E. destruct (is_None data) eqn:N.
  - destruct data; try discriminate N.
    rewrite (fetch_heater_data_no_data net _ _ _ E). reflexivity.
  - destruct (fetch_heater_data_decode net _ _ _ _ E N) as (partial & _ & F).
    rewrite F. destruct (decode data); reflexivity.
Qed.

Lemma fetch_heater_data_sends (h : Heater) (wire : list request) :
  exists n,
    snd (snd (fetch_heater_data net (h, wire)))
    = wire ++ repeat (status_request h) (S n).
Proof.
  rewrite fetch_heater_data_wire. unfold status_data, status_request.
  destruct (_get_request_sends net (status_command h) (PyDict []) 3 wire)
    as (v & n & E).
  exists n. rewrite E. reflexivity.
Qed.

(** A refresh leaves the record standing for the same device. *)
Lemma fetch_heater_data_same_device (h : Heater) (wire : list request) :
  same_device h (fst (snd (fetch_heater_data net (h, wire)))).
Proof.
  destruct (status_data_returns net h wire) as (data & w & E).
  destruct (is_None data) eqn:N.
  - destruct data; try discriminate N.
    rewrite (fetch_heater_data_no_data net _ _ _ E). repeat split.
  - destruct (fetch_heater_data_decode net _ _ _ _ E N) as (partial & S & F).
    rewrite F. destruct (decode data); [repeat split | exact S].
Qed.

(** What [gather] sends: status requests of the heaters it was given. *)
Lemma gather_sends (tasks : list (value * Heater)) (wire : list request) :
  exists sent,
    snd (gather net tasks wire) = wire ++ sent /\
    Forall (fun rq => exists h, In h (map snd tasks) /\ rq = status_request h)
           sent.
Proof.
  revert wire. induction tasks as [|[k h] rest IH]; intros wire; cbn [gather].
  - exists []. rewrite app_nil_r. split; [reflexivity | constructor].
  - destruct (fetch_heater_data_sends h wire) as (n & W).
    destruct (fetch_heater_data net (h, wire)) as [r [h' w']].
    cbn [fst snd] in W. subst w'.
    destruct (IH (wire ++ repeat (status_request h) (S n))) as (sent & E & A).
    destruct (gather net rest (wire ++ repeat (status_request h) (S n)))
      as [[e rest'] w''].
    cbn [fst snd] in *. subst w''.
    exists (repeat (status_request h) (S n) ++ sent).
    split; [rewrite app_assoc; reflexivity |].
    apply Forall_app. split.
    + apply Forall_forall. intros rq I. apply repeat_spec in I.
      exists h. split; [left; reflexivity | exact I].
    + eapply Forall_impl; [| exact A].
      intros rq (x & I & ->). exists x. split; [right; exact I | reflexivity].
Qed.

Lemma gather_keys (tasks : list (value * Heater)) (wire : list request) :
  map fst (snd (fst (gather net tasks wire))) = map fst tasks.
Proof.
  pose proof (gather_refreshes net tasks wire) as G.
  induction G as [|before after l l' [K _] _ IH]; [reflexivity |].
  cbn [map]. rewrite K, IH. reflexivity.
Qed.

(** C6.  [fetch_all_heaters] asks for the device list only when the
    registry is empty.  Called with a populated registry it sends nothing
    but status requests of the registered heaters, and the registry keeps
    its keys, in the same order; called with an empty registry, the first
    thing it sends is the device-list request. *)
Theorem discovery_only_when_registry_empty
        (self : MyEldom) (wire : list request) :
  let after := snd (fetch_all_heaters net (self, wire)) in
  (heaters self <> [] ->
   map fst (heaters (fst after)) = map fst (heaters self) /\
   exists sent,
     snd after = wire ++ sent /\
     Forall (fun rq => exists h, In h (map snd (heaters self)) /\
                                 rq = status_request h) sent /\
     ~ In discovery_request sent) /\
  (heaters self = [] ->
   exists rest, snd after = wire ++ discovery_request :: rest).
Proof.
  intros after. subst after. split.
  - intros NE. rewrite (fetch_all_heaters_populated net _ _ NE).
    pose proof (gather_keys (heaters self) wire) as K.
    destruct (gather_sends (heaters self) wire) as (sent & W & A).
    destruct (gather net (heaters self) wire) as [[e hs'] w'].
    cbn [fst snd] in *. split; [exact K |].
    exists sent. split; [exact W |]. split; [exact A |].
    intros I. rewrite Forall_forall in A.
    destruct (A _ I) as (h & _ & D). discriminate D.
  - intros Em.
    unfold fetch_all_heaters.
    cbv [bind gets ret refresh_registry on_fst on_snd modify eval fst snd].
    rewrite Em. cbn [is_empty].
    unfold get_device_list.
    destruct (_get_request_sends net (Lit "/api/device/getmy") (PyDict []) 3 wire)
      as (v & n & E).
    rewrite E. fold discovery_request.
    destruct (is_None v); cbn [negb].
    + cbn [heaters with_heaters gather].
      exists (repeat discovery_request n).
      cbn [repeat]. reflexivity.
    + destruct (iter v) as [devices|e].
      * cbn [heaters with_heaters].
        destruct (for_each discover devices []) as [[u|e] registry'].
        -- cbn [heaters with_heaters].
           destruct (gather_sends registry'
                       (wire ++ repeat discovery_request (S n)))
             as (sent & W & _).
           destruct (gather net registry' (wire ++ repeat discovery_request (S n)))
             as [[e hs'] w'].
           cbn [fst snd] in *. subst w'.
           exists (repeat discovery_request n ++ sent).
           destruct e; cbn [snd repeat]; rewrite <- app_assoc; reflexivity.
        -- exists (repeat discovery_request n). cbn [repeat snd]. reflexivity.
      * exists (repeat discovery_request n). cbn [repeat snd]. reflexivity.
Qed.

End Registry.

(* ===================================================================== *)
(** * The software version *)
(* ===================================================================== *)

Section Versions.

Variable net : network.

(** Discovery's assignments never reach [sw_version]; when they complete
    they have set [swVersion], and when they stop on an exception they
    have not touched it. *)
Lemma describe_versions (device : value) (h : Heater) :
  sw_version (snd (describe device h)) = sw_version h /\
  match fst (describe device h) with
  | Return _ => swVersion (snd (describe device h)) <> None
  | Raise _ => swVersion (snd (describe device h)) = swVersion h
  end.
Proof.
  unfold describe.
  destruct device as [ | | | | | |d];
    cbv [bind eval modify ret fst snd get]; try (split; reflexivity).
  destruct (truthy _).
  - destruct (slice19 _); [| split; reflexivity].
    destruct (Clock.strptime _); split; reflexivity || discriminate.
  - split; reflexivity || discriminate.
Qed.

Lemma registry_get_In (k : value) (d : list (value * Heater)) (h : Heater) :
  registry_get k d = Some h -> In h (map snd d).
Proof.
  induction d as [|[k' h'] r IH]; cbn; [discriminate |].
  destruct (scalar_eqb k' k).
  - intros H. injection H as ->. left. reflexivity.
  - intros H. right. apply IH. exact H.
Qed.

Lemma registry_set_Forall (P : Heater -> Prop) (k : value) (h : Heater)
      (d : list (value * Heater)) :
  P h ->
  Forall (fun kh => P (snd kh)) d ->
  Forall (fun kh => P (snd kh)) (registry_set k h d).
Proof.
  intros Ph. induction 1 as [|[k' h'] r Hx Hr IH]; cbn.
  - constructor; [exact Ph | constructor].
  - destruct (scalar_eqb k' k); constructor; assumption.
Qed.

Lemma discover_versions (device : value) (registry : list (value * Heater)) :
  Forall (fun kh => version_misplaced (snd kh)) registry ->
  Forall (fun kh => version_misplaced (snd kh)) (snd (discover device registry)).
Proof.
  intros Inv. unfold discover.
  cbv [bind eval ret raise fst snd].
  destruct (get device "deviceType") as [ty|]; [|exact Inv].
  destruct (scalar_eqb ty (PyInt ELDOM_DEVICE_TYPE_HEATER)); [|exact Inv].
  destruct (get device "realDeviceId") as [_id|]; [|exact Inv].
  destruct (hashable _id); [|exact Inv].
  destruct (registry_get _id registry) as [heater|] eqn:G.
  - pose proof (describe_versions device heater) as [V W].
    assert (P : version_misplaced heater).
    { apply registry_get_In in G. apply in_map_iff in G.
      destruct G as (kh & <- & I). rewrite Forall_forall in Inv.
      apply (Inv kh I). }
    destruct (describe device heater) as [r heater']. cbn [fst snd] in *.
    apply registry_set_Forall; [| exact Inv].
    destruct P as [P1 P2]. split; [congruence |].
    destruct r; [exact W | congruence].
  - pose proof (describe_versions device new_Heater) as [V W].
    destruct (describe device new_Heater) as [[u|e] heater'];
      cbn [fst snd] in *; [| exact Inv].
    apply registry_set_Forall; [| exact Inv].
    split; [exact V | exact W].
Qed.

Lemma for_each_discover_versions (devices : list value)
      (registry : list (value * Heater)) :
  Forall (fun kh => version_misplaced (snd kh)) registry ->
  Forall (fun kh => version_misplaced (snd kh))
         (snd (for_each discover devices registry)).
Proof.
  revert registry. induction devices as [|device rest IH]; intros registry Inv.
  - exact Inv.
  - cbn [for_each]. unfold bind.
    pose proof (discover_versions device registry Inv) as D.
    destruct (discover device registry) as [[u|e] registry'];
      cbn [snd] in *; [apply IH; exact D | exact D].
Qed.

Lemma gather_versions (tasks : list (value * Heater)) (wire : list request) :
  Forall (fun kh => version_misplaced (snd kh)) tasks ->
  Forall (fun kh => version_misplaced (snd kh))
         (snd (fst (gather net tasks wire))).
Proof.
  intros Inv. pose proof (gather_refreshes net tasks wire) as G.
  induction G as [|[k h] [k' h'] l l' [_ (w & E)] _ IH]; [constructor |].
  apply Forall_cons_iff in Inv. destruct Inv as [[P1 P2] Inv].
  constructor; [| apply IH; exact Inv].
  cbn [snd] in *. subst h'.
  destruct (fetch_heater_data_same_device net h w) as (_ & S1 & _ & _ & _ & S2).
  split; congruence.
Qed.

Lemma fetch_all_heaters_versions (st : MyEldom * list request) :
  Forall (fun kh => version_misplaced (snd kh)) (heaters (fst st)) ->
  Forall (fun kh => version_misplaced (snd kh))
         (heaters (fst (snd (fetch_all_heaters net st)))).
Proof.
  destruct st as [self wire]. cbn [fst]. intros Inv.
  destruct (heaters self) as [|kh rest] eqn:R.
  - unfold fetch_all_heaters.
    cbv [bind gets ret refresh_registry on_fst on_snd modify eval].
    cbn [fst snd]. rewrite R. cbn [is_empty fst snd].
    destruct (get_device_list net wire) as [[v|e] w]; cbn [fst snd];
      [| constructor].
    destruct (is_None v); cbn [negb fst snd].
    + cbn [heaters with_heaters gather fst snd]. constructor.
    + destruct (iter v) as [devices|e]; cbn [fst snd]; [| constructor].
      cbn [heaters with_heaters].
      pose proof (for_each_discover_versions devices [] (Forall_nil _)) as D.
      destruct (for_each discover devices []) as [[u|e] registry'];
        cbn [fst snd heaters with_heaters] in *; [| exact D].
      pose proof (gather_versions registry' w D) as G.
      destruct (gather net registry' w) as [[e hs'] w'].
      cbn [fst snd] in G.
      destruct e; cbn [fst snd heaters with_heaters]; exact G.
  - assert (NE : heaters self <> []) by (rewrite R; discriminate).
    rewrite (fetch_all_heaters_populated net _ _ NE).
    rewrite <- R in Inv.
    pose proof (gather_versions (heaters self) wire Inv) as G.
    destruct (gather net (heaters self) wire) as [[e hs'] w'].
    exact G.
Qed.

Lemma connect_keeps_heaters (retry : Z) (st : MyEldom * list request) :
  heaters (fst (snd (connect net retry st))) = heaters (fst st).
Proof.
  rewrite connect_is_login. destruct st as [self wire].
  destruct (first_response net self wire (Z.to_nat retry))
    as [All | (k & code & body & Hk & Hfail & Hresp)].
  - rewrite (_do_login_exhausted net (Z.to_nat retry) retry self wire eq_refl All).
    reflexivity.
  - rewrite (_do_login_answered net k retry self wire code body Hk Hfail Hresp).
    reflexivity.
Qed.

Lemma set_nth_Forall {A : Type} (P : A -> Prop) (n : nat) (x : A) (l : list A) :
  P x -> Forall P l -> Forall P (set_nth n x l).
Proof.
  intros Px H. revert n. induction H as [|y r Py Hr IH]; intros [|n]; cbn;
    constructor; auto.
Qed.

Lemma on_heater_versions {A : Type} (n : nat)
      (method : M (Heater * list request) A) (st : MyEldom * list request) :
  (forall h w, sw_version (fst (snd (method (h, w)))) = sw_version h /\
               swVersion (fst (snd (method (h, w)))) = swVersion h) ->
  Forall (fun kh => version_misplaced (snd kh)) (heaters (fst st)) ->
  Forall (fun kh => version_misplaced (snd kh))
         (heaters (fst (on_heater n method st))).
Proof.
  intros Keeps Inv. unfold on_heater.
  destruct (nth_error (heaters (fst st)) n) as [[k heater]|] eqn:N; [| exact Inv].
  pose proof (Keeps heater (snd st)) as [K1 K2].
  destruct (method (heater, snd st)) as [r [heater' wire']].
  cbn [fst snd heaters with_heaters] in *.
  apply set_nth_Forall; [| exact Inv].
  apply nth_error_In in N. rewrite Forall_forall in Inv.
  destruct (Inv _ N) as [P1 P2]. cbn [snd] in *.
  split; congruence.
Qed.

(** C10.  Whatever calls the host makes on a new client, every heater in
    the registry still has [sw_version] equal to [None]: discovery puts
    the reported version in the undeclared attribute [swVersion], which
    every registered heater carries, and no method assigns [sw_version]. *)
Theorem sw_version_is_never_set
        (email password : string) (now : nat) (wire : list request)
        (calls : list call) :
  Forall (fun kh => sw_version (snd kh) = PyNone /\ swVersion (snd kh) <> None)
         (heaters (fst (fold_left (perform net) calls
                                  (new_MyEldom email password now, wire)))).
Proof.
  change (Forall (fun kh => version_misplaced (snd kh))
            (heaters (fst (fold_left (perform net) calls
                                     (new_MyEldom email password now, wire))))).
  assert (Init : Forall (fun kh => version_misplaced (snd kh))
                   (heaters (fst (new_MyEldom email password now, wire))))
    by constructor.
  revert Init. generalize (new_MyEldom email password now, wire).
  induction calls as [|c rest IH]; intros st Inv; [exact Inv |].
  cbn [fold_left]. apply IH.
  destruct c as [retry| | | | |n|n t|n s]; cbn [perform].
  - rewrite connect_keeps_heaters. exact Inv.
  - unfold on_snd. destruct (get_user_info net (snd st)). exact Inv.
  - unfold on_snd. destruct (get_device_groups net (snd st)). exact Inv.
  - unfold on_snd. destruct (get_device_list net (snd st)). exact Inv.
  - apply fetch_all_heaters_versions. exact Inv.
  - apply on_heater_versions; [| exact Inv].
    intros h w.
    destruct (fetch_heater_data_same_device net h w) as (_ & S1 & _ & _ & _ & S2).
    auto.
  - apply on_heater_versions; [| exact Inv].
    intros h w.
    destruct (set_temperature_unfold net t h w) as (v & w' & _ & U).
    rewrite U. destruct (acknowledged v) as [[|]|]; split; reflexivity.
  - apply on_heater_versions; [| exact Inv].
    intros h w.
    destruct (set_state_unfold net s h w) as (v & w' & _ & U).
    rewrite U. destruct (acknowledged v); split; reflexivity.
Qed.

End Versions.

(* ===================================================================== *)
(** * A failure among the heaters *)
(* ===================================================================== *)

Section Replies.

Variable net : network.

Lemma get_reply_shift (c : text) (p : value) (wire : list request) (k : nat) :
  get_reply net c p (wire ++ [GET c p]) k = get_reply net c p wire (S k).
Proof. unfold get_reply. cbn [repeat]. rewrite <- app_assoc. reflexivity. Qed.

Lemma get_reply_first (c : text) (p : value) (wire : list request) :
  get_reply net c p wire 0 = net wire (GET c p).
Proof. unfold get_reply. cbn [repeat]. rewrite app_nil_r. reflexivity. Qed.

(** The run of a GET: [n + 1] attempts, [n] within the budget, all but
    the last timed out. *)
Lemma _get_request_run
        (c : text) (p : value) (retry : Z) (wire : list request) :
  exists n,
    (n <= Z.to_nat retry)%nat /\
    (forall k, (k < n)%nat -> get_reply net c p wire k = Timeout) /\
    _get_request net c p retry wire
    = (Return (reply_data (get_reply net c p wire n)),
       wire ++ repeat (GET c p) (S n)) /\
    (get_reply net c p wire n = Timeout -> n = Z.to_nat retry).
Proof.
  funelim (_get_request net c p retry wire).
  - exists 0%nat. rewrite get_reply_first, Heq.
    split; [lia |]. split; [intros k Hk; lia |].
    split; [reflexivity | discriminate].
  - exists 0%nat. rewrite get_reply_first, Heq.
    split; [lia |]. split; [intros k Hk; lia |].
    split; [reflexivity | discriminate].
  - exists 0%nat. rewrite get_reply_first, Heq0.
    split; [lia |]. split; [intros k Hk; lia |].
    split; [reflexivity | intros _; lia].
  - destruct H as (m & Hm & Late & Run & Last).
    exists (S m). rewrite <- get_reply_shift.
    split; [lia |]. split; [| split].
    + intros k Hk. destruct k as [|k].
      * rewrite get_reply_first. exact Heq0.
      * rewrite <- get_reply_shift. apply Late. lia.
    + rewrite Run, <- app_assoc. reflexivity.
    + intros T. specialize (Last T). lia.
Qed.

End Replies.

(** The data of a status request is what the reply to one of the
    attempts holds. *)
Lemma status_data_reply (net : network) (h : Heater) (wire : list request)
      (data : value) :
  fst (status_data net h wire) = Return data ->
  exists w, data = reply_data (net w (status_request h)).
Proof.
  unfold status_data, status_request.
  destruct (_get_request_run net (status_command h) (PyDict []) 3 wire)
    as (n & _ & _ & Run & _).
  rewrite Run. cbn [fst]. intros E. injection E as <-.
  exists (wire ++ repeat (GET (status_command h) (PyDict [])) n). reflexivity.
Qed.

(** C4.  A refresh that gets no data sets [available] to [False] and
    changes no other field.  And in a call of [fetch_all_heaters] on a
    populated registry that returns, the registry keeps its keys and
    every heater has had its own refresh, whatever the status requests of
    the others brought.  The data of a heater is what the reply to one of
    its own status requests holds: without data the heater is marked
    unavailable and is otherwise as it was, and with data it has every
    field of the reading the data decodes to.  Against a service that
    answers each request on its own, that is the reply to the heater's
    status request, in whatever order the requests are served. *)
Theorem fetch_failure_is_isolated (net : network) :
  (forall (h : Heater) (wire : list request),
      fst (status_data net h wire) = Return PyNone ->
      let h' := fst (snd (fetch_heater_data net (h, wire))) in
      fst (fetch_heater_data net (h, wire)) = Return false /\
      h' = with_available (Some false) h /\
      available h' = Some false /\
      hw_version h' = hw_version h /\ sw_version h' = sw_version h /\
      id h' = id h /\ last_updated h' = last_updated h /\
      name h' = name h /\ real_device_id h' = real_device_id h /\
      raw_data h' = raw_data h /\ state h' = state h /\
      power h' = power h /\ current_temp h' = current_temp h /\
      set_temp h' = set_temp h /\ pcb_temp h' = pcb_temp h /\
      open_window h' = open_window h /\ energy_day h' = energy_day h /\
      energy_night h' = energy_night h /\ energy_total h' = energy_total h /\
      swVersion h' = swVersion h) /\
  (forall (self self' : MyEldom) (wire wire' : list request)
          (result : list (value * Heater)),
      heaters self <> [] ->
      fetch_all_heaters net (self, wire) = (Return result, (self', wire')) ->
      heaters self' = result /\
      Forall2 (fun before after =>
                 fst after = fst before /\
                 exists w,
                   let data := reply_data (net w (status_request (snd before))) in
                   (is_None data = true ->
                    snd after = with_available (Some false) (snd before)) /\
                   (is_None data = false ->
                    exists rd, decode data = Return rd /\
                               snd after = refreshed rd (snd before)))
              (heaters self) result) /\
  (forall (answer : request -> reply) (self self' : MyEldom)
          (wire wire' : list request) (result : list (value * Heater)),
      heaters self <> [] ->
      fetch_all_heaters (stateless answer) (self, wire)
      = (Return result, (self', wire')) ->
      Forall2 (fun before after =>
                 fst after = fst before /\
                 let data := reply_data (answer (status_request (snd before))) in
                 (is_None data = true ->
                  snd after = with_available (Some false) (snd before)) /\
                 (is_None data = false ->
                  exists rd, decode data = Return rd /\
                             snd after = refreshed rd (snd before)))
              (heaters self) result).
Proof.
  assert (Together :
            forall (service : network) (self self' : MyEldom)
                   (wire wire' : list request) (result : list (value * Heater)),
              heaters self <> [] ->
              fetch_all_heaters service (self, wire)
              = (Return result, (self', wire')) ->
              heaters self' = result /\
              Forall2 (fun before after =>
                         fst after = fst before /\
                         exists w,
                           let data :=
                             reply_data (service w (status_request (snd before))) in
                           (is_None data = true ->
                            snd after = with_available (Some false) (snd before)) /\
                           (is_None data = false ->
                            exists rd, decode data = Return rd /\
                                       snd after = refreshed rd (snd before)))
                      (heaters self) result).
  { intros service self self' wire wire' result NE.
    rewrite (fetch_all_heaters_populated service _ _ NE).
    pose proof (gather_returned service (heaters self) wire) as G.
    destruct (gather service (heaters self) wire) as [[[x|] hs'] w''];
      [discriminate |].
    intros F. injection F as <- <- _. cbn [fst snd] in G.
    split; [reflexivity |]. specialize (G eq_refl).
    clear NE. induction G as [|before after l l' [K (w & data & S & Rest)] _ IH];
      [constructor |].
    constructor; [| exact IH].
    split; [exact K |].
    destruct (status_data_reply service _ _ _ S) as (w0 & ->).
    exists w0. exact Rest. }
  split; [| split].
  - intros h wire E h'.
    destruct (status_data net h wire) as [r w] eqn:S. cbn [fst] in E. subst r.
    subst h'. rewrite (fetch_heater_data_no_data net _ _ _ S). cbn [fst snd].
    repeat split.
  - exact (Together net).
  - intros answer self self' wire wire' result NE F.
    destruct (Together (stateless answer) self self' wire wire' result NE F)
      as [_ Each].
    clear F NE.
    induction Each as [|before after l l' [K (w & Rest)] _ IH];
      [constructor |].
    constructor; [| exact IH].
    split; [exact K | exact Rest].
Qed.

(* ===================================================================== *)
(** * The library models on small inputs *)
(* ===================================================================== *)

Example float_of_string_examples :
  float_of_string "21.5" = Some (S754_finite false 6051711999279104 (-48)) /\
  float_of_string " 1_0.5e1 " = Some (float_of_Z 105) /\
  float_of_string "-inf" = Some (S754_infinity true) /\
  float_of_string "1e400" = Some (S754_infinity false) /\
  float_of_string "1__0" = None /\
  float_of_string "a lot" = None /\
  float_of_string "" = None.
Proof. repeat split; vm_compute; reflexivity. Qed.

Example to_float_examples :
  to_float (PyInt 3) = Return (float_of_Z 3) /\
  to_float (PyBool true) = Return (float_of_Z 1) /\
  to_float (PyStr "2.25") = Return (float_of_decimal false 225 (-2)) /\
  to_float PyNone = Raise TypeError /\
  to_float (PyStr "warm") = Raise ValueError /\
  to_float (PyInt (10 ^ 400)) = Raise OverflowError.
Proof. repeat split; vm_compute; reflexivity. Qed.

Example loads_examples :
  Json.loads "null" = Some PyNone /\
  Json.loads " [1, -2, true, {}] " = Some (PyList [PyInt 1; PyInt (-2); PyBool true; PyDict []]) /\
  Json.loads (object_text [("a", "1"); ("b", "2.5"); ("a", Json.quote "x")])
  = Some (PyDict [("a", PyStr "x"); ("b", PyFloat (float_of_decimal false 25 (-1)))]) /\
  Json.loads "" = None /\
  Json.loads "<html>" = None /\
  Json.loads "[1,]" = None /\
  Json.loads "01" = None /\
  Json.loads "{} {}" = None.
Proof. repeat split; vm_compute; reflexivity. Qed.

Example strptime_examples :
  Clock.parse "2021-11-03T20:09:15"
  = Some (Clock.mkDatetime 2021 11 3 20 9 15) /\
  Clock.parse "2021-1-3t2:9:5" = Some (Clock.mkDatetime 2021 1 3 2 9 5) /\
  Clock.parse "2020-02-29T00:00:00" = Some (Clock.mkDatetime 2020 2 29 0 0 0) /\
  Clock.parse "2021-02-29T00:00:00" = None /\
  Clock.parse "2021-11-03T20:09:60" = None /\
  Clock.parse "2021-11-03T20:09:15Z" = None /\
  Clock.parse "yesterday" = None /\
  slice19 (PyStr "2021-11-03T20:09:15.1234567Z") = Return (PyStr "2021-11-03T20:09:15").
Proof. repeat split; vm_compute; reflexivity. Qed.

Example equality_examples :
  scalar_eqb (PyInt 4) (PyInt ELDOM_DEVICE_TYPE_HEATER) = true /\
  scalar_eqb (PyFloat (float_of_Z 4)) (PyInt ELDOM_DEVICE_TYPE_HEATER) = true /\
  scalar_eqb (PyStr "4") (PyInt ELDOM_DEVICE_TYPE_HEATER) = false /\
  scalar_eqb (PyBool true) (PyInt 1) = true /\
  scalar_eqb (PyFloat S754_nan) (PyFloat S754_nan) = false.
Proof. repeat split; vm_compute; reflexivity. Qed.

(* ===================================================================== *)
(** * The properties at work *)
(* ===================================================================== *)

(** ** Refreshing one heater *)

Lemma energy_total_is_day_plus_night_witness :
  fetch_heater_data (answers (envelope status_ok)) (living_room, [])
  = (Return true,
     (fst (snd (fetch_heater_data (answers (envelope status_ok)) (living_room, []))),
      [status_request living_room]))
  /\ exists data status d n,
      status_data (answers (envelope status_ok)) living_room []
      = (Return data, [status_request living_room]) /\
      status_payload data = Return status /\
      field_float status "EnergyD" = Return d /\
      field_float status "EnergyN" = Return n /\
      energy_day (fst (snd (fetch_heater_data (answers (envelope status_ok))
                              (living_room, [])))) = Some d /\
      energy_night (fst (snd (fetch_heater_data (answers (envelope status_ok))
                                (living_room, [])))) = Some n /\
      energy_total (fst (snd (fetch_heater_data (answers (envelope status_ok))
                                (living_room, [])))) = Some (fadd d n).
Proof.
  split; [vm_compute; reflexivity |].
  apply (energy_total_is_day_plus_night (answers (envelope status_ok))
           living_room _ [] _).
  vm_compute. reflexivity.
Defined.

(** 1.5 kWh by day and 2.25 kWh by night make 3.75 kWh, whatever the
    total was before. *)
Example energy_total_refreshed :
  energy_total living_room = Some (float_of_Z 7) /\
  energy_total (fst (snd (fetch_heater_data (answers (envelope status_ok))
                            (living_room, []))))
  = Some (float_of_decimal false 375 (-2)).
Proof. split; vm_compute; reflexivity. Qed.

(** When the night counter is missing the refresh stops with a
    [TypeError] after the day counter has been stored, and the total is
    the old one. *)
Example energy_total_after_interrupted_refresh :
  let after := fetch_heater_data (answers (envelope status_no_night))
                 (living_room, []) in
  fst after = Raise TypeError /\
  energy_day (fst (snd after)) = Some (float_of_decimal false 15 (-1)) /\
  energy_night (fst (snd after)) = Some (float_of_Z 3) /\
  energy_total (fst (snd after)) = Some (float_of_Z 7).
Proof. repeat split; vm_compute; reflexivity. Qed.

(** The target temperature comes from [TimerSTempA] when the status text
    mentions it, from [SetTemp] otherwise. *)
Example target_temperature_selection :
  set_temp (fst (snd (fetch_heater_data
                        (answers (envelope (object_text
                           (("TimerSTempA", "18") :: readings))))
                        (living_room, []))))
  = Some (float_of_Z 18) /\
  set_temp (fst (snd (fetch_heater_data (answers (envelope status_no_date))
                        (living_room, []))))
  = Some (float_of_decimal false 215 (-1)).
Proof. split; vm_compute; reflexivity. Qed.


Example unparseable_timestamp_raises :
  let after := fetch_heater_data (answers (envelope status_bad_date))
                 (living_room, []) in
  fst after = Raise ValueError /\
  available (fst (snd after)) = Some true /\
  energy_total (fst (snd after)) = Some (float_of_decimal false 375 (-2)).
Proof. repeat split; vm_compute; reflexivity. Qed.


(** C3, as worded, fails: an envelope without [objectJson] raises
    [KeyError]. *)
Lemma missing_objectJson_raises : ~ always_returns_a_boolean.
Proof.
  intros Said.
  destruct (Said (answers "{}") living_room []) as [b H].
  vm_compute in H. discriminate H.
Qed.

(** The other payloads it names raise too. *)
Example refresh_exceptions :
  fst (fetch_heater_data (answers "{}") (living_room, [])) = Raise KeyError /\
  fst (fetch_heater_data (answers (envelope "<html>")) (living_room, []))
  = Raise JSONDecodeError /\
  fst (fetch_heater_data (answers (envelope status_text_energy)) (living_room, []))
  = Raise ValueError /\
  fst (fetch_heater_data (answers (envelope status_no_night)) (living_room, []))
  = Raise TypeError /\
  fst (fetch_heater_data (answers (envelope status_bad_date)) (living_room, []))
  = Raise ValueError.
Proof. repeat split; vm_compute; reflexivity. Qed.

(** And the failures of the request itself give [False]. *)
Lemma fetch_heater_data_outcome_witness :
  fst (fetch_heater_data (scripted [ClientError]) (living_room, [])) = Return false /\
  fst (fetch_heater_data (scripted [Timeout; Timeout; Timeout; Timeout])
         (living_room, [])) = Return false /\
  fst (fetch_heater_data (answers "") (living_room, [])) = Return false /\
  fst (fetch_heater_data (answers "<html>") (living_room, [])) = Return false /\
  fst (fetch_heater_data (answers "null") (living_room, [])) = Return false.
Proof.
  split; [| split; [| split; [| split]]].
  - destruct (fetch_heater_data_outcome (scripted [ClientError]) living_room [])
      as (_ & Refused & _).
    apply Refused. reflexivity.
  - destruct (fetch_heater_data_outcome
                (scripted [Timeout; Timeout; Timeout; Timeout]) living_room [])
      as (_ & _ & Late & _).
    apply Late. intros k Hk.
    destruct k as [|[|[|[|k]]]];
      [reflexivity | reflexivity | reflexivity | reflexivity | lia].
  - destruct (fetch_heater_data_outcome (answers "") living_room [])
      as (_ & _ & _ & Body).
    apply (Body 200 ""); [reflexivity | left; reflexivity].
  - destruct (fetch_heater_data_outcome (answers "<html>") living_room [])
      as (_ & _ & _ & Body).
    apply (Body 200 "<html>"); [reflexivity | right; left; reflexivity].
  - destruct (fetch_heater_data_outcome (answers "null") living_room [])
      as (_ & _ & _ & Body).
    apply (Body 200 "null"); [reflexivity | right; right; reflexivity].
Defined.

(** ** Refreshing the registry *)

(** Of three known heaters the second cannot be reached: it is marked
    unavailable and keeps the readings it had, the first and the third get
    the new ones, and the call completes. *)
Example second_heater_fails :
  let call := fetch_all_heaters second_unreachable (three_heaters, []) in
  let readings_of (h : Heater) := (available h, energy_total h, set_temp h) in
  (exists registry, fst call = Return registry) /\
  map (fun kh => (fst kh, readings_of (snd kh))) (heaters (fst (snd call)))
  = [(PyStr "D1", (Some true, Some (float_of_decimal false 375 (-2)),
                   Some (float_of_decimal false 215 (-1))));
     (PyStr "D2", (Some false, Some (float_of_Z 7), Some (float_of_Z 19)));
     (PyStr "D3", (Some true, Some (float_of_decimal false 375 (-2)),
                   Some (float_of_decimal false 215 (-1))))] /\
  nth_error (heaters (fst (snd call))) 1
  = Some (PyStr "D2", with_available (Some false) (known_heater 2 "D2")).
Proof.
  split; [eexists; vm_compute; reflexivity |].
  split; vm_compute; reflexivity.
Qed.

Lemma fetch_failure_is_isolated_witness :
  fst (status_data second_unreachable (known_heater 2 "D2") []) = Return PyNone /\
  fst (snd (fetch_heater_data second_unreachable (known_heater 2 "D2", [])))
  = with_available (Some false) (known_heater 2 "D2") /\
  heaters three_heaters <> [] /\
  fst (fetch_all_heaters second_unreachable (three_heaters, []))
  = Return (heaters (fst (snd (fetch_all_heaters second_unreachable
                                 (three_heaters, []))))) /\
  Forall2 (fun before after =>
             fst after = fst before /\
             let data := reply_data (second_unreachable []
                                       (status_request (snd before))) in
             (is_None data = true ->
              snd after = with_available (Some false) (snd before)) /\
             (is_None data = false ->
              exists rd, decode data = Return rd /\
                         snd after = refreshed rd (snd before)))
          (heaters three_heaters)
          (heaters (fst (snd (fetch_all_heaters second_unreachable
                                (three_heaters, []))))).
Proof.
  destruct (fetch_failure_is_isolated second_unreachable)
    as (Alone & _ & Served).
  split; [reflexivity |].
  split; [apply (Alone (known_heater 2 "D2") []); reflexivity |].
  split; [discriminate |].
  split; [vm_compute; reflexivity |].
  apply (Served (second_unreachable []) three_heaters
           (fst (snd (fetch_all_heaters second_unreachable (three_heaters, []))))
           []
           (snd (snd (fetch_all_heaters second_unreachable (three_heaters, []))))).
  - discriminate.
  - vm_compute. reflexivity.
Defined.

(** The first and the third heater have the reading of the status they
    were sent. *)
Example first_and_third_are_refreshed :
  exists rd,
    decode (body_data (envelope status_ok)) = Return rd /\
    map snd (heaters (fst (snd (fetch_all_heaters second_unreachable
                                  (three_heaters, [])))))
    = [refreshed rd (known_heater 1 "D1");
       with_available (Some false) (known_heater 2 "D2");
       refreshed rd (known_heater 3 "D3")].
Proof. eexists. split; vm_compute; reflexivity. Qed.

(** A second call finds the registry populated and asks for statuses only;
    the first call began with the device list. *)
Lemma discovery_only_when_registry_empty_witness :
  heaters three_heaters <> [] /\
  map fst (heaters (fst (snd (fetch_all_heaters healthy (three_heaters, [])))))
  = [PyStr "D1"; PyStr "D2"; PyStr "D3"] /\
  heaters login_as = [] /\
  exists rest,
    snd (snd (fetch_all_heaters healthy (login_as, [])))
    = [] ++ discovery_request :: rest.
Proof.
  destruct (discovery_only_when_registry_empty healthy three_heaters [])
    as [Populated _].
  destruct (discovery_only_when_registry_empty healthy login_as [])
    as [_ Empty].
  split; [discriminate |].
  split; [apply Populated; discriminate |].
  split; [reflexivity |].
  apply Empty. reflexivity.
Defined.

Example discovery_then_refresh :
  snd (snd (fetch_all_heaters healthy (login_as, [])))
  = [discovery_request; status_request living_room] /\
  snd (snd (fetch_all_heaters healthy (three_heaters, [])))
  = [status_request (known_heater 1 "D1"); status_request (known_heater 2 "D2");
     status_request (known_heater 3 "D3")].
Proof. split; vm_compute; reflexivity. Qed.

(** ** Logging in *)

(** Two time-outs and then a redirect: with a budget of two retries the
    third attempt succeeds; with a budget of one the login fails after the
    second attempt.  A refusal is final although budget remains. *)
Lemma connect_retry_policy_witness :
  (fst (connect (scripted [Timeout; Timeout; Response 302 ""]) 2 (login_as, []))
   = Return true /\
   snd (snd (connect (scripted [Timeout; Timeout; Response 302 ""]) 2 (login_as, [])))
   = [login_request login_as; login_request login_as; login_request login_as]) /\
  (fst (connect (scripted [Timeout; Timeout; Response 302 ""]) 1 (login_as, []))
   = Return false /\
   snd (snd (connect (scripted [Timeout; Timeout; Response 302 ""]) 1 (login_as, [])))
   = [login_request login_as; login_request login_as]) /\
  (fst (connect (scripted [Response 200 ""; Response 302 ""]) 2 (login_as, []))
   = Return false /\
   snd (snd (connect (scripted [Response 200 ""; Response 302 ""]) 2 (login_as, [])))
   = [login_request login_as]).
Proof.
  split; [| split].
  - destruct (connect_retry_policy (scripted [Timeout; Timeout; Response 302 ""])
                2 login_as []) as (_ & Answered & _).
    apply (Answered 2%nat 302 ""); [cbn; lia | | reflexivity].
    intros j Hj. destruct j as [|[|j]]; [reflexivity | reflexivity | lia].
  - destruct (connect_retry_policy (scripted [Timeout; Timeout; Response 302 ""])
                1 login_as []) as (_ & _ & Exhausted).
    apply Exhausted.
    intros j Hj. destruct j as [|[|j]]; [reflexivity | reflexivity | cbn in Hj; lia].
  - destruct (connect_retry_policy (scripted [Response 200 ""; Response 302 ""])
                2 login_as []) as (_ & Answered & _).
    apply (Answered 0%nat 200 ""); [cbn; lia | | reflexivity].
    intros j Hj. lia.
Defined.

(** ** Commands *)

Lemma set_temperature_on_acknowledgement_witness :
  (fst (set_temperature (answers status_true) half_degree_up (living_room, []))
   = Return true /\
   fst (snd (set_temperature (answers status_true) half_degree_up (living_room, [])))
   = with_set_temp (Some half_degree_up) living_room) /\
  (fst (set_temperature (answers status_false) half_degree_up (living_room, []))
   = Return false /\
   fst (snd (set_temperature (answers status_false) half_degree_up (living_room, [])))
   = living_room) /\
  (fst (set_temperature (answers "5") half_degree_up (living_room, []))
   = Raise TypeError /\
   fst (snd (set_temperature (answers "5") half_degree_up (living_room, [])))
   = living_room).
Proof.
  destruct (set_temperature_on_acknowledgement (answers status_true)
              half_degree_up living_room []) as (Ack & Sets & _).
  destruct (set_temperature_on_acknowledgement (answers status_false)
              half_degree_up living_room []) as (_ & _ & Keeps & _ & Refused & _).
  destruct (set_temperature_on_acknowledgement (answers "5")
              half_degree_up living_room [])
    as (_ & _ & Untouched & (v & Got & Otherwise) & _).
  assert (Yes : fst (set_temperature (answers status_true) half_degree_up
                       (living_room, [])) = Return true).
  { apply Ack. exists [("status", PyBool true)]. split; reflexivity. }
  assert (No : fst (set_temperature (answers status_false) half_degree_up
                      (living_room, [])) = Return false).
  { apply (Refused [("status", PyBool false)]); [reflexivity | discriminate]. }
  assert (Fails : fst (set_temperature (answers "5") half_degree_up
                         (living_room, [])) = Raise TypeError).
  { assert (V : v = PyInt 5) by (vm_compute in Got; congruence).
    rewrite Otherwise; [rewrite V; reflexivity |].
    intros (d & D & _). vm_compute in D. discriminate D. }
  split; [| split]; split.
  - exact Yes.
  - apply Sets. exact Yes.
  - exact No.
  - apply Keeps. rewrite No. discriminate.
  - exact Fails.
  - apply Untouched. rewrite Fails. discriminate.
Defined.

(** C7, as worded, fails: to the response [5] the call answers with a
    [TypeError], not with [False]. *)
Lemma number_response_raises : ~ failure_otherwise.
Proof.
  intros Said.
  specialize (Said (answers "5") half_degree_up living_room []).
  assert (No : ~ acknowledges
                 (fst (temperature_response (answers "5") living_room
                         half_degree_up []))).
  { intros (d & D & _). vm_compute in D. discriminate D. }
  specialize (Said No). vm_compute in Said. discriminate Said.
Qed.

(** The membership test raises on a number; on a string and on a list it
    passes when they contain [status], and the subscript raises.  The
    record is untouched. *)
Example set_temperature_on_a_number :
  set_temperature (answers "5") half_degree_up (living_room, [])
  = (Raise TypeError,
     (living_room,
      [POST (Lit "/api/panelconvector/setTemperature")
         (temperature_payload living_room half_degree_up)])).
Proof. vm_compute. reflexivity. Qed.

Example set_temperature_on_other_values :
  map (fun body => fst (set_temperature (answers body) half_degree_up
                          (living_room, [])))
      ["true"; "false"; "0"; "0.5"; Json.quote "status: ok"; Json.quote "ok";
       "[" ++ Json.quote "status" ++ "]"; "[1]"; "[]"; "{}"]%string
  = [Raise TypeError; Return false; Return false; Raise TypeError;
     Raise TypeError; Return false; Raise TypeError; Return false;
     Return false; Return false].
Proof. vm_compute. reflexivity. Qed.

Example set_state_acknowledged :
  set_state (answers status_true) 0 (living_room, [])
  = (Return true,
     (living_room,
      [POST (Lit "/api/panelconvector/setState") (state_payload living_room 0)])).
Proof. vm_compute. reflexivity. Qed.

(** A command that times out is sent again as a GET, which the service
    here acknowledges. *)
Lemma post_timeout_retries_through_get_witness :
  scripted [Timeout; Response 200 status_true] []
    (POST (Lit "/api/panelconvector/setState") (state_payload living_room 1))
  = Timeout /\
  1 <= 3 /\
  snd (_post_request (scripted [Timeout; Response 200 status_true])
         (Lit "/api/panelconvector/setState") (state_payload living_room 1) 3 [])
  = [POST (Lit "/api/panelconvector/setState") (state_payload living_room 1);
     GET (Lit "/api/panelconvector/setState") (state_payload living_room 1)].
Proof.
  split; [reflexivity |]. split; [lia |].
  destruct (post_timeout_retries_through_get
              (scripted [Timeout; Response 200 status_true])
              (Lit "/api/panelconvector/setState") (state_payload living_room 1)
              3 [] eq_refl ltac:(lia)) as [Step _].
  rewrite Step. vm_compute. reflexivity.
Defined.

(** ** The software version *)

(** After discovery the reported version 25 sits in [swVersion]. *)
Example version_after_discovery :
  map (fun kh => (sw_version (snd kh), swVersion (snd kh)))
      (heaters (fst (fold_left (perform healthy)
                               [Connect 2; FetchAll; SetTemperature 0 half_degree_up;
                                SetState 0 1; Refresh 0; FetchAll]
                               (login_as, []))))
  = [(PyNone, Some (PyInt 25))].
Proof. vm_compute. reflexivity. Qed.

(* ===================================================================== *)
(** * More on the transport and the session *)
(* ===================================================================== *)

Section Attempts.

Variable net : network.

(** X1.  [_get_request] repeats its request only after a time-out and at
    most [retry] times: it makes [n + 1] attempts, [n] within the budget,
    all but the last timed out; the last one decides the result, and it
    is a time-out only when the budget is spent. *)
Theorem get_request_attempts
        (c : text) (p : value) (retry : Z) (wire : list request) :
  exists n,
    (n <= Z.to_nat retry)%nat /\
    (forall k, (k < n)%nat -> get_reply net c p wire k = Timeout) /\
    _get_request net c p retry wire
    = (Return (reply_data (get_reply net c p wire n)),
       wire ++ repeat (GET c p) (S n)) /\
    (get_reply net c p wire n = Timeout -> n = Z.to_nat retry).
Proof. exact (_get_request_run net c p retry wire). Qed.

(** X2.  [_post_request] sends its POST once.  Unless that attempt times
    out with budget left it is the only request, and its reply decides the
    result; otherwise everything that follows is a GET of the same
    command and payload, at most [retry] of them. *)
Theorem post_request_attempts
        (c : text) (p : value) (retry : Z) (wire : list request) :
  exists n,
    (n <= Z.to_nat retry)%nat /\
    snd (_post_request net c p retry wire)
    = wire ++ POST c p :: repeat (GET c p) n /\
    (net wire (POST c p) <> Timeout \/ retry < 1 ->
     n = 0%nat /\
     fst (_post_request net c p retry wire)
     = Return (reply_data (net wire (POST c p)))).
Proof.
  unfold _post_request.
  destruct (net wire (POST c p)) as [ | |code body] eqn:E.
  - destruct (retry <? 1) eqn:L.
    + exists 0%nat. split; [lia |]. split; [reflexivity |].
      intros _. split; reflexivity.
    + apply Z.ltb_ge in L.
      destruct (_get_request_run net c p (retry - 1) (wire ++ [POST c p]))
        as (n & Hn & _ & Run & _).
      exists (S n). rewrite Run. cbn [snd].
      split; [lia |]. split; [rewrite <- app_assoc; reflexivity |].
      intros [H | H]; [contradiction H; reflexivity | lia].
  - exists 0%nat. split; [lia |]. split; [reflexivity |].
    intros _. split; reflexivity.
  - exists 0%nat. split; [lia |]. split; [reflexivity |].
    intros _. split; reflexivity.
Qed.

(** X3.  [connect] leaves the credentials and the registry alone and
    sends nothing but its login request, between one and [retry + 1]
    times; [last_login_attempt] ends as the time of the last attempt made,
    whether the login succeeded or not. *)
Theorem connect_records_last_attempt
        (retry : Z) (self : MyEldom) (wire : list request) :
  let self' := fst (snd (connect net retry (self, wire))) in
  let wire' := snd (snd (connect net retry (self, wire))) in
  _email self' = _email self /\
  _password self' = _password self /\
  heaters self' = heaters self /\
  (exists n, (n <= Z.to_nat retry)%nat /\
             wire' = wire ++ repeat (login_request self) (S n)) /\
  S (last_login_attempt self') = List.length wire'.
Proof.
  intros self' wire'. subst self' wire'.
  rewrite connect_is_login.
  destruct (first_response net self wire (Z.to_nat retry))
    as [All | (k & code & body & Hk & Hfail & Hresp)].
  - rewrite (_do_login_exhausted net (Z.to_nat retry) retry self wire eq_refl All).
    cbn [fst snd with_last_login_attempt _email _password heaters last_login_attempt].
    repeat split.
    + exists (Z.to_nat retry). split; [lia | reflexivity].
    + rewrite length_app, repeat_length. lia.
  - rewrite (_do_login_answered net k retry self wire code body Hk Hfail Hresp).
    cbn [fst snd with_last_login_attempt _email _password heaters last_login_attempt].
    repeat split.
    + exists k. split; [lia | reflexivity].
    + rewrite length_app, repeat_length. lia.
Qed.

End Attempts.

(* ===================================================================== *)
(** * More on a refresh *)
(* ===================================================================== *)

Section RefreshMore.

Variable net : network.

Lemma set_temperature_same_device (t : float) (h : Heater) (wire : list request) :
  same_device h (fst (snd (set_temperature net t (h, wire)))).
Proof.
  destruct (set_temperature_unfold net t h wire) as (v & w & _ & U).
  rewrite U. destruct (acknowledged v) as [[|]|]; repeat split.
Qed.

Lemma set_state_same_device (s : Z) (h : Heater) (wire : list request) :
  same_device h (fst (snd (set_state net s (h, wire)))).
Proof.
  destruct (set_state_unfold net s h wire) as (v & w & _ & U).
  rewrite U. destruct (acknowledged v); repeat split.
Qed.

(** X4.  None of the per-heater methods touches the fields that say which
    device a record stands for, whatever the method returns or raises:
    hardware and software version, internal id, name, real device id. *)
Theorem methods_keep_identity (h : Heater) (wire : list request) :
  same_device h (fst (snd (fetch_heater_data net (h, wire)))) /\
  (forall t, same_device h (fst (snd (set_temperature net t (h, wire))))) /\
  (forall s, same_device h (fst (snd (set_state net s (h, wire))))).
Proof.
  split; [apply fetch_heater_data_same_device |]. split.
  - intros t. apply set_temperature_same_device.
  - intros s. apply set_state_same_device.
Qed.

(** The status text behind a decoded envelope. *)
Lemma status_payload_text (data status : value) :
  status_payload data = Return status ->
  exists text,
    getitem data "objectJson" = Return (PyStr text) /\
    Json.loads text = Some status.
Proof.
  unfold status_payload.
  destruct (getitem data "objectJson") as [oj|]; [|discriminate].
  destruct oj as [ | | | |s| | ]; try discriminate. cbn [Json.loads_value].
  destruct (Json.loads s) as [st|] eqn:L; [|discriminate].
  intros H. injection H as <-. exists s. auto.
Qed.

(** X5.  After a refresh that completes, the target temperature is
    [float] of the status object's [TimerSTempA] when the status text
    contains the characters [TimerSTempA] anywhere, and of its [SetTemp]
    otherwise. *)
Theorem target_temperature_source
        (h h' : Heater) (wire wire' : list request) :
  fetch_heater_data net (h, wire) = (Return true, (h', wire')) ->
  exists data text status t,
    status_data net h wire = (Return data, wire') /\
    getitem data "objectJson" = Return (PyStr text) /\
    Json.loads text = Some status /\
    to_float (field status (if substring_of "TimerSTempA" text
                            then "TimerSTempA" else "SetTemp")) = Return t /\
    set_temp h' = Some t.
Proof.
  intros H.
  destruct (fetch_heater_data_true_inv net _ _ _ _ H) as (data & rd & E & _ & D & ->).
  destruct (decode_inv _ _ D) as (Hs & (k & Hk & Hf) & _).
  destruct (status_payload_text _ _ Hs) as (text & G & L).
  exists data, text, (r_status rd), (r_target rd).
  split; [exact E |]. split; [exact G |]. split; [exact L |].
  split; [| reflexivity].
  unfold target_field in Hk. rewrite G in Hk. cbn [contains] in Hk.
  unfold field_float in Hf. unfold field.
  destruct (substring_of "TimerSTempA" text); injection Hk as <-;
    destruct (get (r_status rd) _); solve [exact Hf | discriminate Hf].
Qed.

(** A GET of [retry] 3 sends between one and four requests. *)
Lemma fetch_heater_data_count (h : Heater) (wire : list request) :
  exists sent,
    snd (snd (fetch_heater_data net (h, wire))) = wire ++ sent /\
    (1 <= List.length sent <= 4)%nat.
Proof.
  rewrite fetch_heater_data_wire. unfold status_data.
  destruct (_get_request_run net (status_command h) (PyDict []) 3 wire)
    as (n & Hn & _ & Run & _).
  rewrite Run. exists (repeat (GET (status_command h) (PyDict [])) (S n)).
  split; [reflexivity |]. rewrite repeat_length.
  change (Z.to_nat 3) with 3%nat in Hn. lia.
Qed.

Lemma gather_count (tasks : list (value * Heater)) (wire : list request) :
  exists sent,
    snd (gather net tasks wire) = wire ++ sent /\
    (List.length tasks <= List.length sent <= 4 * List.length tasks)%nat.
Proof.
  revert wire. induction tasks as [|[k h] rest IH]; intros wire; cbn [gather].
  - exists []. rewrite app_nil_r. split; [reflexivity | cbn; lia].
  - destruct (fetch_heater_data_count h wire) as (s1 & W & B).
    destruct (fetch_heater_data net (h, wire)) as [r [h' w']].
    cbn [fst snd] in W. subst w'.
    destruct (IH (wire ++ s1)) as (s2 & E & B2).
    destruct (gather net rest (wire ++ s1)) as [[e rest'] w''].
    cbn [fst snd] in *. subst w''.
    exists (s1 ++ s2). split; [rewrite app_assoc; reflexivity |].
    rewrite length_app. cbn [List.length]. lia.
Qed.

(** X6.  Refreshing a registry of [n] heaters sends at least [n] and at
    most [4 n] requests. *)
Theorem refresh_request_count (self : MyEldom) (wire : list request) :
  heaters self <> [] ->
  exists sent,
    snd (snd (fetch_all_heaters net (self, wire))) = wire ++ sent /\
    (List.length (heaters self) <= List.length sent
     <= 4 * List.length (heaters self))%nat.
Proof.
  intros NE. rewrite (fetch_all_heaters_populated net _ _ NE).
  destruct (gather_count (heaters self) wire) as (sent & E & B).
  destruct (gather net (heaters self) wire) as [[e hs'] w'].
  cbn [fst snd] in *. exists sent. auto.
Qed.

End RefreshMore.

(** X7.  Against a service that answers each request on its own, a
    refresh that returns is idempotent: refreshing the record again returns
    the same and changes nothing more. *)
Theorem refresh_idempotent
        (answer : request -> reply) (h h' : Heater) (b : bool)
        (wire wire' wire2 : list request) :
  fetch_heater_data (stateless answer) (h, wire) = (Return b, (h', wire')) ->
  fst (fetch_heater_data (stateless answer) (h', wire2)) = Return b /\
  fst (snd (fetch_heater_data (stateless answer) (h', wire2))) = h'.
Proof.
  intros H.
  pose (data := reply_data (answer (GET (status_command h) (PyDict [])))).
  assert (First : exists w, status_data (stateless answer) h wire = (Return data, w)).
  { unfold status_data. 
    pose proof (_get_request_stateless answer (status_command h) (PyDict []) 3 wire) as F.
    destruct (_get_request (stateless answer) (status_command h) (PyDict []) 3 wire)
      as [r w]. cbn [fst] in F. subst r. exists w. reflexivity. }
  destruct First as (w & First).
  assert (Same : id h' = id h).
  { pose proof (fetch_heater_data_same_device (stateless answer) h wire) as S.
    rewrite H in S. cbn [fst snd] in S. destruct S as (_ & _ & S & _). exact S. }
  assert (Again : exists w2, status_data (stateless answer) h' wire2 = (Return data, w2)).
  { unfold status_data, status_command. rewrite Same.
    pose proof (_get_request_stateless answer (Format "/api/panelconvector/" (id h))
                  (PyDict []) 3 wire2) as F.
    destruct (_get_request (stateless answer) (Format "/api/panelconvector/" (id h))
                (PyDict []) 3 wire2) as [r w2].
    cbn [fst] in F. subst r. exists w2. reflexivity. }
  destruct Again as (w2 & Again).
  destruct (is_None data) eqn:N.
  - destruct data; try discriminate N.
    rewrite (fetch_heater_data_no_data _ _ _ _ First) in H.
    injection H as <- <- <-.
    rewrite (fetch_heater_data_no_data _ _ _ _ Again). split; reflexivity.
  - destruct (fetch_heater_data_decode _ _ _ _ _ First N) as (p1 & _ & F1).
    destruct (fetch_heater_data_decode _ _ _ _ _ Again N) as (p2 & _ & F2).
    rewrite F1 in H. rewrite F2.
    destruct (decode data) as [rd|e]; [| discriminate H].
    injection H as <- <- <-. cbn [fst snd]. split; [reflexivity |].
    unfold refreshed. cbn. destruct (r_stamp rd); reflexivity.
Qed.

(* ===================================================================== *)
(** * More on discovery *)
(* ===================================================================== *)

Section DiscoveryMore.

Variable net : network.

(** [fetch_all_heaters] on an empty registry, phase by phase. *)
Lemma fetch_all_heaters_empty (self : MyEldom) (wire : list request) :
  heaters self = [] ->
  fetch_all_heaters net (self, wire)
  = match get_device_list net wire with
    | (Raise e, w) => (Raise e, (with_heaters [] self, w))
    | (Return data, w) =>
        if is_None data then (Return [], (with_heaters [] self, w))
        else
          match iter data with
          | Raise e => (Raise e, (with_heaters [] self, w))
          | Return devices =>
              match for_each discover devices [] with
              | (Raise e, registry) => (Raise e, (with_heaters registry self, w))
              | (Return _, registry) =>
                  let '(e, heaters', w') := gather net registry w in
                  (match e with Some x => Raise x | None => Return heaters' end,
                   (with_heaters heaters' self, w'))
              end
          end
    end.
Proof.
  intros Em. unfold fetch_all_heaters.
  cbv [bind gets ret refresh_registry on_fst on_snd modify eval].
  cbn [fst snd]. rewrite Em. cbn [is_empty fst snd].
  destruct (get_device_list net wire) as [[data|e] w]; cbn [fst snd];
    [| reflexivity].
  destruct (is_None data); cbn [negb fst snd].
  - cbn [heaters with_heaters gather fst snd]. reflexivity.
  - destruct (iter data) as [devices|e]; cbn [fst snd]; [| reflexivity].
    cbn [heaters with_heaters].
    destruct (for_each discover devices []) as [[u|e] registry];
      cbn [fst snd heaters with_heaters]; [| reflexivity].
    destruct (gather net registry w) as [[[x|] hs'] w']; reflexivity.
Qed.

(** [d[k] = h] adds the key at the end when it is new and changes no key
    otherwise. *)
Lemma registry_set_keys (k : value) (h : Heater) (d : list (value * Heater)) :
  keys (registry_set k h d)
  = match registry_get k d with
    | Some _ => keys d
    | None => keys d ++ [k]
    end.
Proof.
  unfold keys. induction d as [|[k' h'] r IH]; cbn; [reflexivity |].
  destruct (scalar_eqb k' k); cbn; [reflexivity |].
  rewrite IH. destruct (registry_get k r); reflexivity.
Qed.

(** One turn of the discovery loop: the keys stay, or the listed id of a
    heater comes last. *)
Lemma discover_keys (device : value) (registry : list (value * Heater)) :
  keys (snd (discover device registry)) = keys registry \/
  exists k,
    is_heater device = true /\
    get device "realDeviceId" = Return k /\
    registry_get k registry = None /\
    fst (discover device registry) = Return tt /\
    keys (snd (discover device registry)) = keys registry ++ [k].
Proof.
  unfold discover, is_heater.
  cbv [bind eval ret raise]. cbn [fst snd].
  destruct (get device "deviceType") as [ty|]; [| left; reflexivity].
  destruct (scalar_eqb ty (PyInt ELDOM_DEVICE_TYPE_HEATER)); [| left; reflexivity].
  destruct (get device "realDeviceId") as [_id|]; [| left; reflexivity].
  destruct (hashable _id); [| left; reflexivity].
  destruct (registry_get _id registry) as [heater|] eqn:G.
  - left. destruct (describe device heater) as [r heater']. cbn [snd].
    rewrite registry_set_keys, G. reflexivity.
  - destruct (describe device new_Heater) as [[[]|e] heater']; cbn [fst snd];
      [| left; reflexivity].
    right. exists _id. rewrite registry_set_keys, G. auto.
Qed.

Lemma for_each_discover_sound (devices : list value)
      (registry : list (value * Heater)) (k : value) :
  In k (keys (snd (for_each discover devices registry))) ->
  In k (keys registry) \/
  exists device,
    In device devices /\ is_heater device = true /\
    get device "realDeviceId" = Return k.
Proof.
  revert registry. induction devices as [|device rest IH]; intros registry I.
  - left. exact I.
  - cbn [for_each] in I. unfold bind in I.
    assert (Step : In k (keys (snd (discover device registry))) ->
                   In k (keys registry) \/
                   exists d, In d (device :: rest) /\ is_heater d = true /\
                             get d "realDeviceId" = Return k).
    { intros J. destruct (discover_keys device registry)
        as [E | (k' & Hh & Hg & _ & _ & E)]; rewrite E in J.
      - left. exact J.
      - apply in_app_or in J. destruct J as [J | [<- | []]].
        + left. exact J.
        + right. exists device. split; [left; reflexivity | auto]. }
    destruct (discover device registry) as [[u|e] registry']; cbn [snd] in *.
    + destruct (IH _ I) as [J | (d & Hd & Hh & Hg)].
      * apply Step. exact J.
      * right. exists d. split; [right; exact Hd | auto].
    + apply Step. exact I.
Qed.

(** X8.  Discovery registers nothing but heaters of the device list:
    every key the registry has after a call that found it empty is the
    [realDeviceId] of a listed device whose [deviceType] equals 4. *)
Theorem discovery_registers_listed_heaters
        (self : MyEldom) (wire : list request) (k : value) :
  heaters self = [] ->
  In k (keys (heaters (fst (snd (fetch_all_heaters net (self, wire)))))) ->
  exists data devices device,
    fst (get_device_list net wire) = Return data /\
    iter data = Return devices /\
    In device devices /\
    is_heater device = true /\
    get device "realDeviceId" = Return k.
Proof.
  intros Em. rewrite (fetch_all_heaters_empty _ _ Em).
  destruct (get_device_list net wire) as [[data|e] w]; cbn [fst snd];
    [| intros []].
  destruct (is_None data); [intros [] |].
  destruct (iter data) as [devices|e] eqn:It; [| intros []].
  pose proof (for_each_discover_sound devices [] k) as Sound.
  destruct (for_each discover devices []) as [[u|e] registry]; cbn [fst snd] in *.
  - pose proof (gather_keys net registry w) as K.
    destruct (gather net registry w) as [[e hs'] w'].
    cbn [fst snd heaters with_heaters] in *. unfold keys in *. rewrite K.
    intros I. destruct (Sound I) as [[] | (device & Hd & Hh & Hg)].
    exists data, devices, device. auto.
  - cbn [heaters with_heaters].
    intros I. destruct (Sound I) as [[] | (device & Hd & Hh & Hg)].
    exists data, devices, device. auto.
Qed.

End DiscoveryMore.

Section DiscoveryComplete.

Variable net : network.

Lemma registry_get_Some_key (k : value) (d : list (value * Heater)) (h : Heater) :
  registry_get k d = Some h ->
  exists k', In k' (keys d) /\ scalar_eqb k' k = true.
Proof.
  induction d as [|[k1 h1] r IH]; cbn; [discriminate |].
  destruct (scalar_eqb k1 k) eqn:E.
  - intros _. exists k1. auto.
  - intros G. destruct (IH G) as (k' & I & Q). exists k'. auto.
Qed.

(** A turn of the discovery loop that completes on a heater leaves its id
    among the keys: the very object when the key is new, an equal key
    when the registry had one. *)
Lemma discover_registers (device : value) (registry : list (value * Heater))
      (k : value) :
  fst (discover device registry) = Return tt ->
  is_heater device = true ->
  get device "realDeviceId" = Return k ->
  exists k',
    In k' (keys (snd (discover device registry))) /\
    (k' = k \/ scalar_eqb k' k = true).
Proof.
  unfold discover, is_heater.
  cbv [bind eval ret raise]. cbn [fst snd].
  destruct (get device "deviceType") as [ty|]; [| discriminate].
  intros R Ty Id. rewrite Ty in *. rewrite Id in *.
  destruct (hashable k); [| discriminate R].
  destruct (registry_get k registry) as [heater|] eqn:G.
  - destruct (registry_get_Some_key _ _ _ G) as (k' & I & Q).
    exists k'. split; [| right; exact Q].
    destruct (describe device heater) as [r heater']. cbn [snd].
    rewrite registry_set_keys, G. exact I.
  - destruct (describe device new_Heater) as [[[]|e] heater']; cbn [fst snd] in *;
      [| discriminate R].
    exists k. split; [| left; reflexivity].
    rewrite registry_set_keys, G. apply in_or_app. right. left. reflexivity.
Qed.

Lemma for_each_discover_mono (devices : list value)
      (registry : list (value * Heater)) (k : value) :
  In k (keys registry) ->
  In k (keys (snd (for_each discover devices registry))).
Proof.
  revert registry. induction devices as [|device rest IH]; intros registry I.
  - exact I.
  - cbn [for_each]. unfold bind.
    assert (J : In k (keys (snd (discover device registry)))).
    { destruct (discover_keys device registry) as [E | (k' & _ & _ & _ & _ & E)];
        rewrite E; [exact I | apply in_or_app; left; exact I]. }
    destruct (discover device registry) as [[u|e] registry']; cbn [snd] in *.
    + apply IH. exact J.
    + exact J.
Qed.

Lemma for_each_discover_complete (devices : list value)
      (registry : list (value * Heater)) (device k : value) :
  fst (for_each discover devices registry) = Return tt ->
  In device devices ->
  is_heater device = true ->
  get device "realDeviceId" = Return k ->
  exists k',
    In k' (keys (snd (for_each discover devices registry))) /\
    (k' = k \/ scalar_eqb k' k = true).
Proof.
  revert registry. induction devices as [|d rest IH]; intros registry R I Hh Hg.
  - destruct I.
  - cbn [for_each] in *. unfold bind in *.
    pose proof (discover_registers d registry k) as Here.
    destruct (discover d registry) as [[[]|e] registry']; cbn [fst snd] in *;
      [| discriminate R].
    destruct I as [-> | I].
    + destruct (Here eq_refl Hh Hg) as (k' & J & Q).
      exists k'. split; [| exact Q]. apply for_each_discover_mono. exact J.
    + apply IH; assumption.
Qed.

(** X9.  A call that finds the registry empty and returns has registered
    every heater of the device list: each listed device whose
    [deviceType] equals 4 has its [realDeviceId], or a key equal to it,
    among the keys of the result. *)
Theorem discovery_registers_every_heater
        (self self' : MyEldom) (wire wire' : list request)
        (result : list (value * Heater)) (data : value)
        (devices : list value) (device k : value) :
  heaters self = [] ->
  fetch_all_heaters net (self, wire) = (Return result, (self', wire')) ->
  fst (get_device_list net wire) = Return data ->
  iter data = Return devices ->
  In device devices ->
  is_heater device = true ->
  get device "realDeviceId" = Return k ->
  exists k', In k' (keys result) /\ (k' = k \/ scalar_eqb k' k = true).
Proof.
  intros Em. rewrite (fetch_all_heaters_empty net _ _ Em).
  destruct (get_device_list net wire) as [[data0|e] w]; cbn [fst snd];
    [| discriminate].
  intros F D It I Hh Hg. injection D as ->. rewrite It in F.
  destruct (is_None data) eqn:N.
  { destruct data; try discriminate N. discriminate It. }
  pose proof (for_each_discover_complete devices [] device k) as Complete.
  destruct (for_each discover devices []) as [[[]|e] registry]; cbn [fst snd] in *;
    [| discriminate F].
  pose proof (gather_keys net registry w) as K.
  destruct (gather net registry w) as [[[x|] hs'] w'']; [discriminate F |].
  injection F as <- _ _. cbn [fst snd] in K. unfold keys in *. rewrite K.
  apply Complete; auto.
Qed.

Lemma for_each_discover_none (devices : list value)
      (registry : list (value * Heater)) :
  Forall (fun device =>
            exists ty, get device "deviceType" = Return ty /\
                       scalar_eqb ty (PyInt ELDOM_DEVICE_TYPE_HEATER) = false)
         devices ->
  for_each discover devices registry = (Return tt, registry).
Proof.
  induction 1 as [|device rest (ty & G & Q) _ IH]; [reflexivity |].
  cbn [for_each]. unfold bind.
  assert (E : discover device registry = (Return tt, registry)).
  { unfold discover. cbv [bind eval ret]. rewrite G. cbn [fst snd].
    rewrite Q. reflexivity. }
  rewrite E. exact IH.
Qed.

(** X10.  A discovery that finds no heater, because the device list
    brought no data or lists no device of type 4, returns the empty
    dictionary and leaves the client as it was: the next call discovers
    again. *)
Theorem discovery_without_heaters
        (self : MyEldom) (wire : list request) (data : value) :
  heaters self = [] ->
  fst (get_device_list net wire) = Return data ->
  data = PyNone \/
  (exists devices,
      iter data = Return devices /\
      Forall (fun device =>
                exists ty, get device "deviceType" = Return ty /\
                           scalar_eqb ty (PyInt ELDOM_DEVICE_TYPE_HEATER) = false)
             devices) ->
  fetch_all_heaters net (self, wire)
  = (Return [], (self, snd (get_device_list net wire))).
Proof.
  intros Em. rewrite (fetch_all_heaters_empty net _ _ Em).
  destruct self as [email password hs now]. cbn [heaters] in Em. subst hs.
  destruct (get_device_list net wire) as [[data0|e] w]; cbn [fst snd];
    [| discriminate].
  intros D. injection D as ->. cbn [with_heaters].
  intros [-> | (devices & It & None)]; [reflexivity |].
  destruct (is_None data); [reflexivity |].
  rewrite It, (for_each_discover_none devices [] None).
  reflexivity.
Qed.

End DiscoveryComplete.

(* ===================================================================== *)
(** * What a call of [fetch_all_heaters] hands back *)
(* ===================================================================== *)

Section Outcome.

Variable net : network.

(** A refresh that returns has either marked the record unavailable or
    rewritten it from a reading. *)
Lemma fetch_heater_data_returned (h : Heater) (wire : list request) (b : bool) :
  fst (fetch_heater_data net (h, wire)) = Return b ->
  let h' := fst (snd (fetch_heater_data net (h, wire))) in
  (b = false /\ h' = with_available (Some false) h) \/
  (b = true /\ exists rd, h' = refreshed rd h).
Proof.
  destruct (status_data_returns net h wire) as (data & w & E).
  destruct (is_None data) eqn:N.
  - destruct data; try discriminate N.
    rewrite (fetch_heater_data_no_data _ _ _ _ E). cbn [fst snd].
    intros R. injection R as <-. left. auto.
  - destruct (fetch_heater_data_decode _ _ _ _ _ E N) as (partial & _ & F).
    rewrite F. destruct (decode data) as [rd|e]; cbn [fst snd]; [| discriminate].
    intros R. injection R as <-. right. split; [reflexivity |]. exists rd.
    reflexivity.
Qed.

Lemma fetch_heater_data_settles (h : Heater) (wire : list request) (b : bool) :
  fst (fetch_heater_data net (h, wire)) = Return b ->
  settled (fst (snd (fetch_heater_data net (h, wire)))).
Proof.
  intros R.
  destruct (fetch_heater_data_returned h wire b R) as [[_ ->] | [_ (rd & ->)]].
  - exists false. split; [reflexivity | discriminate].
  - unfold refreshed, settled. cbn [available last_updated].
    destruct (r_stamp rd).
    + exists true. split; [reflexivity | discriminate].
    + exists false. split; [reflexivity | discriminate].
Qed.

Lemma gather_outcome (tasks : list (value * Heater)) (wire : list request) :
  match fst (fst (gather net tasks wire)) with
  | None => Forall (fun kh => settled (snd kh)) (snd (fst (gather net tasks wire)))
  | Some e =>
      exists before k h after w,
        tasks = before ++ (k, h) :: after /\
        Forall (fun kh => exists w b,
                    fst (fetch_heater_data net (snd kh, w)) = Return b) before /\
        fst (fetch_heater_data net (h, w)) = Raise e
  end.
Proof.
  revert wire. induction tasks as [|[k h] rest IH]; intros wire; cbn [gather].
  - constructor.
  - pose proof (fetch_heater_data_settles h wire) as S.
    destruct (fetch_heater_data net (h, wire)) as [r [h' w']] eqn:F.
    specialize (IH w').
    destruct (gather net rest w') as [[e rest'] w''].
    cbn [fst snd] in *.
    destruct r as [b|x].
    + destruct e as [x|].
      * destruct IH as (before & k1 & h1 & after & w1 & -> & Fa & R).
        exists ((k, h) :: before), k1, h1, after, w1.
        split; [reflexivity |]. split; [| exact R].
        constructor; [| exact Fa]. exists wire, b. cbn [snd]. rewrite F.
        reflexivity.
      * constructor; [exact (S b eq_refl) | exact IH].
    + exists [], k, h, rest, wire. split; [reflexivity |].
      split; [constructor |]. rewrite F. reflexivity.
Qed.

(** The two ways [fetch_all_heaters] reaches its end. *)
Lemma fetch_all_heaters_phases (self : MyEldom) (wire : list request) :
  (exists e, fst (fetch_all_heaters net (self, wire)) = Raise e /\
             heaters self = [] /\
             (fst (get_device_list net wire) = Raise e \/
              exists data, fst (get_device_list net wire) = Return data /\
                (iter data = Raise e \/
                 exists devices, iter data = Return devices /\
                   fst (for_each discover devices []) = Raise e))) \/
  (exists registry w,
      fetch_all_heaters net (self, wire)
      = let '(e, heaters', w') := gather net registry w in
        (match e with Some x => Raise x | None => Return heaters' end,
         (with_heaters heaters' self, w'))).
Proof.
  destruct (heaters self) as [|kh r] eqn:Hs.
  - rewrite (fetch_all_heaters_empty net _ _ Hs).
    destruct (get_device_list net wire) as [[data|e] w]; cbn [fst snd].
    + destruct (is_None data).
      * right. exists [], w. reflexivity.
      * destruct (iter data) as [devices|e] eqn:It.
        -- destruct (for_each discover devices []) as [[u|e] registry] eqn:FE.
           ++ right. exists registry, w. reflexivity.
           ++ left. exists e. split; [reflexivity |]. split; [reflexivity |].
              right. exists data. split; [reflexivity |]. right.
              exists devices. split; [exact It |]. rewrite FE. reflexivity.
        -- left. exists e. split; [reflexivity |]. split; [reflexivity |].
           right. exists data. split; [reflexivity |]. left. exact It.
    + left. exists e. split; [reflexivity |]. split; [reflexivity |].
      left. reflexivity.
  - right. exists (heaters self), wire.
    apply fetch_all_heaters_populated. rewrite Hs. discriminate.
Qed.

(** X11.  The dictionary a call returns is the registry the client is
    left with, and every record in it has been through a refresh that
    returned: its [available] is a boolean, and a record that is
    available has a time of last update. *)
Theorem returned_heaters_are_settled
        (self self' : MyEldom) (wire wire' : list request)
        (result : list (value * Heater)) :
  fetch_all_heaters net (self, wire) = (Return result, (self', wire')) ->
  result = heaters self' /\
  Forall (fun kh => exists b, available (snd kh) = Some b /\
                              (b = true -> last_updated (snd kh) <> None))
         result.
Proof.
  destruct (fetch_all_heaters_phases self wire)
    as [(e & R & _) | (registry & w & ->)].
  - intros F. rewrite F in R. discriminate R.
  - pose proof (gather_outcome registry w) as G.
    destruct (gather net registry w) as [[[x|] hs'] w'']; [discriminate |].
    intros F. injection F as <- <- _. cbn [fst snd] in G.
    split; [reflexivity | exact G].
Qed.

End Outcome.

(** A refresh that raises had data, and decoding it raised. *)
Lemma fetch_heater_data_Raise_inv
      (net : network) (h : Heater) (wire : list request) (e : exn) :
  fst (fetch_heater_data net (h, wire)) = Raise e ->
  exists data,
    fst (status_data net h wire) = Return data /\
    is_None data = false /\
    decode data = Raise e.
Proof.
  destruct (fetch_heater_data_result net h wire) as (data & S & F).
  rewrite F. intros R. exists data. split; [exact S |].
  destruct (is_None data); [discriminate R |].
  split; [reflexivity |].
  destruct (decode data) as [rd|x]; [discriminate R | congruence].
Qed.

Lemma Forall2_In_left {A B : Type} (R : A -> B -> Prop) (l : list A)
      (l' : list B) (x : A) :
  Forall2 R l l' -> In x l -> exists y, In y l' /\ R x y.
Proof.
  induction 1 as [|a b l l' Rab _ IH]; intros I; [destruct I |].
  destruct I as [<- | I].
  - exists b. split; [left; reflexivity | exact Rab].
  - destruct (IH I) as (y & Iy & Rxy). exists y. split; [right; exact Iy | exact Rxy].
Qed.

(** X12.  With a populated registry, an exception of [fetch_all_heaters]
    is one that the refresh of a registered heater raised when it
    decoded the data in the reply to one of its own status requests.
    Against a service that
    answers each request on its own, the call raises exactly when the
    data in the reply to the status request of some registered heater
    does not decode. *)
Theorem refresh_exception_origin (net : network) :
  (forall (self : MyEldom) (wire : list request) (e : exn),
      heaters self <> [] ->
      fst (fetch_all_heaters net (self, wire)) = Raise e ->
      exists k h w,
        In (k, h) (heaters self) /\
        let data := reply_data (net w (status_request h)) in
        is_None data = false /\
        decode data = Raise e) /\
  (forall (answer : request -> reply) (self : MyEldom) (wire : list request),
      heaters self <> [] ->
      ((exists e, fst (fetch_all_heaters (stateless answer) (self, wire)) = Raise e)
       <->
       Exists (fun kh =>
                 let data := reply_data (answer (status_request (snd kh))) in
                 is_None data = false /\ exists e, decode data = Raise e)
              (heaters self))).
Proof.
  assert (Origin :
            forall (service : network) (self : MyEldom) (wire : list request)
                   (e : exn),
              heaters self <> [] ->
              fst (fetch_all_heaters service (self, wire)) = Raise e ->
              exists k h w,
                In (k, h) (heaters self) /\
                let data := reply_data (service w (status_request h)) in
                is_None data = false /\
                decode data = Raise e).
  { intros service self wire e NE.
    rewrite (fetch_all_heaters_populated service _ _ NE).
    pose proof (gather_outcome service (heaters self) wire) as G.
    destruct (gather service (heaters self) wire) as [[[x|] hs'] w''];
      cbn [fst snd] in *; [| discriminate].
    intros R. injection R as ->.
    destruct G as (before & k & h & after & w & Split & _ & F).
    destruct (fetch_heater_data_Raise_inv service h w e F) as (data & S & N & D).
    destruct (status_data_reply service _ _ _ S) as (w0 & ->).
    exists k, h, w0. split; [| split; assumption].
    rewrite Split. apply in_or_app. right. left. reflexivity. }
  split; [exact (Origin net) |].
  intros answer self wire NE. split.
  - intros (e & R).
    destruct (Origin (stateless answer) self wire e NE R)
      as (k & h & w & I & N & D).
    apply Exists_exists. exists (k, h). split; [exact I |]. cbn [snd].
    split; [exact N |]. exists e. exact D.
  - intros Fails. apply Exists_exists in Fails.
    destruct Fails as ([k h] & I & N & e & D). cbn [snd] in *.
    destruct (fst (fetch_all_heaters (stateless answer) (self, wire)))
      as [result|x] eqn:R; [| exists x; reflexivity].
    exfalso.
    rewrite (fetch_all_heaters_populated (stateless answer) _ _ NE) in R.
    pose proof (gather_returned (stateless answer) (heaters self) wire) as G.
    destruct (gather (stateless answer) (heaters self) wire)
      as [[[x|] hs'] w'']; cbn [fst snd] in *; [discriminate R |].
    destruct (Forall2_In_left _ _ _ _ (G eq_refl) I)
      as (after & _ & _ & w & data & S & _ & Decodes).
    cbn [snd] in *.
    unfold status_data in S. rewrite _get_request_stateless in S.
    injection S as <-. unfold status_request in *.
    destruct (Decodes N) as (rd & D' & _). rewrite D' in D. discriminate D.
Qed.

(* ===================================================================== *)
(** * The registry over the life of a client *)
(* ===================================================================== *)

Section Lifetime.

Variable net : network.

Lemma same_device_refl (h : Heater) : same_device h h.
Proof. repeat split. Qed.

Lemma same_device_trans (a b c : Heater) :
  same_device a b -> same_device b c -> same_device a c.
Proof.
  unfold same_device. intros (A1 & A2 & A3 & A4 & A5 & A6) (B1 & B2 & B3 & B4 & B5 & B6).
  repeat split; congruence.
Qed.

Lemma same_records_refl (r : list (value * Heater)) : same_records r r.
Proof.
  induction r as [|kh r IH]; constructor; [| exact IH].
  split; [reflexivity | apply same_device_refl].
Qed.

Lemma same_records_trans (a b c : list (value * Heater)) :
  same_records a b -> same_records b c -> same_records a c.
Proof.
  intros AB. revert c. induction AB as [|x y l l' [K S] _ IH]; intros c BC.
  - inversion BC. constructor.
  - inversion BC as [|y' z l1 l2 [K' S'] T]; subst. constructor.
    + split; [congruence | exact (same_device_trans _ _ _ S S')].
    + apply IH. exact T.
Qed.

Lemma same_records_keys (r r' : list (value * Heater)) :
  same_records r r' -> keys r' = keys r.
Proof.
  unfold keys. induction 1 as [|x y l l' [K _] _ IH]; [reflexivity |].
  cbn [map]. rewrite K, IH. reflexivity.
Qed.

Lemma same_records_well_keyed (r r' : list (value * Heater)) :
  same_records r r' -> well_keyed r -> well_keyed r'.
Proof.
  intros S [A D]. split.
  - clear D. induction S as [|x y l l' [K (_ & _ & _ & _ & R & _)] _ IH];
      [constructor |].
    inversion A as [|? ? Ax Al]; subst. constructor; [| exact (IH Al)].
    unfold agrees in *. rewrite K, R. exact Ax.
  - unfold distinct_keys. rewrite (same_records_keys _ _ S). exact D.
Qed.

Lemma gather_same_records (tasks : list (value * Heater)) (wire : list request) :
  same_records tasks (snd (fst (gather net tasks wire))).
Proof.
  revert wire. induction tasks as [|[k h] rest IH]; intros wire; cbn [gather].
  - constructor.
  - pose proof (fetch_heater_data_same_device net h wire) as S.
    destruct (fetch_heater_data net (h, wire)) as [r [h' w']].
    specialize (IH w').
    destruct (gather net rest w') as [[e rest'] w''].
    cbn [fst snd] in *. constructor; [| exact IH].
    split; [reflexivity | exact S].
Qed.

Lemma set_nth_same_records (n : nat) (k : value) (h h' : Heater)
      (r : list (value * Heater)) :
  nth_error r n = Some (k, h) ->
  same_device h h' ->
  same_records r (set_nth n (k, h') r).
Proof.
  intros N S. revert n N. induction r as [|x r IH]; intros [|n] N; cbn in *;
    try discriminate.
  - injection N as ->. constructor; [| apply same_records_refl].
    split; [reflexivity | exact S].
  - constructor; [| exact (IH n N)].
    split; [reflexivity | apply same_device_refl].
Qed.

Lemma on_heater_same_records {A : Type} (n : nat)
      (method : M (Heater * list request) A) (st : MyEldom * list request) :
  (forall h w, same_device h (fst (snd (method (h, w))))) ->
  same_records (heaters (fst st)) (heaters (fst (on_heater n method st))).
Proof.
  intros Keeps. unfold on_heater.
  destruct (nth_error (heaters (fst st)) n) as [[k heater]|] eqn:N;
    [| apply same_records_refl].
  specialize (Keeps heater (snd st)).
  destruct (method (heater, snd st)) as [r [heater' wire']].
  cbn [fst snd heaters with_heaters] in *.
  apply set_nth_same_records with (h := heater); assumption.
Qed.

(** A call on a client whose registry is populated. *)
Lemma perform_same_records (st : MyEldom * list request) (c : call) :
  heaters (fst st) <> [] ->
  same_records (heaters (fst st)) (heaters (fst (perform net st c))).
Proof.
  intros NE. destruct c as [retry| | | | |n|n t|n s]; cbn [perform].
  - rewrite connect_keeps_heaters. apply same_records_refl.
  - unfold on_snd. destruct (get_user_info net (snd st)). apply same_records_refl.
  - unfold on_snd. destruct (get_device_groups net (snd st)). apply same_records_refl.
  - unfold on_snd. destruct (get_device_list net (snd st)). apply same_records_refl.
  - destruct st as [self wire]. cbn [fst snd] in *.
    rewrite (fetch_all_heaters_populated net _ _ NE).
    pose proof (gather_same_records (heaters self) wire) as G.
    destruct (gather net (heaters self) wire) as [[e hs'] w'].
    cbn [fst snd heaters with_heaters] in *. exact G.
  - apply on_heater_same_records. intros h w.
    apply fetch_heater_data_same_device.
  - apply on_heater_same_records. intros h w.
    apply set_temperature_same_device.
  - apply on_heater_same_records. intros h w.
    apply set_state_same_device.
Qed.

Lemma calls_same_records (calls : list call) (st : MyEldom * list request) :
  heaters (fst st) <> [] ->
  same_records (heaters (fst st))
               (heaters (fst (fold_left (perform net) calls st))).
Proof.
  revert st. induction calls as [|c rest IH]; intros st NE; cbn [fold_left].
  - apply same_records_refl.
  - pose proof (perform_same_records st c NE) as Step.
    apply same_records_trans with (1 := Step). apply IH.
    intros E. rewrite E in Step. inversion Step as [E0 |]. apply NE.
    symmetry. exact E0.
Qed.

(** X13.  Once the registry holds a heater, no call changes its keys,
    their order, or the fields that say which device a record stands for:
    the client never looks at the device list again, so a heater added to
    the account, removed from it or renamed is not noticed. *)
Theorem registry_is_frozen (calls : list call) (st : MyEldom * list request) :
  heaters (fst st) <> [] ->
  Forall2 (fun before after =>
             fst after = fst before /\ same_device (snd before) (snd after))
          (heaters (fst st))
          (heaters (fst (fold_left (perform net) calls st))).
Proof.
  exact (calls_same_records calls st).
Qed.

(** ** Lookup by [real_device_id] *)

Lemma str_eq (s : string) (v : value) :
  scalar_eqb (PyStr s) v = true -> v = PyStr s.
Proof.
  destruct v; cbn; try discriminate.
  intros E. apply String.eqb_eq in E. congruence.
Qed.

Lemma well_keyed_lookup (r : list (value * Heater)) (n : nat) (s : string)
      (h : Heater) :
  well_keyed r ->
  nth_error r n = Some (PyStr s, h) ->
  registry_get (real_device_id h) r = Some h.
Proof.
  intros [A D]. unfold distinct_keys, keys in D.
  revert n. induction r as [|[k1 h1] r IH]; intros [|n] N; cbn in N;
    try discriminate.
  - injection N as -> ->. cbn [registry_get].
    inversion A as [|? ? Ax _]; subst. unfold agrees in Ax. cbn [fst snd] in Ax.
    destruct Ax as [<- | Q].
    + cbn [scalar_eqb]. rewrite String.eqb_refl. reflexivity.
    + rewrite Q. reflexivity.
  - inversion A as [|? ? _ Ar]; subst.
    cbn [map fst] in D. inversion D as [|? ? Fa Dr]; subst.
    assert (R : real_device_id h = PyStr s).
    { apply nth_error_In in N. rewrite Forall_forall in Ar.
      destruct (Ar _ N) as [E | Q]; cbn [fst snd] in *;
        [symmetry; exact E | exact (str_eq _ _ Q)]. }
    cbn [registry_get]. rewrite R.
    assert (Q : scalar_eqb k1 (PyStr s) = false).
    { rewrite Forall_forall in Fa. apply Fa.
      apply nth_error_In in N. apply (in_map fst) in N. exact N. }
    rewrite Q. rewrite <- R. exact (IH Ar Dr n N).
Qed.

Lemma registry_get_None_keys (k : value) (d : list (value * Heater)) :
  registry_get k d = None ->
  Forall (fun k' => scalar_eqb k' k = false) (keys d).
Proof.
  unfold keys. induction d as [|[k1 h1] r IH]; cbn; [constructor |].
  destruct (scalar_eqb k1 k) eqn:E; [discriminate |].
  intros G. constructor; [exact E | exact (IH G)].
Qed.

Lemma distinct_keys_snoc (l : list value) (k : value) :
  ForallOrdPairs (fun a b => scalar_eqb a b = false) l ->
  Forall (fun k' => scalar_eqb k' k = false) l ->
  ForallOrdPairs (fun a b => scalar_eqb a b = false) (l ++ [k]).
Proof.
  induction 1 as [|a l Fa _ IH]; intros F; cbn.
  - constructor; constructor.
  - inversion F as [|? ? Qa Fl]; subst. constructor; [| exact (IH Fl)].
    apply Forall_app. split; [exact Fa |]. constructor; [exact Qa | constructor].
Qed.

Lemma registry_set_agrees (k : value) (h : Heater) (d : list (value * Heater)) :
  (forall k', scalar_eqb k' k = true -> agrees (k', h)) ->
  agrees (k, h) ->
  Forall agrees d ->
  Forall agrees (registry_set k h d).
Proof.
  intros Upd New. induction 1 as [|[k1 h1] r A1 Ar IH]; cbn [registry_set].
  - constructor; [exact New | constructor].
  - destruct (scalar_eqb k1 k) eqn:E.
    + constructor; [exact (Upd k1 E) | assumption].
    + constructor; assumption.
Qed.

Lemma registry_set_found_agrees (k : value) (h0 h : Heater)
      (d : list (value * Heater)) :
  registry_get k d = Some h0 ->
  (forall k', agrees (k', h0) -> scalar_eqb k' k = true -> agrees (k', h)) ->
  Forall agrees d ->
  Forall agrees (registry_set k h d).
Proof.
  intros G Upd. induction 1 as [|[k1 h1] r A1 Ar IH];
    cbn [registry_set registry_get] in *; [discriminate G |].
  destruct (scalar_eqb k1 k) eqn:E.
  - injection G as ->. constructor; [exact (Upd k1 A1 E) | exact Ar].
  - constructor; [exact A1 | exact (IH G)].
Qed.

(** What discovery's assignments make of [real_device_id]. *)
Lemma describe_real_device_id (device : value) (h : Heater) :
  (fst (describe device h) = Return tt ->
   get device "realDeviceId"
   = Return (real_device_id (snd (describe device h)))) /\
  (real_device_id (snd (describe device h)) = real_device_id h \/
   get device "realDeviceId"
   = Return (real_device_id (snd (describe device h)))).
Proof.
  unfold describe.
  destruct device as [ | | | | | |d];
    cbv [bind eval modify ret fst snd get];
    try (split; [discriminate | left; reflexivity]).
  destruct (truthy _).
  - destruct (slice19 _); [| split; [discriminate | left; reflexivity]].
    destruct (Clock.strptime _); split;
      solve [reflexivity | discriminate | left; reflexivity | right; reflexivity].
  - split; [reflexivity | right; reflexivity].
Qed.

Lemma discover_well_keyed (device : value) (registry : list (value * Heater)) :
  well_keyed registry -> well_keyed (snd (discover device registry)).
Proof.
  intros Inv. unfold discover.
  cbv [bind eval ret raise]. cbn [fst snd].
  destruct (get device "deviceType") as [ty|]; [|exact Inv].
  destruct (scalar_eqb ty (PyInt ELDOM_DEVICE_TYPE_HEATER)); [|exact Inv].
  destruct (get device "realDeviceId") as [_id|] eqn:Id; [|exact Inv].
  destruct (hashable _id); [|exact Inv].
  destruct Inv as [A D].
  destruct (registry_get _id registry) as [heater|] eqn:G.
  - pose proof (describe_real_device_id device heater) as [_ R].
    destruct (describe device heater) as [r heater']. cbn [fst snd] in *.
    split.
    + apply registry_set_found_agrees with (h0 := heater); [exact G | | exact A].
      intros k' Old Q. unfold agrees in *. cbn [fst snd] in *.
      destruct R as [R | R].
      * rewrite R. exact Old.
      * rewrite Id in R. injection R as <-. right. exact Q.
    + unfold distinct_keys. rewrite registry_set_keys, G. exact D.
  - pose proof (describe_real_device_id device new_Heater) as [R _].
    destruct (describe device new_Heater) as [[[]|e] heater'];
      cbn [fst snd] in *; [| split; assumption].
    specialize (R eq_refl). rewrite Id in R. injection R as R.
    split.
    + apply registry_set_agrees; [| | exact A].
      * intros k' Q. right. cbn [fst snd]. rewrite <- R. exact Q.
      * left. exact R.
    + unfold distinct_keys. rewrite registry_set_keys, G.
      apply distinct_keys_snoc; [exact D |].
      apply registry_get_None_keys. exact G.
Qed.

Lemma for_each_discover_well_keyed (devices : list value)
      (registry : list (value * Heater)) :
  well_keyed registry ->
  well_keyed (snd (for_each discover devices registry)).
Proof.
  revert registry. induction devices as [|device rest IH]; intros registry Inv.
  - exact Inv.
  - cbn [for_each]. unfold bind.
    pose proof (discover_well_keyed device registry Inv) as Step.
    destruct (discover device registry) as [[u|e] registry']; cbn [snd] in *.
    + apply IH. exact Step.
    + exact Step.
Qed.

Lemma well_keyed_nil : well_keyed [].
Proof. split; constructor. Qed.

Lemma fetch_all_heaters_well_keyed (self : MyEldom) (wire : list request) :
  well_keyed (heaters self) ->
  well_keyed (heaters (fst (snd (fetch_all_heaters net (self, wire))))).
Proof.
  intros Inv. destruct (heaters self) as [|kh r] eqn:Hs.
  - rewrite (fetch_all_heaters_empty net _ _ Hs).
    destruct (get_device_list net wire) as [[data|e] w]; cbn [fst snd];
      [| apply well_keyed_nil].
    destruct (is_None data); [apply well_keyed_nil |].
    destruct (iter data) as [devices|e]; [| apply well_keyed_nil].
    pose proof (for_each_discover_well_keyed devices [] well_keyed_nil) as D.
    destruct (for_each discover devices []) as [[u|e] registry];
      cbn [fst snd heaters with_heaters] in *; [| exact D].
    pose proof (gather_same_records registry w) as G.
    destruct (gather net registry w) as [[e hs'] w'].
    cbn [fst snd heaters with_heaters] in *.
    exact (same_records_well_keyed _ _ G D).
  - assert (NE : heaters self <> []) by (rewrite Hs; discriminate).
    rewrite (fetch_all_heaters_populated net _ _ NE).
    pose proof (gather_same_records (heaters self) wire) as G.
    destruct (gather net (heaters self) wire) as [[e hs'] w'].
    cbn [fst snd heaters with_heaters] in *.
    rewrite Hs in G. exact (same_records_well_keyed _ _ G Inv).
Qed.

Lemma perform_well_keyed (st : MyEldom * list request) (c : call) :
  well_keyed (heaters (fst st)) ->
  well_keyed (heaters (fst (perform net st c))).
Proof.
  intros Inv. destruct c as [retry| | | | |n|n t|n s]; cbn [perform].
  - rewrite connect_keeps_heaters. exact Inv.
  - unfold on_snd. destruct (get_user_info net (snd st)). exact Inv.
  - unfold on_snd. destruct (get_device_groups net (snd st)). exact Inv.
  - unfold on_snd. destruct (get_device_list net (snd st)). exact Inv.
  - destruct st as [self wire]. apply fetch_all_heaters_well_keyed. exact Inv.
  - refine (same_records_well_keyed _ _ _ Inv).
    apply on_heater_same_records. intros h w.
    apply fetch_heater_data_same_device.
  - refine (same_records_well_keyed _ _ _ Inv).
    apply on_heater_same_records. intros h w.
    apply set_temperature_same_device.
  - refine (same_records_well_keyed _ _ _ Inv).
    apply on_heater_same_records. intros h w.
    apply set_state_same_device.
Qed.

Lemma calls_well_keyed (calls : list call) (st : MyEldom * list request) :
  well_keyed (heaters (fst st)) ->
  well_keyed (heaters (fst (fold_left (perform net) calls st))).
Proof.
  revert st. induction calls as [|c rest IH]; intros st Inv; cbn [fold_left].
  - exact Inv.
  - apply IH. apply perform_well_keyed. exact Inv.
Qed.

(** X14.  An entity keeps the [real_device_id] of the record it was made
    from and looks its heater up under it in the dictionary
    [fetch_all_heaters] returns, a copy of the registry.  For a heater
    registered under a string key the lookup in the registry finds the
    heater at the same place, whatever calls were made on the client
    before the entity was made and whatever calls are made afterwards. *)
Theorem lookup_by_real_device_id
        (email password : string) (now : nat) (wire : list request)
        (earlier later : list call) (n : nat) (s : string) (h : Heater) :
  let st := fold_left (perform net) earlier (new_MyEldom email password now, wire) in
  let st' := fold_left (perform net) later st in
  nth_error (heaters (fst st)) n = Some (PyStr s, h) ->
  exists h',
    nth_error (heaters (fst st')) n = Some (PyStr s, h') /\
    registry_get (real_device_id h) (heaters (fst st')) = Some h'.
Proof.
  intros st st' N.
  assert (NE : heaters (fst st) <> []).
  { intros E. rewrite E in N. destruct n; discriminate N. }
  pose proof (calls_same_records later st NE) as Frozen.
  fold st' in Frozen.
  assert (Inv : well_keyed (heaters (fst st'))).
  { unfold st', st. rewrite <- fold_left_app. apply calls_well_keyed.
    apply well_keyed_nil. }
  assert (N' : exists h', nth_error (heaters (fst st')) n = Some (PyStr s, h') /\
                          real_device_id h' = real_device_id h).
  { clear Inv NE. revert n N.
    induction Frozen as [|x y l l' [K (_ & _ & _ & _ & R & _)] _ IH];
      intros [|n] N; cbn in N; try discriminate.
    - injection N as ->. destruct y as [k' h']. cbn [fst snd] in *. subst k'.
      exists h'. split; [reflexivity | exact R].
    - exact (IH n N). }
  destruct N' as (h' & N' & R). exists h'. split; [exact N' |].
  rewrite <- R. exact (well_keyed_lookup _ _ _ _ Inv N').
Qed.

End Lifetime.

(* ===================================================================== *)
(** * The climate entity *)
(* ===================================================================== *)

Section EntityProperties.

Variable net : network.

(** X15.  Setting the mode of the entity sends one [setState] command for
    the heater, with state 1 for the mode [heat] and state 0 for every
    other mode, followed only by retries of it; the heater object is left
    as it was, so the mode the entity reports does not change before the
    next refresh. *)
Theorem set_hvac_mode_command (mode : string) (h : Heater) (wire : list request) :
  let s := if (mode =? "heat")%string then 1 else 0 in
  let command := Lit "/api/panelconvector/setState" in
  let payload := PyDict [("deviceId", real_device_id h); ("state", PyInt s)] in
  (exists n,
      snd (snd (async_set_hvac_mode net mode (h, wire)))
      = wire ++ POST command payload :: repeat (GET command payload) n) /\
  fst (snd (async_set_hvac_mode net mode (h, wire))) = h /\
  hvac_mode (fst (snd (async_set_hvac_mode net mode (h, wire)))) = hvac_mode h.
Proof.
  intros s command payload. subst s command payload.
  unfold async_set_hvac_mode, HVAC_MODE_HEAT.
  assert (Each : forall s,
             (exists n,
                 snd (snd (bind (set_state net s) (fun _ => ret tt) (h, wire)))
                 = wire ++ POST (Lit "/api/panelconvector/setState")
                             (PyDict [("deviceId", real_device_id h);
                                      ("state", PyInt s)])
                        :: repeat (GET (Lit "/api/panelconvector/setState")
                                     (PyDict [("deviceId", real_device_id h);
                                              ("state", PyInt s)])) n) /\
             fst (snd (bind (set_state net s) (fun _ => ret tt) (h, wire))) = h).
  { intros s. unfold bind.
    destruct (set_state_unfold net s h wire) as (v & w & E & U).
    unfold state_response, state_payload in E.
    destruct (_post_request_sends net (Lit "/api/panelconvector/setState")
                (PyDict [("deviceId", real_device_id h); ("state", PyInt s)])
                3 wire) as (v' & n & P).
    rewrite P in E. injection E as <- <-.
    rewrite U. split.
    - exists n. destruct (acknowledged v'); reflexivity.
    - destruct (acknowledged v'); reflexivity. }
  destruct (mode =? "heat")%string.
  - destruct (Each 1) as [W H]. split; [exact W |]. rewrite H. auto.
  - destruct (Each 0) as [W H]. split; [exact W |]. rewrite H. auto.
Qed.

(** X16.  What the entity reports after a refresh.  After one that brought
    data the mode is [heat] exactly when the [State] of the status object
    equals 1, and the current temperature is the [AmbientTemp] of the
    status object as it came, not converted to a number; after one that
    brought none, both are what they were. *)
Theorem hvac_mode_after_refresh
        (h h' : Heater) (b : bool) (wire wire' : list request) :
  fetch_heater_data net (h, wire) = (Return b, (h', wire')) ->
  if b then
    exists data status,
      status_data net h wire = (Return data, wire') /\
      status_payload data = Return status /\
      hvac_mode h' = (if scalar_eqb (field status "State") (PyInt 1)
                      then "heat" else "off") /\
      current_temperature h' = field status "AmbientTemp"
  else hvac_mode h' = hvac_mode h /\
       current_temperature h' = current_temperature h.
Proof.
  intros F. destruct b.
  - destruct (fetch_heater_data_true_inv net _ _ _ _ F) as (data & rd & E & _ & D & ->).
    destruct (decode_inv _ _ D) as (Hs & _).
    exists data, (r_status rd). split; [exact E |]. split; [exact Hs |].
    split; reflexivity.
  - pose proof (fetch_heater_data_returned net h wire false) as R.
    rewrite F in R. cbn [fst snd] in R.
    destruct (R eq_refl) as [[_ ->] | [Abs _]];
      [split; reflexivity | discriminate Abs].
Qed.

(** X21.  Setting the temperature of the entity sends nothing when no
    temperature is given.  Given one, the target temperature the entity
    reports becomes it exactly when the command is acknowledged and is
    otherwise what it was; the entity drops the method's boolean and lets
    its exception through. *)
Theorem entity_target_temperature
        (temperature : option float) (h : Heater) (wire : list request) :
  match temperature with
  | None => async_set_temperature net None (h, wire) = (Return tt, (h, wire))
  | Some t =>
      exists resp w,
        temperature_response net h t wire = (Return resp, w) /\
        snd (snd (async_set_temperature net (Some t) (h, wire))) = w /\
        target_temperature (fst (snd (async_set_temperature net (Some t) (h, wire))))
        = match acknowledged resp with
          | Return true => Some t
          | _ => target_temperature h
          end /\
        fst (async_set_temperature net (Some t) (h, wire))
        = match acknowledged resp with
          | Return _ => Return tt
          | Raise e => Raise e
          end
  end.
Proof.
  destruct temperature as [t|]; [| reflexivity].
  destruct (set_temperature_unfold net t h wire) as (resp & w & E & U).
  exists resp, w. split; [exact E |].
  unfold async_set_temperature, bind. rewrite U.
  destruct (acknowledged resp) as [[|]|]; repeat split.
Qed.

End EntityProperties.

(* ===================================================================== *)
(** * The configuration flow *)
(* ===================================================================== *)

Section FlowProperties.

Variable net : network.
Variable logout : reply.
Variable configured : string -> bool.

Lemma remove_spaces_no_space (s : string) : occurs " " (remove_spaces s) = false.
Proof.
  induction s as [|c r IH]; [reflexivity |]. cbn [remove_spaces].
  destruct (code c =? 32) eqn:E; [exact IH |].
  cbn [occurs]. rewrite IH.
  change (code " ") with 32. rewrite E. reflexivity.
Qed.

(** [connect] by the replies the login attempts get. *)
Lemma connect_outcome (retry : Z) (self : MyEldom) (wire : list request) :
  (fst (connect net retry (self, wire)) = Return true /\
   login_accepted net self wire (Z.to_nat retry)) \/
  (fst (connect net retry (self, wire)) = Return false /\
   login_refused net self wire (Z.to_nat retry)).
Proof.
  rewrite connect_is_login.
  destruct (first_response net self wire (Z.to_nat retry))
    as [All | (k & code & body & Hk & Hfail & Hresp)].
  - right.
    rewrite (_do_login_exhausted net (Z.to_nat retry) retry self wire eq_refl All).
    split; [reflexivity | left; exact All].
  - rewrite (_do_login_answered net k retry self wire code body Hk Hfail Hresp).
    cbn [fst]. destruct (code =? 302) eqn:Q.
    + left. split; [reflexivity |]. apply Z.eqb_eq in Q. subst code.
      exists k, body. auto.
    + right. split; [reflexivity |]. right. apply Z.eqb_neq in Q.
      exists k, code, body. auto.
Qed.

Lemma accepted_not_refused (self : MyEldom) (wire : list request) (budget : nat) :
  login_accepted net self wire budget ->
  login_refused net self wire budget -> False.
Proof.
  intros (k & body & Hk & Hfail & Hresp) [All | (k' & code & body' & Hk' & Hfail' & Hresp' & Ne)].
  - specialize (All k Hk). rewrite Hresp in All. discriminate All.
  - destruct (Nat.lt_trichotomy k k') as [L | [E | L]].
    + specialize (Hfail' k L). rewrite Hresp in Hfail'. discriminate Hfail'.
    + subst k'. rewrite Hresp in Hresp'. injection Hresp' as <- _. apply Ne.
      reflexivity.
    + specialize (Hfail k' L). rewrite Hresp' in Hfail. discriminate Hfail.
Qed.

(** X17.  The setup form never carries an error.  The step shows it when
    there is no input yet and when the login with the typed credentials,
    spaces removed, is refused within two retries; the [cannot_connect]
    it notes in that case stays in a local dictionary. *)
Theorem setup_form_has_no_error
        (user_input : option (string * string)) (wire : list request)
        (errors : list (string * string)) :
  fst (async_step_user net logout configured user_input wire) = ShowForm errors
  <->
  errors = [] /\
  (user_input = None \/
   exists username password,
     user_input = Some (username, password) /\
     login_refused net
       (new_MyEldom (remove_spaces username) (remove_spaces password)
                    (List.length wire)) wire 2).
Proof.
  unfold async_step_user.
  destruct user_input as [[u p]|]; cbn [fst _async_show_setup_form].
  - pose proof (connect_outcome 2
                  (new_MyEldom (remove_spaces u) (remove_spaces p)
                               (List.length wire)) wire) as O.
    change (Z.to_nat 2) with 2%nat in O.
    destruct (connect net 2
                (new_MyEldom (remove_spaces u) (remove_spaces p)
                             (List.length wire), wire))
      as [r [self' wire']]. cbn [fst] in O.
    destruct O as [[-> Acc] | [-> Ref]].
    + split.
      * unfold disconnect. destruct logout; cbn [fst]; try discriminate.
        destruct (configured (remove_spaces u)); discriminate.
      * intros (_ & [Abs | (u' & p' & E & Ref)]); [discriminate Abs |].
        injection E as <- <-.
        destruct (accepted_not_refused _ _ _ Acc Ref).
    + cbn [fst]. split.
      * intros E. injection E as <-. split; [reflexivity |].
        right. exists u, p. auto.
      * intros (-> & _). reflexivity.
  - split.
    + intros E. injection E as <-. auto.
    + intros (-> & _). reflexivity.
Qed.

(** X18.  The step creates an entry exactly when the login with the typed
    credentials, spaces removed, is accepted within two retries, the
    logout exchange completes and the account is not configured yet.  The
    entry is titled with the user name, and the credentials it stores
    contain no space. *)
Theorem entry_created_when
        (typed_username typed_password : string) (wire : list request)
        (title username password : string) :
  (fst (async_step_user net logout configured
          (Some (typed_username, typed_password)) wire)
   = CreateEntry title username password
   <->
   title = remove_spaces typed_username /\
   username = remove_spaces typed_username /\
   password = remove_spaces typed_password /\
   login_accepted net (new_MyEldom username password (List.length wire)) wire 2 /\
   (exists code body, logout = Response code body) /\
   configured username = false) /\
  (fst (async_step_user net logout configured
          (Some (typed_username, typed_password)) wire)
   = CreateEntry title username password ->
   occurs " " username = false /\ occurs " " password = false).
Proof.
  unfold async_step_user.
  pose proof (connect_outcome 2
                (new_MyEldom (remove_spaces typed_username)
                             (remove_spaces typed_password)
                             (List.length wire)) wire) as O.
  change (Z.to_nat 2) with 2%nat in O.
  destruct (connect net 2
              (new_MyEldom (remove_spaces typed_username)
                           (remove_spaces typed_password)
                           (List.length wire), wire))
    as [r [self' wire']]. cbn [fst] in O.
  destruct O as [[-> Acc] | [-> Ref]].
  - unfold disconnect. destruct logout as [ | |code body]; cbn [fst].
    + split; [split |]; try discriminate.
      intros (_ & _ & _ & _ & (c & b & Abs) & _). discriminate Abs.
    + split; [split |]; try discriminate.
      intros (_ & _ & _ & _ & (c & b & Abs) & _). discriminate Abs.
    + destruct (configured (remove_spaces typed_username)) eqn:C; cbn [fst].
      * split; [split |]; try discriminate.
        intros (_ & -> & _ & _ & _ & Abs). rewrite C in Abs. discriminate Abs.
      * split; [split |].
        -- intros E. injection E as <- <- <-.
           repeat split; try assumption. exists code, body. reflexivity.
        -- intros (-> & -> & -> & _). reflexivity.
        -- intros E. injection E as _ <- <-.
           split; apply remove_spaces_no_space.
  - cbn [fst _async_show_setup_form]. split; [split |]; try discriminate.
    intros (_ & -> & -> & Acc & _). destruct (accepted_not_refused _ _ _ Acc Ref).
Qed.

End FlowProperties.

(* ===================================================================== *)
(** * A discovery that is interrupted *)
(* ===================================================================== *)

Section Interrupted.

Variable net : network.

Lemma for_each_discover_stops (before after : list value) (device : value)
      (registry : list (value * Heater)) (e : exn) :
  fst (for_each discover before registry) = Return tt ->
  fst (discover device (snd (for_each discover before registry))) = Raise e ->
  for_each discover (before ++ device :: after) registry
  = (Raise e, snd (discover device (snd (for_each discover before registry)))).
Proof.
  revert registry. induction before as [|d rest IH]; intros registry R F.
  - cbn [app for_each] in *. unfold ret in *. cbn [fst snd] in *. unfold bind.
    destruct (discover device registry) as [[u|x] registry']; cbn [fst snd] in *;
      [discriminate F |].
    injection F as ->. reflexivity.
  - cbn [app for_each] in *. unfold bind in *.
    destruct (discover d registry) as [[u|x] registry']; cbn [fst snd] in *;
      [| discriminate R].
    apply IH; assumption.
Qed.

Lemma discover_raise_keys (device : value) (registry : list (value * Heater))
      (e : exn) :
  fst (discover device registry) = Raise e ->
  keys (snd (discover device registry)) = keys registry.
Proof.
  intros F.
  destruct (discover_keys device registry) as [E | (k & _ & _ & _ & R & _)];
    [exact E |].
  rewrite R in F. discriminate F.
Qed.

(** X19.  When the discovery loop raises on a listed device, the call
    raises that exception at once: the devices listed after it are not
    looked at, no heater is refreshed, and the registry keeps the keys
    registered from the devices before it. *)
Theorem interrupted_discovery
        (self : MyEldom) (wire : list request) (data : value)
        (before after : list value) (device : value) (e : exn) :
  heaters self = [] ->
  fst (get_device_list net wire) = Return data ->
  iter data = Return (before ++ device :: after) ->
  fst (for_each discover before []) = Return tt ->
  fst (discover device (snd (for_each discover before []))) = Raise e ->
  fst (fetch_all_heaters net (self, wire)) = Raise e /\
  snd (snd (fetch_all_heaters net (self, wire))) = snd (get_device_list net wire) /\
  keys (heaters (fst (snd (fetch_all_heaters net (self, wire)))))
  = keys (snd (for_each discover before [])).
Proof.
  intros Em D It R F. rewrite (fetch_all_heaters_empty net _ _ Em).
  destruct (get_device_list net wire) as [[data0|x] w]; cbn [fst snd] in *;
    [| discriminate D].
  injection D as ->.
  destruct (is_None data) eqn:N.
  { destruct data; try discriminate N. discriminate It. }
  rewrite It, (for_each_discover_stops before after device [] e R F).
  cbn [fst snd heaters with_heaters].
  split; [reflexivity |]. split; [reflexivity |].
  apply discover_raise_keys with (e := e). exact F.
Qed.

End Interrupted.

(* ===================================================================== *)
(** * Status codes *)
(* ===================================================================== *)

Section StatusCodes.

Variable net : network.

Lemma _get_request_blind (c : text) (p : value) (retry : Z) (wire : list request) :
  _get_request (blind net) c p retry wire = _get_request net c p retry wire.
Proof.
  funelim (_get_request net c p retry wire).
  - erewrite (_get_request_ClientError (blind net)); [reflexivity |].
    cbn [blind]. rewrite Heq. reflexivity.
  - erewrite (_get_request_Response (blind net)); [reflexivity |].
    cbn [blind]. rewrite Heq. reflexivity.
  - erewrite (_get_request_Timeout_last (blind net)); [reflexivity | | assumption].
    cbn [blind]. rewrite Heq0. reflexivity.
  - erewrite (_get_request_Timeout_retry (blind net)); [exact H | | lia].
    cbn [blind]. rewrite Heq0. reflexivity.
Qed.

Lemma _post_request_blind (c : text) (p : value) (retry : Z) (wire : list request) :
  _post_request (blind net) c p retry wire = _post_request net c p retry wire.
Proof.
  unfold _post_request. cbn [blind].
  destruct (net wire (POST c p)); cbn [forget_status]; try reflexivity.
  destruct (retry <? 1); [reflexivity | apply _get_request_blind].
Qed.

Lemma fetch_heater_data_blind (x : Heater * list request) :
  fetch_heater_data (blind net) x = fetch_heater_data net x.
Proof.
  unfold fetch_heater_data.
  unfold bind at 1. unfold gets at 1. cbn [fst].
  unfold bind at 1. unfold on_snd at 1.
  rewrite _get_request_blind. reflexivity.
Qed.

Lemma set_temperature_blind (t : float) (x : Heater * list request) :
  set_temperature (blind net) t x = set_temperature net t x.
Proof.
  destruct x as [h wire].
  destruct (set_temperature_unfold (blind net) t h wire) as (v & w & E & ->).
  destruct (set_temperature_unfold net t h wire) as (v' & w' & E' & ->).
  unfold temperature_response in *. rewrite _post_request_blind in E.
  rewrite E in E'. injection E' as <- <-. reflexivity.
Qed.

Lemma set_state_blind (s : Z) (x : Heater * list request) :
  set_state (blind net) s x = set_state net s x.
Proof.
  destruct x as [h wire].
  destruct (set_state_unfold (blind net) s h wire) as (v & w & E & ->).
  destruct (set_state_unfold net s h wire) as (v' & w' & E' & ->).
  unfold state_response in *. rewrite _post_request_blind in E.
  rewrite E in E'. injection E' as <- <-. reflexivity.
Qed.

Lemma gather_blind (tasks : list (value * Heater)) (wire : list request) :
  gather (blind net) tasks wire = gather net tasks wire.
Proof.
  revert wire. induction tasks as [|[k h] rest IH]; intros wire; cbn [gather];
    [reflexivity |].
  rewrite fetch_heater_data_blind.
  destruct (fetch_heater_data net (h, wire)) as [r [h' w']].
  rewrite IH. reflexivity.
Qed.

Lemma get_device_list_blind (wire : list request) :
  get_device_list (blind net) wire = get_device_list net wire.
Proof. unfold get_device_list. apply _get_request_blind. Qed.

Lemma fetch_all_heaters_blind (x : MyEldom * list request) :
  fetch_all_heaters (blind net) x = fetch_all_heaters net x.
Proof.
  destruct x as [self wire]. destruct (heaters self) as [|kh r] eqn:Hs.
  - rewrite (fetch_all_heaters_empty (blind net) _ _ Hs),
            (fetch_all_heaters_empty net _ _ Hs).
    rewrite get_device_list_blind.
    destruct (get_device_list net wire) as [[data|e] w]; [| reflexivity].
    destruct (is_None data); [reflexivity |].
    destruct (iter data) as [devices|e]; [| reflexivity].
    destruct (for_each discover devices []) as [[u|e] registry]; [| reflexivity].
    rewrite gather_blind. reflexivity.
  - assert (NE : heaters self <> []) by (rewrite Hs; discriminate).
    rewrite (fetch_all_heaters_populated (blind net) _ _ NE),
            (fetch_all_heaters_populated net _ _ NE).
    rewrite gather_blind. reflexivity.
Qed.

(** X20.  No request but the login looks at the status code of its
    response: each method gives the same result, leaves the same state
    and sends the same requests against a service as against the same
    service with every such response turned into a 200.  A page of
    another status whose body is JSON is taken for data. *)
Theorem status_code_is_ignored :
  (forall c p retry wire,
      _get_request (blind net) c p retry wire = _get_request net c p retry wire) /\
  (forall c p retry wire,
      _post_request (blind net) c p retry wire = _post_request net c p retry wire) /\
  (forall x, fetch_heater_data (blind net) x = fetch_heater_data net x) /\
  (forall t x, set_temperature (blind net) t x = set_temperature net t x) /\
  (forall s x, set_state (blind net) s x = set_state net s x) /\
  (forall x, fetch_all_heaters (blind net) x = fetch_all_heaters net x).
Proof.
  split; [exact _get_request_blind |].
  split; [exact _post_request_blind |].
  split; [exact fetch_heater_data_blind |].
  split; [exact set_temperature_blind |].
  split; [exact set_state_blind |].
  exact fetch_all_heaters_blind.
Qed.

End StatusCodes.

(* ===================================================================== *)
(** * The further properties at work *)
(* ===================================================================== *)

(** A heater run by a timer shows the timer's temperature, not [SetTemp]. *)
Lemma target_temperature_source_witness :
  fst (fetch_heater_data (answers (envelope status_timer)) (living_room, []))
  = Return true /\
  exists data text status t,
    status_data (answers (envelope status_timer)) living_room []
    = (Return data, [status_request living_room]) /\
    getitem data "objectJson" = Return (PyStr text) /\
    Json.loads text = Some status /\
    to_float (field status (if substring_of "TimerSTempA" text
                            then "TimerSTempA" else "SetTemp")) = Return t /\
    set_temp (fst (snd (fetch_heater_data (answers (envelope status_timer))
                          (living_room, [])))) = Some t.
Proof.
  split; [vm_compute; reflexivity |].
  apply (target_temperature_source (answers (envelope status_timer))
           living_room _ [] _).
  vm_compute. reflexivity.
Defined.

Example timer_temperature :
  set_temp (fst (snd (fetch_heater_data (answers (envelope status_timer))
                        (living_room, []))))
  = Some (float_of_Z 18).
Proof. vm_compute. reflexivity. Qed.

Lemma refresh_idempotent_witness :
  fst (fetch_heater_data healthy (living_room, [])) = Return true /\
  fst (fetch_heater_data healthy
         (fst (snd (fetch_heater_data healthy (living_room, []))),
          [status_request living_room])) = Return true /\
  fst (snd (fetch_heater_data healthy
              (fst (snd (fetch_heater_data healthy (living_room, []))),
               [status_request living_room])))
  = fst (snd (fetch_heater_data healthy (living_room, []))).
Proof.
  split; [vm_compute; reflexivity |].
  apply (refresh_idempotent (healthy []) living_room
           (fst (snd (fetch_heater_data healthy (living_room, []))))
           true [] [status_request living_room] [status_request living_room]).
  vm_compute. reflexivity.
Defined.

Lemma refresh_request_count_witness :
  heaters three_heaters <> [] /\
  exists sent,
    snd (snd (fetch_all_heaters second_unreachable (three_heaters, [])))
    = [] ++ sent /\
    (List.length (heaters three_heaters) <= List.length sent
     <= 4 * List.length (heaters three_heaters))%nat.
Proof.
  split; [discriminate |].
  apply (refresh_request_count second_unreachable three_heaters []).
  discriminate.
Defined.

(** ** Discovery *)

Lemma discovery_registers_listed_heaters_witness :
  heaters login_as = [] /\
  In (PyStr "A9D6C1CEF85A")
     (keys (heaters (fst (snd (fetch_all_heaters healthy (login_as, [])))))) /\
  exists data devices device,
    fst (get_device_list healthy []) = Return data /\
    iter data = Return devices /\
    In device devices /\
    is_heater device = true /\
    get device "realDeviceId" = Return (PyStr "A9D6C1CEF85A").
Proof.
  split; [reflexivity |].
  split; [vm_compute; left; reflexivity |].
  apply (discovery_registers_listed_heaters healthy login_as []
           (PyStr "A9D6C1CEF85A")).
  - reflexivity.
  - vm_compute. left. reflexivity.
Defined.

(** The boiler of the same account is left out. *)
Example discovery_then_keys :
  keys (heaters (fst (snd (fetch_all_heaters healthy (login_as, [])))))
  = [PyStr "A9D6C1CEF85A"] /\
  map is_heater (listed healthy) = [true; false].
Proof. split; vm_compute; reflexivity. Qed.

Lemma discovery_registers_every_heater_witness :
  heaters login_as = [] /\
  is_heater (nth 0 (listed healthy) PyNone) = true /\
  exists k',
    In k' (keys (heaters (fst (snd (fetch_all_heaters healthy (login_as, []))))))
    /\ (k' = PyStr "A9D6C1CEF85A" \/
        scalar_eqb k' (PyStr "A9D6C1CEF85A") = true).
Proof.
  split; [reflexivity |].
  split; [vm_compute; reflexivity |].
  apply (discovery_registers_every_heater healthy login_as
           (fst (snd (fetch_all_heaters healthy (login_as, []))))
           []
           (snd (snd (fetch_all_heaters healthy (login_as, []))))
           (heaters (fst (snd (fetch_all_heaters healthy (login_as, [])))))
           (body_data device_list_text)
           (listed healthy)
           (nth 0 (listed healthy) PyNone)
           (PyStr "A9D6C1CEF85A")).
  - reflexivity.
  - vm_compute. reflexivity.
  - vm_compute. reflexivity.
  - vm_compute. reflexivity.
  - vm_compute. left. reflexivity.
  - vm_compute. reflexivity.
  - vm_compute. reflexivity.
Defined.

Lemma discovery_without_heaters_witness :
  heaters login_as = [] /\
  map is_heater (listed only_a_boiler) = [false] /\
  fetch_all_heaters only_a_boiler (login_as, [])
  = (Return [], (login_as, snd (get_device_list only_a_boiler []))).
Proof.
  split; [reflexivity |].
  split; [vm_compute; reflexivity |].
  apply (discovery_without_heaters only_a_boiler login_as []
           (PyList (listed only_a_boiler))).
  - reflexivity.
  - vm_compute. reflexivity.
  - right. exists (listed only_a_boiler).
    split; [vm_compute; reflexivity |].
    vm_compute. constructor; [| constructor].
    exists (PyInt 1). split; reflexivity.
Defined.

Lemma interrupted_discovery_witness :
  heaters login_as = [] /\
  fst (fetch_all_heaters second_undated (login_as, [])) = Raise ValueError /\
  snd (snd (fetch_all_heaters second_undated (login_as, [])))
  = snd (get_device_list second_undated []) /\
  keys (heaters (fst (snd (fetch_all_heaters second_undated (login_as, [])))))
  = keys (snd (for_each discover (firstn 1 (listed second_undated)) [])).
Proof.
  split; [reflexivity |].
  apply (interrupted_discovery second_undated login_as []
           (PyList (listed second_undated))
           (firstn 1 (listed second_undated))
           (skipn 2 (listed second_undated))
           (nth 1 (listed second_undated) PyNone)
           ValueError).
  - reflexivity.
  - vm_compute. reflexivity.
  - vm_compute. reflexivity.
  - vm_compute. reflexivity.
  - vm_compute. reflexivity.
Defined.

(** Of the three heaters listed only the first is ever registered: the
    second stops the discovery, and the next call, finding the registry
    populated, does not ask for the list again. *)
Example third_heater_is_never_registered :
  let st := fold_left (perform second_undated) [FetchAll; FetchAll; FetchAll]
              (login_as, []) in
  keys (heaters (fst st)) = [PyStr "D1"] /\
  List.length (filter (fun rq => match rq with
                                 | GET (Lit _) _ => true
                                 | _ => false
                                 end) (snd st)) = 1%nat.
Proof. split; vm_compute; reflexivity. Qed.

(** ** What a call hands back *)

Lemma returned_heaters_are_settled_witness :
  fst (fetch_all_heaters second_unreachable (three_heaters, []))
  = Return (heaters (fst (snd (fetch_all_heaters second_unreachable
                                 (three_heaters, []))))) /\
  Forall (fun kh => exists b, available (snd kh) = Some b /\
                              (b = true -> last_updated (snd kh) <> None))
         (heaters (fst (snd (fetch_all_heaters second_unreachable
                               (three_heaters, []))))).
Proof.
  split; [vm_compute; reflexivity |].
  destruct (returned_heaters_are_settled second_unreachable three_heaters
              (fst (snd (fetch_all_heaters second_unreachable (three_heaters, []))))
              []
              (snd (snd (fetch_all_heaters second_unreachable (three_heaters, []))))
              (heaters (fst (snd (fetch_all_heaters second_unreachable
                                    (three_heaters, []))))))
    as [_ Settled].
  - vm_compute. reflexivity.
  - exact Settled.
Defined.

Lemma refresh_exception_origin_witness :
  heaters three_heaters <> [] /\
  fst (fetch_all_heaters second_malformed (three_heaters, [])) = Raise KeyError /\
  exists k h w,
    In (k, h) (heaters three_heaters) /\
    let data := reply_data (second_malformed w (status_request h)) in
    is_None data = false /\
    decode data = Raise KeyError.
Proof.
  destruct (refresh_exception_origin second_malformed) as [Origin _].
  split; [discriminate |].
  split; [vm_compute; reflexivity |].
  apply (Origin three_heaters [] KeyError).
  - discriminate.
  - vm_compute. reflexivity.
Defined.

(** The second heater is the one whose status does not decode. *)
Example undecodable_status :
  map (fun kh => decode (reply_data (second_malformed []
                                       (status_request (snd kh)))))
      (heaters three_heaters)
  = [decode (body_data (envelope status_ok)); Raise KeyError;
     decode (body_data (envelope status_ok))] /\
  exists rd, decode (body_data (envelope status_ok)) = Return rd.
Proof. split; [| eexists]; vm_compute; reflexivity. Qed.

(** ** The registry over the life of a client *)

Lemma registry_is_frozen_witness :
  heaters (fst (three_heaters, @nil request)) <> [] /\
  Forall2 (fun before after =>
             fst after = fst before /\ same_device (snd before) (snd after))
          (heaters three_heaters)
          (heaters (fst (fold_left (perform second_unreachable)
                                   [FetchAll; SetState 0 0; Refresh 2;
                                    SetTemperature 1 half_degree_up; FetchAll]
                                   (three_heaters, [])))).
Proof.
  split; [discriminate |].
  apply (registry_is_frozen second_unreachable
           [FetchAll; SetState 0 0; Refresh 2;
            SetTemperature 1 half_degree_up; FetchAll]
           (three_heaters, [])).
  discriminate.
Defined.

Lemma lookup_by_real_device_id_witness :
  nth_error (heaters (fst after_first_refresh)) 0
  = Some (PyStr "A9D6C1CEF85A", record_at 0 after_first_refresh) /\
  exists h',
    nth_error (heaters (fst (fold_left (perform healthy)
                               [SetTemperature 0 half_degree_up; FetchAll]
                               after_first_refresh))) 0
    = Some (PyStr "A9D6C1CEF85A", h') /\
    registry_get (real_device_id (record_at 0 after_first_refresh))
      (heaters (fst (fold_left (perform healthy)
                       [SetTemperature 0 half_degree_up; FetchAll]
                       after_first_refresh)))
    = Some h'.
Proof.
  split; [vm_compute; reflexivity |].
  apply (lookup_by_real_device_id healthy "user@example.org" "secret" 0 []
           [Connect 2; FetchAll]
           [SetTemperature 0 half_degree_up; FetchAll]
           0 "A9D6C1CEF85A" (record_at 0 after_first_refresh)).
  vm_compute. reflexivity.
Defined.

(** ** The climate entity *)

Lemma hvac_mode_after_refresh_witness :
  fst (fetch_heater_data (answers (envelope status_ok)) (living_room, []))
  = Return true /\
  exists data status,
    status_data (answers (envelope status_ok)) living_room []
    = (Return data, [status_request living_room]) /\
    status_payload data = Return status /\
    hvac_mode (fst (snd (fetch_heater_data (answers (envelope status_ok))
                           (living_room, []))))
    = (if scalar_eqb (field status "State") (PyInt 1) then "heat" else "off") /\
    current_temperature (fst (snd (fetch_heater_data (answers (envelope status_ok))
                                     (living_room, []))))
    = field status "AmbientTemp".
Proof.
  split; [vm_compute; reflexivity |].
  apply (hvac_mode_after_refresh (answers (envelope status_ok))
           living_room _ true [] _).
  vm_compute. reflexivity.
Defined.

(** A heater that was never refreshed reads as off, one whose status says
    [State] 1 as heating; and any mode but [heat] switches the heater
    off. *)
Example modes :
  hvac_mode living_room = "off" /\
  hvac_mode (fst (snd (fetch_heater_data (answers (envelope status_ok))
                         (living_room, [])))) = "heat" /\
  snd (snd (async_set_hvac_mode healthy "cool" (living_room, [])))
  = [POST (Lit "/api/panelconvector/setState") (state_payload living_room 0)].
Proof. repeat split; vm_compute; reflexivity. Qed.

(** ** The configuration flow *)

(** A login that is refused brings the form back without a word; spaces
    typed into the credentials are gone from the entry. *)
Example configuration_steps :
  fst (async_step_user (scripted [Response 200 ""]) (Response 302 "")
         (fun _ => false) (Some ("user@example.org", "secret")) [])
  = ShowForm [] /\
  fst (async_step_user healthy (Response 302 "") (fun _ => false)
         (Some (" user@example.org ", "se cret")) [])
  = CreateEntry "user@example.org" "user@example.org" "secret" /\
  fst (async_step_user healthy (Response 302 "") (fun _ => true)
         (Some ("user@example.org", "secret")) [])
  = AbortFlow "already_configured".
Proof. repeat split; vm_compute; reflexivity. Qed.

(** ** Status codes *)

(** An error page that carries a status envelope refreshes the heater. *)
Example error_page_taken_for_data :
  fst (fetch_heater_data (scripted [Response 500 (envelope status_ok)])
         (living_room, [])) = Return true /\
  fst (snd (fetch_heater_data (scripted [Response 500 (envelope status_ok)])
              (living_room, [])))
  = fst (snd (fetch_heater_data (answers (envelope status_ok)) (living_room, []))).
Proof. split; vm_compute; reflexivity. Qed.
